(** * GstCamera: the camera adapter of packages/camera/elinux/gst_camera.cc

    The adapter is a thin layer over the GStreamer object model.  Every
    call that leaves the adapter (into GStreamer, GLib, the C++ runtime or
    the host's callbacks) is an element of [Call]; the library's answers
    are supplied by an arbitrary environment [lib], so every statement
    below holds for every behaviour of the wrapped library.  A method of
    the class is a computation that threads the object's fields and the
    library's state and emits the trace of the calls it made. *)

From Stdlib Require Import ZArith List String Bool Lia.
From Stdlib Require Import QArith Qround.
From Stdlib Require Import Floats.SpecFloat.
Import ListNotations.

Local Open Scope string_scope.
Local Open Scope list_scope.
Local Open Scope Z_scope.

(** ** Machine data *)

(** A C pointer: [None] is [nullptr]. *)
Definition Ptr := option positive.

Definition is_null (p : Ptr) : bool :=
  match p with None => true | Some _ => false end.

(** [int] is 32 bits wide: [sint32] is the two's complement value of the low
    32 bits, [imul] the product as the machine computes it, and [uint32] the
    conversion to [uint32_t]. *)
Definition sint32 (z : Z) : Z := (z + 2 ^ 31) mod 2 ^ 32 - 2 ^ 31.
Definition imul (a b : Z) : Z := sint32 (a * b).
Definition uint32 (z : Z) : Z := z mod 2 ^ 32.

Definition INT_MIN : Z := - 2 ^ 31.
Definition INT_MAX : Z := 2 ^ 31 - 1.

(** *** The C++ type [float]: IEEE 754 binary32 *)

Definition prec32 : Z := 24.
Definition emax32 : Z := 128.

Record float : Type := mkFloat {
  fval : spec_float;
  fvalid : valid_binary prec32 emax32 fval = true
}.

(** [a < b] and [a > b] on [float]; both are false when an operand is NaN. *)
Definition flt (a b : float) : bool := SFltb (fval a) (fval b).
Definition fgt (a b : float) : bool := SFltb (fval b) (fval a).
Definition fle (a b : float) : bool := SFleb (fval a) (fval b).

(** The literals [0.0] and [3.0] converted to [float]. *)
Definition f0_0 : float := mkFloat (S754_zero false) eq_refl.
Definition f3_0 : float := mkFloat (S754_finite false 12582912 (-22)) eq_refl.

(** [static_cast<int>(f)]: the mantissa is shifted by the exponent, which
    drops the fractional bits, and the sign is applied afterwards.  The
    conversion is undefined ([None]) for NaN, the infinities and values
    whose integral part does not fit [int]. *)
Definition shift_mantissa (m : positive) (e : Z) : Z :=
  if 0 <=? e then Z.shiftl (Z.pos m) e else Z.shiftr (Z.pos m) (- e).

Definition static_cast_int (f : float) : option Z :=
  match fval f with
  | S754_zero _ => Some 0
  | S754_finite s m e =>
      let k := cond_Zopp s (shift_mantissa m e) in
      if (INT_MIN <=? k) && (k <=? INT_MAX) then Some k else None
  | S754_infinity _ | S754_nan => None
  end.

(** The rational number a finite [float] denotes, and truncation toward
    zero of a rational: the reference against which [static_cast_int] is
    checked. *)
Definition float_value (f : float) : option Q :=
  match fval f with
  | S754_zero _ => Some (inject_Z 0)
  | S754_finite s m e =>
      Some (if 0 <=? e
            then inject_Z (cond_Zopp s (Z.pos m * 2 ^ e))
            else Qmake (cond_Zopp s (Z.pos m)) (Z.to_pos (2 ^ (- e))))
  | S754_infinity _ | S754_nan => None
  end.

Definition Qtruncate (q : Q) : Z :=
  if Qle_bool (inject_Z 0) q then Qfloor q else Qceiling q.

(** ** GStreamer enumerations (gst/gstelement.h, gst/gstmessage.h,
    gst/gstbus.h) *)

Inductive GstState :=
| GST_STATE_VOID_PENDING | GST_STATE_NULL | GST_STATE_READY
| GST_STATE_PAUSED | GST_STATE_PLAYING.

Inductive GstStateChangeReturn :=
| GST_STATE_CHANGE_FAILURE | GST_STATE_CHANGE_SUCCESS
| GST_STATE_CHANGE_ASYNC | GST_STATE_CHANGE_NO_PREROLL.

Definition is_failure (r : GstStateChangeReturn) : bool :=
  match r with GST_STATE_CHANGE_FAILURE => true | _ => false end.

Definition is_async (r : GstStateChangeReturn) : bool :=
  match r with GST_STATE_CHANGE_ASYNC => true | _ => false end.

Inductive GstBusSyncReply := GST_BUS_DROP | GST_BUS_PASS | GST_BUS_ASYNC.

(** [GstMessageType] is a flags enumeration; a message carries its type as
    an integer. *)
Definition GstMessageType := Z.
Definition GST_MESSAGE_ERROR : GstMessageType := Z.shiftl 1 1.
Definition GST_MESSAGE_WARNING : GstMessageType := Z.shiftl 1 2.
Definition GST_MESSAGE_ELEMENT : GstMessageType := Z.shiftl 1 15.

(** ** Values handed over by the library *)

Inductive GValue :=
| GString (s : string)
| GInt (z : Z)
| GBoolean (b : bool).

Record GstStructure := mkStructure {
  st_name : string;
  st_fields : list (string * GValue)
}.

(** What [g_object_set] is given for a property: a plain value or a boxed
    structure built with [gst_structure_new]. *)
Inductive PropValue :=
| PValue (v : GValue)
| PStructure (s : GstStructure).

Record GError := mkGError { message_text : string }.

Record GstMessage := mkMessage {
  msg_type : GstMessageType;
  msg_src_name : string;
  msg_structure : option GstStructure
}.

Definition gst_structure_has_name (st : GstStructure) (name : string) : bool :=
  String.eqb (st_name st) name.

Fixpoint lookup_field (fields : list (string * GValue)) (name : string)
  : option GValue :=
  match fields with
  | [] => None
  | (k, v) :: rest => if String.eqb k name then Some v else lookup_field rest name
  end.

(** [gst_structure_get_string]: [NULL] when the field is absent or does not
    hold a string. *)
Definition gst_structure_get_string (st : GstStructure) (name : string)
  : option string :=
  match lookup_field (st_fields st) name with
  | Some (GString s) => Some s
  | _ => None
  end.

(** What is streamed into [std::cerr] or [std::cout] before [std::endl]. *)
Inductive LogPart :=
| Text (s : string)
| Float (f : float)
| Int (z : Z).

(** A non-empty [std::function] target of type [OnNotifyCaptured]. *)
Definition Callback := positive.

(** ** Calls that leave the adapter

    The index of [Call] is the type of what the callee hands back. *)
Inductive Call : Type -> Type :=
| gst_pipeline_new (name : string) : Call Ptr
| gst_element_factory_make (factory name : string) : Call Ptr
| gst_pipeline_get_bus (pipeline : Ptr) : Call Ptr
| gst_bus_set_sync_handler (bus : Ptr) : Call unit
| g_object_set (object : Ptr) (props : list (string * PropValue)) : Call unit
| g_signal_connect (object : Ptr) (signal : string) : Call unit
| gst_bin_add_many (bin : Ptr) (elements : list Ptr) : Call unit
| gst_caps_from_string (description : string) : Call Ptr
| gst_caps_unref (caps : Ptr) : Call unit
| gst_element_link_filtered (src dest filter : Ptr) : Call bool
| gst_element_link (src dest : Ptr) : Call bool
| gst_element_set_state (element : Ptr) (state : GstState)
    : Call GstStateChangeReturn
| gst_element_get_state (element : Ptr) : Call GstStateChangeReturn
| gst_object_unref (object : Ptr) : Call unit
| gst_buffer_ref (buf : Ptr) : Call Ptr
| gst_buffer_unref (buf : Ptr) : Call unit
| gst_buffer_extract (buf : Ptr) (offset : Z) (dest : Ptr) (size : Z)
    : Call unit
| gst_pad_get_current_caps (pad : Ptr) : Call Ptr
| gst_caps_get_structure (caps : Ptr) (index : Z) : Call Ptr
  (* the value of the [int] out-variable once the call has returned *)
| gst_structure_get_int (structure : Ptr) (field : string) : Call Z
| gst_message_parse_warning (m : GstMessage) : Call (GError * string)
| gst_message_parse_error (m : GstMessage) : Call (GError * string)
| gst_message_unref (m : GstMessage) : Call unit
| g_printerr (format : string) (args : list string) : Call unit
| g_free (debug : string) : Call unit
| g_error_free (error : GError) : Call unit
  (* the allocation of [new uint32_t[count]], where a null answer stands
     for its failure, and the release done by [unique_ptr::reset] *)
| operator_new_array (count : Z) : Call Ptr
| operator_delete (p : Ptr) : Call unit
| std_cerr (line : list LogPart) : Call unit
| std_cout (line : list LogPart) : Call unit
  (* [mutex_buffer_]: [std::lock_guard] and [std::shared_lock] *)
| mutex_lock : Call unit
| mutex_unlock : Call unit
| mutex_lock_shared : Call unit
| mutex_unlock_shared : Call unit
  (* the host's callbacks *)
| OnNotifyFrameDecoded (handler : Ptr) : Call unit
| invoke_on_notify_captured (cb : Callback) (filename : option string)
    : Call unit.

(** Accesses to the field [gst_.buffer], recorded where the source reads or
    writes it. *)
Inductive Access := LoadBuffer | StoreBuffer (p : Ptr).

Inductive Event :=
| Ev : forall R : Type, Call R -> R -> Event
| Acc : Access -> Event.
Arguments Ev {R} _ _.

(** How a call ends: it returns, or an exception leaves it.  The
    exceptions followed here are those of [new uint32_t[count]]:
    [std::bad_array_new_length] for a negative count, before anything is
    allocated, and [std::bad_alloc] when the allocation fails. *)
Inductive Exception := bad_array_new_length | bad_alloc.

Inductive Completion := Returns | Throws (e : Exception).

Definition returned (r : Completion) : bool :=
  match r with Returns => true | Throws _ => false end.

(** ** The object

    The class declaration (gst_camera.h) is not among the sources read
    here; the members are typed after their use in gst_camera.cc: the
    handles of [gst_] are pointers, the zoom bounds are compared with and
    assigned like the [float] argument of [SetZoomLevel], [width_] and
    [height_] are compared with the [int] the caps report, and
    [on_notify_captured_] is tested for emptiness and called with a file
    name. *)

Record GstElements := mkElements {
  pipeline : Ptr;
  source : Ptr;
  jpegdec : Ptr;
  video_convert : Ptr;
  video_sink : Ptr;
  output : Ptr;
  bus : Ptr;
  buffer : Ptr
}.

Record GstCamera := mkCamera {
  gst_ : GstElements;
  pixels_ : Ptr;
  width_ : Z;
  height_ : Z;
  max_zoom_level_ : float;
  min_zoom_level_ : float;
  on_notify_captured_ : option Callback;
  stream_handler_ : Ptr
}.

Definition set_gst (g : GstElements) (c : GstCamera) : GstCamera :=
  mkCamera g (pixels_ c) (width_ c) (height_ c) (max_zoom_level_ c)
    (min_zoom_level_ c) (on_notify_captured_ c) (stream_handler_ c).

Definition set_pipeline (p : Ptr) (g : GstElements) : GstElements :=
  mkElements p (source g) (jpegdec g) (video_convert g) (video_sink g)
    (output g) (bus g) (buffer g).
Definition set_source (p : Ptr) (g : GstElements) : GstElements :=
  mkElements (pipeline g) p (jpegdec g) (video_convert g) (video_sink g)
    (output g) (bus g) (buffer g).
Definition set_jpegdec (p : Ptr) (g : GstElements) : GstElements :=
  mkElements (pipeline g) (source g) p (video_convert g) (video_sink g)
    (output g) (bus g) (buffer g).
Definition set_video_convert (p : Ptr) (g : GstElements) : GstElements :=
  mkElements (pipeline g) (source g) (jpegdec g) p (video_sink g)
    (output g) (bus g) (buffer g).
Definition set_video_sink (p : Ptr) (g : GstElements) : GstElements :=
  mkElements (pipeline g) (source g) (jpegdec g) (video_convert g) p
    (output g) (bus g) (buffer g).
Definition set_output (p : Ptr) (g : GstElements) : GstElements :=
  mkElements (pipeline g) (source g) (jpegdec g) (video_convert g)
    (video_sink g) p (bus g) (buffer g).
Definition set_bus (p : Ptr) (g : GstElements) : GstElements :=
  mkElements (pipeline g) (source g) (jpegdec g) (video_convert g)
    (video_sink g) (output g) p (buffer g).
Definition set_buffer (p : Ptr) (g : GstElements) : GstElements :=
  mkElements (pipeline g) (source g) (jpegdec g) (video_convert g)
    (video_sink g) (output g) (bus g) p.

Definition set_size (w h : Z) (c : GstCamera) : GstCamera :=
  mkCamera (gst_ c) (pixels_ c) w h (max_zoom_level_ c)
    (min_zoom_level_ c) (on_notify_captured_ c) (stream_handler_ c).
Definition set_pixels (p : Ptr) (c : GstCamera) : GstCamera :=
  mkCamera (gst_ c) p (width_ c) (height_ c) (max_zoom_level_ c)
    (min_zoom_level_ c) (on_notify_captured_ c) (stream_handler_ c).
Definition set_zoom_levels (mx mn : float) (c : GstCamera) : GstCamera :=
  mkCamera (gst_ c) (pixels_ c) (width_ c) (height_ c) mx mn
    (on_notify_captured_ c) (stream_handler_ c).
Definition set_on_notify_captured (cb : option Callback) (c : GstCamera)
  : GstCamera :=
  mkCamera (gst_ c) (pixels_ c) (width_ c) (height_ c) (max_zoom_level_ c)
    (min_zoom_level_ c) cb (stream_handler_ c).

(** ** Computations

    A computation runs on the object's fields and the library's state [W];
    it yields a value, the new fields and library state, and the events it
    emitted in program order. *)
Section Adapter.

Context {W : Type}.
Variable lib : forall R : Type, Call R -> W -> R * W.

Definition M (A : Type) : Type :=
  GstCamera -> W -> A * GstCamera * W * list Event.

Definition ret {A} (a : A) : M A := fun c w => (a, c, w, []).

Definition bind {A B} (m : M A) (k : A -> M B) : M B :=
  fun c w =>
    let '(a, c1, w1, t1) := m c w in
    let '(b, c2, w2, t2) := k a c1 w1 in
    (b, c2, w2, t1 ++ t2).

Definition call {R} (f : Call R) : M R :=
  fun c w => let '(r, w') := lib R f w in (r, c, w', [Ev f r]).

Definition access (a : Access) : M unit := fun c w => (tt, c, w, [Acc a]).

Definition get : M GstCamera := fun c w => (c, c, w, []).
Definition modify (f : GstCamera -> GstCamera) : M unit :=
  fun c w => (tt, f c, w, []).

Definition value {A} (r : A * GstCamera * W * list Event) : A :=
  fst (fst (fst r)).
Definition world {A} (r : A * GstCamera * W * list Event) : W :=
  snd (fst r).
Definition camera {A} (r : A * GstCamera * W * list Event) : GstCamera :=
  snd (fst (fst r)).
Definition events {A} (r : A * GstCamera * W * list Event) : list Event :=
  snd r.

Notation "x <- m ;; k" := (bind m (fun x => k))
  (at level 61, m at next level, right associativity).
Notation "m ;; k" := (bind m (fun _ => k))
  (at level 61, right associativity).

(** *** Play, Pause, Stop *)

Definition Play : M bool :=
  c <- get ;;
  result <- call (gst_element_set_state (pipeline (gst_ c)) GST_STATE_PLAYING) ;;
  if is_failure result then
    call (std_cerr [Text "Failed to change the state to PLAYING"]) ;;
    ret false
  else
    (if is_async result then
       result <- call (gst_element_get_state (pipeline (gst_ c))) ;;
       if is_failure result then
         call (std_cerr [Text "Failed to get the current state"])
       else ret tt
     else ret tt) ;;
    ret true.

Definition Pause : M bool :=
  c <- get ;;
  result <- call (gst_element_set_state (pipeline (gst_ c)) GST_STATE_PAUSED) ;;
  if is_failure result then
    call (std_cerr [Text "Failed to change the state to PAUSED"]) ;;
    ret false
  else ret true.

Definition Stop : M bool :=
  c <- get ;;
  result <- call (gst_element_set_state (pipeline (gst_ c)) GST_STATE_READY) ;;
  if is_failure result then
    call (std_cerr [Text "Failed to change the state to READY"]) ;;
    ret false
  else ret true.

(** *** TakePicture *)

Definition TakePicture (on_notify_captured : option Callback) : M unit :=
  call (std_cerr [Text "TakePicture is not supported with v4l2src pipeline"]) ;;
  modify (set_on_notify_captured on_notify_captured).

(** *** SetZoomLevel

    The result is [None] where [static_cast<int>(zoom)] is undefined. *)
Definition SetZoomLevel (zoom : float) : M (option bool) :=
  c <- get ;;
  if is_null (source (gst_ c)) then
    call (std_cerr [Text "Source not initialized"]) ;;
    ret (Some false)
  else if flt zoom (min_zoom_level_ c) then
    call (std_cerr [Text "zoom level("; Float zoom;
                    Text ") is under the min-zoom level(";
                    Float (min_zoom_level_ c); Text ")"]) ;;
    ret (Some false)
  else if fgt zoom (max_zoom_level_ c) then
    call (std_cerr [Text "zoom level("; Float zoom;
                    Text ") is over the max-zoom level(";
                    Float (max_zoom_level_ c); Text ")"]) ;;
    ret (Some false)
  else
    match static_cast_int zoom with
    | None => ret None
    | Some zoom_int =>
        call (g_object_set (source (gst_ c))
                [("extra-controls",
                  PStructure (mkStructure "controls"
                                [("zoom-absolute", GInt zoom_int)]))]) ;;
        call (std_cout [Text "Set zoom level to: "; Int zoom_int]) ;;
        ret (Some true)
    end.

(** *** GetPreviewFrameBuffer *)

Definition GetPreviewFrameBuffer : M Ptr :=
  call mutex_lock_shared ;;
  c <- get ;;
  access LoadBuffer ;;
  if is_null (buffer (gst_ c)) then
    call mutex_unlock_shared ;;
    ret None
  else
    let pixel_bytes := uint32 (imul (imul (width_ c) (height_ c)) 4) in
    access LoadBuffer ;;
    call (gst_buffer_extract (buffer (gst_ c)) 0 (pixels_ c) pixel_bytes) ;;
    call mutex_unlock_shared ;;
    ret (pixels_ c).

(** *** CreatePipeline *)

Definition mjpeg_caps_string : string :=
  "image/jpeg,width=1920,height=1080,framerate=30/1".
Definition rgba_caps_string : string := "video/x-raw,format=RGBA".

Definition store (f : Ptr -> GstElements -> GstElements) (p : Ptr) : M unit :=
  modify (fun c => set_gst (f p (gst_ c)) c).

Definition CreatePipeline : M bool :=
  p <- call (gst_pipeline_new "pipeline") ;;
  store set_pipeline p ;;
  if is_null p then
    call (std_cerr [Text "Failed to create a pipeline"]) ;; ret false
  else
  src <- call (gst_element_factory_make "v4l2src" "source") ;;
  store set_source src ;;
  if is_null src then
    call (std_cerr [Text "Failed to create v4l2src"]) ;; ret false
  else
  call (g_object_set src [("device", PValue (GString "/dev/video34"))]) ;;
  dec <- call (gst_element_factory_make "jpegdec" "jpegdec") ;;
  store set_jpegdec dec ;;
  if is_null dec then
    call (std_cerr [Text "Failed to create jpegdec"]) ;; ret false
  else
  conv <- call (gst_element_factory_make "videoconvert" "videoconvert") ;;
  store set_video_convert conv ;;
  if is_null conv then
    call (std_cerr [Text "Failed to create a videoconvert"]) ;; ret false
  else
  sink <- call (gst_element_factory_make "fakesink" "videosink") ;;
  store set_video_sink sink ;;
  if is_null sink then
    call (std_cerr [Text "Failed to create a videosink"]) ;; ret false
  else
  b <- call (gst_pipeline_get_bus p) ;;
  store set_bus b ;;
  if is_null b then
    call (std_cerr [Text "Failed to create a bus"]) ;; ret false
  else
  call (gst_bus_set_sync_handler b) ;;
  call (g_object_set sink [("sync", PValue (GBoolean true));
                           ("qos", PValue (GBoolean false))]) ;;
  call (g_object_set sink [("signal-handoffs", PValue (GBoolean true))]) ;;
  call (g_signal_connect sink "handoff") ;;
  call (gst_bin_add_many p [src; dec; conv; sink]) ;;
  mjpeg_caps <- call (gst_caps_from_string mjpeg_caps_string) ;;
  linked <- call (gst_element_link_filtered src dec mjpeg_caps) ;;
  if negb linked then
    call (std_cerr [Text "Failed to link source to jpegdec"]) ;;
    call (gst_caps_unref mjpeg_caps) ;;
    ret false
  else
  call (gst_caps_unref mjpeg_caps) ;;
  linked <- call (gst_element_link dec conv) ;;
  if negb linked then
    call (std_cerr [Text "Failed to link jpegdec to videoconvert"]) ;;
    ret false
  else
  rgba_caps <- call (gst_caps_from_string rgba_caps_string) ;;
  link_ok <- call (gst_element_link_filtered conv sink rgba_caps) ;;
  call (gst_caps_unref rgba_caps) ;;
  if negb link_ok then
    call (std_cerr [Text "Failed to link videoconvert to sink"]) ;;
    ret false
  else ret true.

(** *** Preroll and DestroyPipeline *)

Definition Preroll : M unit :=
  c <- get ;;
  if is_null (source (gst_ c)) then ret tt
  else
    result <- call (gst_element_set_state (pipeline (gst_ c)) GST_STATE_PAUSED) ;;
    if is_failure result then
      call (std_cerr [Text "Failed to change the state to PAUSED"])
    else if is_async result then
      result <- call (gst_element_get_state (pipeline (gst_ c))) ;;
      if is_failure result then
        call (std_cerr [Text "Failed to get the current state"])
      else ret tt
    else ret tt.

Definition when (b : bool) (m : M unit) : M unit := if b then m else ret tt.

(** [if (gst_.field) { body }]: the field is read when the test is made. *)
Definition when_set (field : GstElements -> Ptr) (body : Ptr -> M unit)
  : M unit :=
  c <- get ;;
  if is_null (field (gst_ c)) then ret tt else body (field (gst_ c)).

Definition DestroyPipeline : M unit :=
  when_set video_sink
    (fun sink =>
       call (g_object_set sink
               [("signal-handoffs", PValue (GBoolean false))])) ;;
  when_set pipeline
    (fun p => call (gst_element_set_state p GST_STATE_NULL) ;; ret tt) ;;
  access LoadBuffer ;;
  when_set buffer
    (fun held =>
       access LoadBuffer ;;
       call (gst_buffer_unref held) ;;
       access (StoreBuffer None) ;;
       store set_buffer None) ;;
  when_set bus (fun b => call (gst_object_unref b) ;; store set_bus None) ;;
  when_set pipeline
    (fun p => call (gst_object_unref p) ;; store set_pipeline None) ;;
  when_set source (fun _ => store set_source None) ;;
  when_set jpegdec (fun _ => store set_jpegdec None) ;;
  when_set video_sink (fun _ => store set_video_sink None) ;;
  when_set video_convert (fun _ => store set_video_convert None).

(** *** GetZoomMaxMinSize: the pair is what is written to [max] and [min]. *)

Definition GetZoomMaxMinSize : M (float * float) := ret (f3_0, f0_0).

(** *** HandoffHandler (the fakesink's "handoff" signal)

    The sizes are stored before [new uint32_t[width * height]] is
    evaluated; if that throws, nothing after it runs. *)

Definition HandoffHandler (fakesink buf new_pad : Ptr) : M Completion :=
  caps <- call (gst_pad_get_current_caps new_pad) ;;
  structure <- call (gst_caps_get_structure caps 0) ;;
  width <- call (gst_structure_get_int structure "width") ;;
  height <- call (gst_structure_get_int structure "height") ;;
  call (gst_caps_unref caps) ;;
  self <- get ;;
  resized <-
    (if negb (width =? width_ self) || negb (height =? height_ self) then
       modify (set_size width height) ;;
       if imul width height <? 0 then ret (Throws bad_array_new_length)
       else
         fresh <- call (operator_new_array (imul width height)) ;;
         if is_null fresh then ret (Throws bad_alloc)
         else
           modify (set_pixels fresh) ;;
           when (negb (is_null (pixels_ self)))
             (call (operator_delete (pixels_ self))) ;;
           call (std_cout [Text "Pixel buffer size: width = "; Int width;
                           Text ", height = "; Int height]) ;;
           ret Returns
     else ret Returns) ;;
  match resized with
  | Throws e => ret (Throws e)
  | Returns =>
      call mutex_lock ;;
      access LoadBuffer ;;
      when_set buffer
        (fun held =>
           access LoadBuffer ;;
           call (gst_buffer_unref held) ;;
           access (StoreBuffer None) ;;
           store set_buffer None) ;;
      held <- call (gst_buffer_ref buf) ;;
      access (StoreBuffer held) ;;
      store set_buffer held ;;
      self <- get ;;
      call (OnNotifyFrameDecoded (stream_handler_ self)) ;;
      call mutex_unlock ;;
      ret Returns
  end.

(** *** HandleGstMessage (the bus's sync handler) *)

Definition newline : string := String (Ascii.ascii_of_nat 10) EmptyString.

Definition HandleGstMessage (message : GstMessage) : M GstBusSyncReply :=
  (if msg_type message =? GST_MESSAGE_ELEMENT then
     match msg_structure message with
     | Some st =>
         self <- get ;;
         match gst_structure_has_name st "image-done",
               on_notify_captured_ self with
         | true, Some cb =>
             let filename := gst_structure_get_string st "filename" in
             call (invoke_on_notify_captured cb filename)
         | _, _ => ret tt
         end
     | None => ret tt
     end
   else if msg_type message =? GST_MESSAGE_WARNING then
     parsed <- call (gst_message_parse_warning message) ;;
     let '(error, debug) := parsed in
     call (g_printerr (String.append "WARNING from element %s: %s" newline)
             [msg_src_name message; message_text error]) ;;
     call (g_printerr (String.append "Warning details: %s" newline) [debug]) ;;
     call (g_free debug) ;;
     call (g_error_free error)
   else if msg_type message =? GST_MESSAGE_ERROR then
     parsed <- call (gst_message_parse_error message) ;;
     let '(error, debug) := parsed in
     call (g_printerr (String.append "ERROR from element %s: %s" newline)
             [msg_src_name message; message_text error]) ;;
     call (g_printerr (String.append "Error details: %s" newline) [debug]) ;;
     call (g_free debug) ;;
     call (g_error_free error)
   else ret tt) ;;
  call (gst_message_unref message) ;;
  ret GST_BUS_DROP.

(** *** Constructor and destructor

    The constructor body runs on the object's storage as the member
    initialisers left it. *)
Definition GstCamera_new (handler : Ptr) : M unit :=
  modify (fun c => mkCamera (gst_ c) (pixels_ c) (width_ c) (height_ c)
                     (max_zoom_level_ c) (min_zoom_level_ c)
                     (on_notify_captured_ c) handler) ;;
  store set_pipeline None ;;
  store set_source None ;;
  store set_jpegdec None ;;
  store set_video_convert None ;;
  store set_video_sink None ;;
  store set_output None ;;
  store set_bus None ;;
  access (StoreBuffer None) ;;
  store set_buffer None ;;
  created <- CreatePipeline ;;
  if negb created then
    call (std_cerr [Text "Failed to create a pipeline"]) ;;
    DestroyPipeline
  else
    Preroll ;;
    modify (set_zoom_levels f3_0 f0_0).

Definition GstCamera_delete : M unit :=
  Stop ;; DestroyPipeline.

(** *** The object's lifetime

    Between construction and destruction the host calls the public
    methods and the library calls the two handlers.  [perform] yields
    whether the call returned with its behaviour defined: an exception
    that leaves the handoff handler unwinds into the library, and the
    object is not followed past it. *)
Inductive Op :=
| OpPlay
| OpPause
| OpStop
| OpTakePicture (on_notify_captured : option Callback)
| OpSetZoomLevel (zoom : float)
| OpGetPreviewFrameBuffer
| OpGetZoomMaxMinSize
| OpHandoff (fakesink buf new_pad : Ptr)
| OpMessage (message : GstMessage).

Definition perform (o : Op) : M bool :=
  match o with
  | OpPlay => Play ;; ret true
  | OpPause => Pause ;; ret true
  | OpStop => Stop ;; ret true
  | OpTakePicture cb => TakePicture cb ;; ret true
  | OpSetZoomLevel zoom =>
      r <- SetZoomLevel zoom ;;
      ret (match r with Some _ => true | None => false end)
  | OpGetPreviewFrameBuffer => GetPreviewFrameBuffer ;; ret true
  | OpGetZoomMaxMinSize => GetZoomMaxMinSize ;; ret true
  | OpHandoff fakesink buf new_pad =>
      r <- HandoffHandler fakesink buf new_pad ;; ret (returned r)
  | OpMessage message => HandleGstMessage message ;; ret true
  end.

(** [reachable c w t]: the object has fields [c] and the library state [w]
    after the constructor and some calls, whose events are [t]. *)
Inductive reachable : GstCamera -> W -> list Event -> Prop :=
| reach_new (storage0 : GstCamera) (handler : Ptr) (w0 : W) :
    reachable (camera (GstCamera_new handler storage0 w0))
              (world (GstCamera_new handler storage0 w0))
              (events (GstCamera_new handler storage0 w0))
| reach_op (c : GstCamera) (w : W) (t : list Event) (o : Op) :
    reachable c w t ->
    value (perform o c w) = true ->
    reachable (camera (perform o c w)) (world (perform o c w))
              (t ++ events (perform o c w)).

(** A sequence of calls, made one after the other. *)
Fixpoint perform_all (os : list Op) : M unit :=
  match os with
  | [] => ret tt
  | o :: rest => perform o ;; perform_all rest
  end.

End Adapter.


(** ** Accounting of buffer references

    [gst_buffer_ref] hands back a reference (a non-null pointer) and
    [gst_buffer_unref] gives one back. *)
Definition buffer_delta (e : Event) : Z :=
  match e with
  | Ev c r =>
      match c in Call R return R -> Z with
      | gst_buffer_ref _ => fun held => if is_null held then 0 else 1
      | gst_buffer_unref b => fun _ => if is_null b then 0 else -1
      | _ => fun _ => 0
      end r
  | Acc _ => 0
  end.

(** The references held after the events [t]. *)
Definition ref_balance (t : list Event) : Z :=
  fold_right (fun e n => buffer_delta e + n) 0 t.

(** Replays [t] from [h] held references; [None] as soon as the number held
    leaves [0, 1]. *)
Fixpoint refs_within (h : Z) (t : list Event) : option Z :=
  match t with
  | [] => Some h
  | e :: rest =>
      let h' := h + buffer_delta e in
      if (0 <=? h') && (h' <=? 1) then refs_within h' rest else None
  end.

(** Events that neither take nor give back a buffer reference. *)
Definition neutral (t : list Event) : bool :=
  forallb (fun e => buffer_delta e =? 0) t.

Definition held (c : GstCamera) : Z :=
  if is_null (buffer (gst_ c)) then 0 else 1.

Definition is_allocation (e : Event) : bool :=
  match e with Ev (operator_new_array _) _ => true | _ => false end.

Definition is_buffer_event (e : Event) : bool :=
  match e with
  | Ev (gst_buffer_ref _) _ | Ev (gst_buffer_unref _) _
  | Acc (StoreBuffer _) => true
  | _ => false
  end.

Definition is_frame_notification (e : Event) : bool :=
  match e with Ev (OnNotifyFrameDecoded _) _ => true | _ => false end.

(** ** Reading a run of [CreatePipeline] *)

Definition is_creation (e : Event) : bool :=
  match e with
  | Ev (gst_pipeline_new _) _ | Ev (gst_element_factory_make _ _) _
  | Ev (gst_pipeline_get_bus _) _ => true
  | _ => false
  end.

Definition is_link (e : Event) : bool :=
  match e with
  | Ev (gst_element_link_filtered _ _ _) _ | Ev (gst_element_link _ _) _ => true
  | _ => false
  end.

(** A creation that handed back null, or a link that answered false. *)
Definition step_failed (e : Event) : bool :=
  match e with
  | Ev c r =>
      match c in Call R return R -> bool with
      | gst_pipeline_new _ | gst_element_factory_make _ _
      | gst_pipeline_get_bus _ => fun p => is_null p
      | gst_element_link_filtered _ _ _ | gst_element_link _ _ =>
          fun linked => negb linked
      | _ => fun _ => false
      end r
  | Acc _ => false
  end.

(** Nothing is created or linked after the first failed step. *)
Fixpoint stops_at_failure (t : list Event) : bool :=
  match t with
  | [] => true
  | e :: rest =>
      if step_failed e
      then negb (existsb (fun e' => is_creation e' || is_link e') rest)
      else stops_at_failure rest
  end.

(** The links requested, in order: source element, destination element and
    the caps filter, if the link is filtered. *)
Fixpoint links (t : list Event) : list (Ptr * Ptr * option Ptr) :=
  match t with
  | [] => []
  | Ev c _ :: rest =>
      match c with
      | gst_element_link_filtered src dest filter =>
          (src, dest, Some filter) :: links rest
      | gst_element_link src dest => (src, dest, None) :: links rest
      | _ => links rest
      end
  | Acc _ :: rest => links rest
  end.

(** The element factories asked for an element, in order. *)
Fixpoint factories (t : list Event) : list string :=
  match t with
  | [] => []
  | Ev c _ :: rest =>
      match c with
      | gst_element_factory_make factory _ => factory :: factories rest
      | _ => factories rest
      end
  | Acc _ :: rest => factories rest
  end.

(** Device capture, JPEG decode, colour-space conversion, frame sink. *)
Definition pipeline_factories : list string :=
  ["v4l2src"; "jpegdec"; "videoconvert"; "fakesink"].

(** The caps [gst_caps_from_string] handed back for [description]. *)
Fixpoint caps_of (description : string) (t : list Event) : Ptr :=
  match t with
  | [] => None
  | Ev c r :: rest =>
      match c in Call R return R -> Ptr with
      | gst_caps_from_string d =>
          fun caps => if String.eqb d description then caps
                      else caps_of description rest
      | _ => fun _ => caps_of description rest
      end r
  | Acc _ :: rest => caps_of description rest
  end.

(** The events of a run in which every step succeeds. *)
Definition pipeline_built (g : GstElements) (mjpeg_caps rgba_caps : Ptr)
  : list Event :=
  [Ev (gst_pipeline_new "pipeline") (pipeline g);
   Ev (gst_element_factory_make "v4l2src" "source") (source g);
   Ev (g_object_set (source g) [("device", PValue (GString "/dev/video34"))]) tt;
   Ev (gst_element_factory_make "jpegdec" "jpegdec") (jpegdec g);
   Ev (gst_element_factory_make "videoconvert" "videoconvert")
      (video_convert g);
   Ev (gst_element_factory_make "fakesink" "videosink") (video_sink g);
   Ev (gst_pipeline_get_bus (pipeline g)) (bus g);
   Ev (gst_bus_set_sync_handler (bus g)) tt;
   Ev (g_object_set (video_sink g)
         [("sync", PValue (GBoolean true)); ("qos", PValue (GBoolean false))]) tt;
   Ev (g_object_set (video_sink g)
         [("signal-handoffs", PValue (GBoolean true))]) tt;
   Ev (g_signal_connect (video_sink g) "handoff") tt;
   Ev (gst_bin_add_many (pipeline g)
         [source g; jpegdec g; video_convert g; video_sink g]) tt;
   Ev (gst_caps_from_string
         "image/jpeg,width=1920,height=1080,framerate=30/1") mjpeg_caps;
   Ev (gst_element_link_filtered (source g) (jpegdec g) mjpeg_caps) true;
   Ev (gst_caps_unref mjpeg_caps) tt;
   Ev (gst_element_link (jpegdec g) (video_convert g)) true;
   Ev (gst_caps_from_string "video/x-raw,format=RGBA") rgba_caps;
   Ev (gst_element_link_filtered (video_convert g) (video_sink g) rgba_caps)
      true;
   Ev (gst_caps_unref rgba_caps) tt].

(** The three links of the pipeline: capture to JPEG decoder under the
    JPEG caps, decoder to converter, converter to sink under the RGBA
    caps. *)
Definition pipeline_links (g : GstElements) (mjpeg_caps rgba_caps : Ptr)
  : list (Ptr * Ptr * option Ptr) :=
  [(source g, jpegdec g, Some mjpeg_caps);
   (jpegdec g, video_convert g, None);
   (video_convert g, video_sink g, Some rgba_caps)].

(** ** The mutex [mutex_buffer_] and two threads

    [std::shared_mutex]: a thread holds it exclusively, shared, or not at
    all.  The library's streaming thread runs the handoff callback and the
    host's thread reads preview frames; a machine state is what each thread
    has left to do and how it holds the mutex. *)
Inductive Held := NotHeld | HeldShared | HeldExclusive.

(** How a thread holds the mutex after its event [e]. *)
Definition after_event (m : Held) (e : Event) : Held :=
  match e with
  | Ev mutex_lock _ => HeldExclusive
  | Ev mutex_lock_shared _ => HeldShared
  | Ev mutex_unlock _ | Ev mutex_unlock_shared _ => NotHeld
  | _ => m
  end.

(** Whether the mutex lets a thread proceed with [e] while the other
    thread holds it as [other]: an exclusive lock waits until nobody holds
    the mutex, a shared lock until nobody holds it exclusively. *)
Definition may_proceed (e : Event) (other : Held) : bool :=
  match e with
  | Ev mutex_lock _ =>
      match other with NotHeld => true | _ => false end
  | Ev mutex_lock_shared _ =>
      match other with HeldExclusive => false | _ => true end
  | _ => true
  end.

Record Machine := mkMachine {
  callback_thread : list Event;
  callback_held : Held;
  consumer_thread : list Event;
  consumer_held : Held
}.

Inductive machine_step : Machine -> Machine -> Prop :=
| step_callback (e : Event) (t1 t2 : list Event) (m1 m2 : Held) :
    may_proceed e m2 = true ->
    machine_step (mkMachine (e :: t1) m1 t2 m2)
                 (mkMachine t1 (after_event m1 e) t2 m2)
| step_consumer (e : Event) (t1 t2 : list Event) (m1 m2 : Held) :
    may_proceed e m1 = true ->
    machine_step (mkMachine t1 m1 (e :: t2) m2)
                 (mkMachine t1 m1 t2 (after_event m2 e)).

Inductive machine_steps : Machine -> Machine -> Prop :=
| steps_none (s : Machine) : machine_steps s s
| steps_more (s1 s2 s3 : Machine) :
    machine_steps s1 s2 -> machine_step s2 s3 -> machine_steps s1 s3.

(** What a thread may do with the handle [gst_.buffer] under each way of
    holding the mutex: read it under any lock, write it under the
    exclusive lock only; [None] also for locking twice or unlocking what
    is not held. *)
Definition guard_step (m : Held) (e : Event) : option Held :=
  match e with
  | Acc LoadBuffer =>
      match m with NotHeld => None | _ => Some m end
  | Acc (StoreBuffer _) =>
      match m with HeldExclusive => Some m | _ => None end
  | Ev mutex_lock _ =>
      match m with NotHeld => Some HeldExclusive | _ => None end
  | Ev mutex_lock_shared _ =>
      match m with NotHeld => Some HeldShared | _ => None end
  | Ev mutex_unlock _ =>
      match m with HeldExclusive => Some NotHeld | _ => None end
  | Ev mutex_unlock_shared _ =>
      match m with HeldShared => Some NotHeld | _ => None end
  | Ev _ _ => Some m
  end.

(** Every access in [t] is made under a lock that allows it, and the mutex
    is released at the end. *)
Fixpoint guarded (m : Held) (t : list Event) : bool :=
  match t with
  | [] => match m with NotHeld => true | _ => false end
  | e :: rest =>
      match guard_step m e with
      | Some m' => guarded m' rest
      | None => false
      end
  end.

(** The lock operations and handle accesses of a trace. *)
Definition is_lock_or_access (e : Event) : bool :=
  match e with
  | Ev mutex_lock _ | Ev mutex_unlock _ | Ev mutex_lock_shared _
  | Ev mutex_unlock_shared _ | Acc _ => true
  | _ => false
  end.

Definition is_store (e : Event) : bool :=
  match e with Acc (StoreBuffer _) => true | _ => false end.

Definition is_access (e : Event) : bool :=
  match e with Acc _ => true | _ => false end.

(** Both threads are about to access the handle and one of them writes. *)
Definition race (s : Machine) : Prop :=
  exists e1 t1 e2 t2,
    callback_thread s = e1 :: t1 /\ consumer_thread s = e2 :: t2
    /\ is_access e1 = true /\ is_access e2 = true
    /\ (is_store e1 = true \/ is_store e2 = true).

(** Both threads are inside their locked regions. *)
Definition both_inside (s : Machine) : Prop :=
  callback_held s <> NotHeld /\ consumer_held s <> NotHeld.
(** ** What the runs are compared with

    The expected events and values of the methods, stated apart from the
    methods themselves. *)
Section Expectations.

Context {W : Type}.
Variable lib : forall R : Type, Call R -> W -> R * W.

(** What [gst_element_set_state] answers when the pipeline is asked for
    [target]. *)
Definition set_state_answer (c : GstCamera) (w : W) (target : GstState)
  : GstStateChangeReturn * W :=
  lib _ (gst_element_set_state (pipeline (gst_ c)) target) w.

(** The events of a state change: the request to [element] with the answer
    [r] of the library, and [line] on [std::cerr] if the answer is a
    failure. *)
Definition state_request (element : Ptr) (target : GstState)
    (r : GstStateChangeReturn) (line : string) : list Event :=
  Ev (gst_element_set_state element target) r
  :: (if is_failure r then [Ev (std_cerr [Text line]) tt] else []).

(** The wait that follows the request of [Play]: only after an ASYNC
    answer [r]; [r'] is what the wait answers, logged if it is a failure. *)
Definition wait_for_state (element : Ptr) (r r' : GstStateChangeReturn)
  : list Event :=
  if is_async r
  then Ev (gst_element_get_state element) r'
       :: (if is_failure r'
           then [Ev (std_cerr [Text "Failed to get the current state"]) tt]
           else [])
  else [].

(** The library's state after a request answered [r] left it [w1]: the
    line on [std::cerr] is the only call that follows a failure. *)
Definition after_request (r : GstStateChangeReturn) (line : string) (w1 : W)
  : W :=
  if is_failure r then snd (lib _ (std_cerr [Text line]) w1) else w1.

(** The fields [SetZoomLevel] reads. *)
Definition zoom_fields (c : GstCamera) : Ptr * float * float :=
  (source (gst_ c), max_zoom_level_ c, min_zoom_level_ c).

(** The fields as the constructor leaves them before [CreatePipeline]. *)
Definition cleared (handler : Ptr) (c : GstCamera) : GstCamera :=
  mkCamera (mkElements None None None None None None None None)
    (pixels_ c) (width_ c) (height_ c) (max_zoom_level_ c) (min_zoom_level_ c)
    (on_notify_captured_ c) handler.

(** The stored zoom bounds, maximum first. *)
Definition bounds (c : GstCamera) : float * float :=
  (max_zoom_level_ c, min_zoom_level_ c).

Definition is_g_object_set (e : Event) : bool :=
  match e with
  | Ev (g_object_set _ _) _ => true
  | _ => false
  end.

(** The events of a call that applies the control value [zoom_int]. *)
Definition zoom_applied (src : Ptr) (zoom_int : Z) : list Event :=
  [Ev (g_object_set src
         [("extra-controls",
           PStructure (mkStructure "controls"
                         [("zoom-absolute", GInt zoom_int)]))]) tt;
   Ev (std_cout [Text "Set zoom level to: "; Int zoom_int]) tt].

(** The events of a frame read that finds a buffer. *)
Definition frame_read (buf pixels : Ptr) (size : Z) : list Event :=
  [Ev mutex_lock_shared tt; Acc LoadBuffer; Acc LoadBuffer;
   Ev (gst_buffer_extract buf 0 pixels size) tt;
   Ev mutex_unlock_shared tt].

(** The events of a frame read that finds none. *)
Definition no_frame : list Event :=
  [Ev mutex_lock_shared tt; Acc LoadBuffer; Ev mutex_unlock_shared tt].

(** The callback invocation an ELEMENT message leads to. *)
Definition capture_notification (cb : option Callback) (m : GstMessage)
  : list Event :=
  match msg_structure m, cb with
  | Some st, Some target =>
      if gst_structure_has_name st "image-done"
      then [Ev (invoke_on_notify_captured target
                  (gst_structure_get_string st "filename")) tt]
      else []
  | _, _ => []
  end.

(** Logging of a parsed warning or error: two lines, then both values are
    released. *)
Definition report (heading details : string) (m : GstMessage)
    (parsed : GError * string) : list Event :=
  [Ev (g_printerr (String.append heading newline)
         [msg_src_name m; message_text (fst parsed)]) tt;
   Ev (g_printerr (String.append details newline) [snd parsed]) tt;
   Ev (g_free (snd parsed)) tt;
   Ev (g_error_free (fst parsed)) tt].

(** What the handler does with a message before unreferencing it. *)
Definition handling (cb : option Callback) (m : GstMessage) (w : W)
  : list Event :=
  if msg_type m =? GST_MESSAGE_ELEMENT then capture_notification cb m
  else if msg_type m =? GST_MESSAGE_WARNING then
    let parsed := fst (lib _ (gst_message_parse_warning m) w) in
    Ev (gst_message_parse_warning m) parsed
    :: report "WARNING from element %s: %s" "Warning details: %s" m parsed
  else if msg_type m =? GST_MESSAGE_ERROR then
    let parsed := fst (lib _ (gst_message_parse_error m) w) in
    Ev (gst_message_parse_error m) parsed
    :: report "ERROR from element %s: %s" "Error details: %s" m parsed
  else [].

Definition is_notification (e : Event) : bool :=
  match e with
  | Ev (invoke_on_notify_captured _ _) _ => true
  | _ => false
  end.

(** The invocations of the capture callback in a trace. *)
Definition notifications (t : list Event) : list Event :=
  filter is_notification t.

Definition is_TakePicture (o : Op) : bool :=
  match o with OpTakePicture _ => true | _ => false end.

(** The notification a call leads to when [cb] is the stored callback:
    only a bus message can lead to one. *)
Definition notified (cb : Callback) (o : Op) : list Event :=
  match o with
  | OpMessage m =>
      if msg_type m =? GST_MESSAGE_ELEMENT
      then capture_notification (Some cb) m
      else []
  | _ => []
  end.

(** The width and height the pad's current caps report. *)
Definition frame_size (new_pad : Ptr) (w : W) : Z * Z :=
  let '(caps, w1) := lib _ (gst_pad_get_current_caps new_pad) w in
  let '(structure, w2) := lib _ (gst_caps_get_structure caps 0) w1 in
  let '(width, w3) := lib _ (gst_structure_get_int structure "width") w2 in
  let '(height, _) := lib _ (gst_structure_get_int structure "height") w3 in
  (width, height).

(** What happens to the buffer handle in a handoff: the reference held so
    far, if any, is given back and the handle cleared; then a reference to
    the incoming buffer is taken and stored. *)
Definition buffer_swap (old buf held : Ptr) : list Event :=
  (if is_null old then []
   else [Ev (gst_buffer_unref old) tt; Acc (StoreBuffer None)])
  ++ [Ev (gst_buffer_ref buf) held; Acc (StoreBuffer held)].

(** The streaming thread runs handoffs one after the other, the host's
    thread frame reads, each on whatever state it finds. *)
Inductive callback_trace : list Event -> Prop :=
| callback_idle : callback_trace []
| callback_handoff (fakesink buf new_pad : Ptr) (c : GstCamera) (w : W)
    (t : list Event) :
    callback_trace t ->
    callback_trace (events (HandoffHandler lib fakesink buf new_pad c w) ++ t).

Inductive consumer_trace : list Event -> Prop :=
| consumer_idle : consumer_trace []
| consumer_read (c : GstCamera) (w : W) (t : list Event) :
    consumer_trace t ->
    consumer_trace (events (GetPreviewFrameBuffer lib c w) ++ t).

Definition is_lock_shared (e : Event) : bool :=
  match e with Ev mutex_lock_shared _ => true | _ => false end.

Definition is_lock_exclusive (e : Event) : bool :=
  match e with Ev mutex_lock _ => true | _ => false end.

(** The invariant of the two threads: what each has left is guarded under
    the way it holds the mutex, the callback never holds it shared nor the
    consumer exclusively, and an exclusive holder is the only holder. *)
Definition disciplined (s : Machine) : Prop :=
  guarded (callback_held s) (callback_thread s) = true
  /\ guarded (consumer_held s) (consumer_thread s) = true
  /\ existsb is_lock_shared (callback_thread s) = false
  /\ existsb is_lock_exclusive (consumer_thread s) = false
  /\ callback_held s <> HeldShared
  /\ consumer_held s <> HeldExclusive
  /\ (callback_held s = HeldExclusive -> consumer_held s = NotHeld).

End Expectations.

(** ** Construction and teardown as a whole *)

(** The object once [DestroyPipeline] has run: every handle it tests is
    null. *)
Definition destroyed (c : GstCamera) : GstCamera :=
  set_gst (mkElements None None None None None (output (gst_ c)) None None) c.

(** The element and bus handles, which no method assigns after the
    constructor. *)
Definition handles (c : GstCamera)
  : Ptr * Ptr * Ptr * Ptr * Ptr * Ptr * Ptr :=
  (pipeline (gst_ c), source (gst_ c), jpegdec (gst_ c),
   video_convert (gst_ c), video_sink (gst_ c), output (gst_ c),
   bus (gst_ c)).

Definition all_created (c : GstCamera) : bool :=
  negb (is_null (pipeline (gst_ c))) && negb (is_null (source (gst_ c)))
  && negb (is_null (jpegdec (gst_ c)))
  && negb (is_null (video_convert (gst_ c)))
  && negb (is_null (video_sink (gst_ c))) && negb (is_null (bus (gst_ c))).

Definition none_created (c : GstCamera) : bool :=
  is_null (pipeline (gst_ c)) && is_null (source (gst_ c))
  && is_null (jpegdec (gst_ c)) && is_null (video_convert (gst_ c))
  && is_null (video_sink (gst_ c)) && is_null (bus (gst_ c)).

Definition is_release (e : Event) : bool :=
  match e with
  | Ev (gst_object_unref _) _ | Ev (gst_buffer_unref _) _ => true
  | _ => false
  end.

(** The events of [DestroyPipeline] on the handles [g], where [r] is what
    the state change to [GST_STATE_NULL] answered. *)
Definition teardown (g : GstElements) (r : GstStateChangeReturn)
  : list Event :=
  (if is_null (video_sink g) then []
   else [Ev (g_object_set (video_sink g)
               [("signal-handoffs", PValue (GBoolean false))]) tt])
  ++ (if is_null (pipeline g) then []
      else [Ev (gst_element_set_state (pipeline g) GST_STATE_NULL) r])
  ++ Acc LoadBuffer
     :: (if is_null (buffer g) then []
         else [Acc LoadBuffer; Ev (gst_buffer_unref (buffer g)) tt;
               Acc (StoreBuffer None)])
  ++ (if is_null (bus g) then [] else [Ev (gst_object_unref (bus g)) tt])
  ++ (if is_null (pipeline g) then []
      else [Ev (gst_object_unref (pipeline g)) tt]).

(** The state changes a trace asks for, with their targets. *)
Fixpoint state_requests (t : list Event) : list (Ptr * GstState) :=
  match t with
  | [] => []
  | Ev c _ :: rest =>
      match c with
      | gst_element_set_state element target =>
          (element, target) :: state_requests rest
      | _ => state_requests rest
      end
  | Acc _ :: rest => state_requests rest
  end.


(** The calls that wire the created objects together: the bus's sync
    handler, the handoff signal and the elements' entry into the pipeline. *)
Definition is_wiring (e : Event) : bool :=
  match e with
  | Ev (gst_bus_set_sync_handler _) _ | Ev (g_signal_connect _ _) _
  | Ev (gst_bin_add_many _ _) _ => true
  | _ => false
  end.

Definition wiring (g : GstElements) : list Event :=
  [Ev (gst_bus_set_sync_handler (bus g)) tt;
   Ev (g_signal_connect (video_sink g) "handoff") tt;
   Ev (gst_bin_add_many (pipeline g)
         [source g; jpegdec g; video_convert g; video_sink g]) tt].

(** The caps a trace obtains and those it gives back, in order. *)
Fixpoint caps_obtained (t : list Event) : list Ptr :=
  match t with
  | [] => []
  | Ev c r :: rest =>
      match c in Call R return R -> list Ptr with
      | gst_caps_from_string _ | gst_pad_get_current_caps _ =>
          fun caps => caps :: caps_obtained rest
      | _ => fun _ => caps_obtained rest
      end r
  | Acc _ :: rest => caps_obtained rest
  end.

Fixpoint caps_released (t : list Event) : list Ptr :=
  match t with
  | [] => []
  | Ev c _ :: rest =>
      match c with
      | gst_caps_unref caps => caps :: caps_released rest
      | _ => caps_released rest
      end
  | Acc _ :: rest => caps_released rest
  end.

(** The capture notifications of a sequence of calls that starts with the
    callback [cb] stored: each [TakePicture] replaces the callback, each
    ELEMENT message is notified to the one stored when it arrives. *)
Fixpoint notifications_of (cb : option Callback) (os : list Op)
  : list Event :=
  match os with
  | [] => []
  | OpTakePicture cb' :: rest => notifications_of cb' rest
  | OpMessage m :: rest =>
      (if msg_type m =? GST_MESSAGE_ELEMENT then capture_notification cb m
       else [])
      ++ notifications_of cb rest
  | _ :: rest => notifications_of cb rest
  end.

(** The callback stored after the calls [os]. *)
Fixpoint callback_after (cb : option Callback) (os : list Op)
  : option Callback :=
  match os with
  | [] => cb
  | OpTakePicture cb' :: rest => callback_after cb' rest
  | _ :: rest => callback_after cb rest
  end.

(** Allocation and release of the pixel array. *)
Definition is_pixel_memory (e : Event) : bool :=
  match e with
  | Ev (operator_new_array _) _ | Ev (operator_delete _) _ => true
  | _ => false
  end.

(** A trace up to its first exclusive lock, and from it on. *)
Fixpoint until_lock (t : list Event) : list Event :=
  match t with
  | [] => []
  | Ev mutex_lock _ :: _ => []
  | e :: rest => e :: until_lock rest
  end.

Fixpoint from_lock (t : list Event) : list Event :=
  match t with
  | [] => []
  | Ev mutex_lock r :: rest => Ev mutex_lock r :: rest
  | _ :: rest => from_lock rest
  end.

Definition is_lock (e : Event) : bool :=
  match e with
  | Ev mutex_lock _ | Ev mutex_lock_shared _ => true
  | _ => false
  end.

Definition is_state_wait (e : Event) : bool :=
  match e with Ev (gst_element_get_state _) _ => true | _ => false end.

(** The objects the adapter holds a reference of its own to: the pipeline
    and its bus.  [owned_objects] are the events that hand them over when
    the pipeline is [p] and the bus, if it was asked for, [b]; [unreferenced]
    are the events that give back those of the two that exist. *)
Definition is_owned_creation (e : Event) : bool :=
  match e with
  | Ev (gst_pipeline_new _) _ | Ev (gst_pipeline_get_bus _) _ => true
  | _ => false
  end.

Definition is_object_unref (e : Event) : bool :=
  match e with Ev (gst_object_unref _) _ => true | _ => false end.

Definition owned_objects (p : Ptr) (b : option Ptr) : list Event :=
  Ev (gst_pipeline_new "pipeline") p
  :: match b with
     | Some b => [Ev (gst_pipeline_get_bus p) b]
     | None => []
     end.

Definition unreferenced (p b : Ptr) : list Event :=
  (if is_null b then [] else [Ev (gst_object_unref b) tt])
  ++ (if is_null p then [] else [Ev (gst_object_unref p) tt]).

Definition bus_of (b : option Ptr) : Ptr :=
  match b with Some b => b | None => None end.

(** Lines written to [std::cerr]. *)
Definition is_cerr (e : Event) : bool :=
  match e with Ev (std_cerr _) _ => true | _ => false end.

(** What a handoff does while it holds the mutex: [old] is the buffer
    held before, [held] the reference taken to the incoming buffer. *)
Definition locked_region (old buf held handler : Ptr) : list Event :=
  Ev mutex_lock tt :: Acc LoadBuffer
  :: (if is_null old then []
      else [Acc LoadBuffer; Ev (gst_buffer_unref old) tt;
            Acc (StoreBuffer None)])
  ++ [Ev (gst_buffer_ref buf) held; Acc (StoreBuffer held);
      Ev (OnNotifyFrameDecoded handler) tt; Ev mutex_unlock tt].
(** ** A scripted library

    A concrete environment used to run the adapter: the library's state
    counts the calls that can fail (object creation, linking); the call
    numbered [fail_at] fails and the others succeed.  State changes and
    frame sizes answer as the script says. *)
Record Script := mkScript {
  fail_at : option nat;
  state_change : GstStateChangeReturn;
  state_wait : GstStateChangeReturn;
  frame_width : Z;
  frame_height : Z
}.

Definition fails_now (s : Script) (n : nat) : bool :=
  match fail_at s with Some k => Nat.eqb n k | None => false end.

Definition fresh_ptr (s : Script) (n : nat) : Ptr :=
  if fails_now s n then None else Some (Pos.of_succ_nat n).

Definition scripted (s : Script) (R : Type) (f : Call R) (n : nat) : R * nat :=
  match f in Call R return R * nat with
  | gst_pipeline_new _ => (fresh_ptr s n, S n)
  | gst_element_factory_make _ _ => (fresh_ptr s n, S n)
  | gst_pipeline_get_bus _ => (fresh_ptr s n, S n)
  | gst_caps_from_string _ => (Some 100%positive, n)
  | gst_element_link_filtered _ _ _ => (negb (fails_now s n), S n)
  | gst_element_link _ _ => (negb (fails_now s n), S n)
  | gst_element_set_state _ _ => (state_change s, n)
  | gst_element_get_state _ => (state_wait s, n)
  | gst_buffer_ref buf => (buf, n)
  | gst_pad_get_current_caps _ => (Some 101%positive, n)
  | gst_caps_get_structure _ _ => (Some 102%positive, n)
  | gst_structure_get_int _ field =>
      (if String.eqb field "width" then frame_width s else frame_height s, n)
  | gst_message_parse_warning m => ((mkGError "warning", "details"), n)
  | gst_message_parse_error m => ((mkGError "error", "details"), n)
  | operator_new_array _ => (Some (Pos.of_succ_nat (200 + n)), S n)
  | gst_bus_set_sync_handler _ | g_object_set _ _ | g_signal_connect _ _
  | gst_bin_add_many _ _ | gst_caps_unref _ | gst_object_unref _
  | gst_buffer_unref _ | gst_buffer_extract _ _ _ _ | gst_message_unref _
  | g_printerr _ _ | g_free _ | g_error_free _ | operator_delete _
  | std_cerr _ | std_cout _ | mutex_lock | mutex_unlock
  | mutex_lock_shared | mutex_unlock_shared | OnNotifyFrameDecoded _
  | invoke_on_notify_captured _ _ => (tt, n)
  end.

(** Every call succeeds at once; frames are 1920x1080. *)
Definition all_good : Script :=
  mkScript None GST_STATE_CHANGE_SUCCESS GST_STATE_CHANGE_SUCCESS 1920 1080.

(** The state change is asynchronous and waiting for it fails. *)
Definition async_wait_fails : Script :=
  mkScript None GST_STATE_CHANGE_ASYNC GST_STATE_CHANGE_FAILURE 1920 1080.


(** The [k]-th fallible call fails. *)
Definition failing (k : nat) : Script :=
  mkScript (Some k) GST_STATE_CHANGE_SUCCESS GST_STATE_CHANGE_SUCCESS 1920 1080.

(** An object's storage before the constructor body runs, as the runs
    below use it: no frame size yet, a null pixel buffer, an empty
    callback, and zoom bounds that hold whatever [mx] and [mn] were there,
    since the constructor is the only one to assign them. *)
Definition storage (mx mn : float) : GstCamera :=
  mkCamera (mkElements None None None None None None None None)
    None (-1) (-1) mx mn None None.

Definition f2_0 : float := mkFloat (S754_finite false 8388608 (-22)) eq_refl.
(** [2.9f] is the binary32 number 12163482 * 2^-22. *)
Definition f2_9 : float := mkFloat (S754_finite false 12163482 (-22)) eq_refl.
Definition f3_5 : float := mkFloat (S754_finite false 14680064 (-22)) eq_refl.
Definition f_minus_1 : float := mkFloat (S754_finite true 8388608 (-23)) eq_refl.
Definition f_nan : float := mkFloat S754_nan eq_refl.

(** *** Inputs of the runs *)

(** The object constructed over a library in which every call succeeds,
    and the same object after a first 1920x1080 frame. *)
Definition constructed : unit * GstCamera * nat * list Event :=
  Eval vm_compute in
    GstCamera_new (scripted all_good) (Some 9%positive)
      (storage f_nan f_nan) 0%nat.

Definition first_frame : Op :=
  OpHandoff (Some 5%positive) (Some 50%positive) (Some 51%positive).

(** An "image-done" message after [TakePicture]. *)
Definition image_done : GstMessage :=
  mkMessage GST_MESSAGE_ELEMENT "camerabin"
    (Some (mkStructure "image-done" [("filename", GString "/tmp/shot.jpg")])).

(** An end-of-stream message ([GST_MESSAGE_EOS] is 1). *)
Definition end_of_stream : GstMessage := mkMessage 1 "pipeline" None.

(** The events of the first handoff and of a frame read. *)
Definition handoff_events : list Event :=
  Eval vm_compute in
  events (HandoffHandler (scripted all_good) (Some 5%positive)
            (Some 50%positive) (Some 51%positive)
            (camera constructed) (world constructed)).

Definition read_events : list Event :=
  Eval vm_compute in
  events (GetPreviewFrameBuffer (scripted all_good)
            (camera constructed) (world constructed)).

(** The first handoff has taken the mutex and loaded the handle; the
    consumer is about to start a frame read. *)
Definition inside_handoff : Machine :=
  mkMachine (skipn 9 handoff_events) HeldExclusive read_events NotHeld.

(** The object whose construction failed: the videoconvert element could
    not be created. *)
Definition failed_construction : unit * GstCamera * nat * list Event :=
  Eval vm_compute in
    GstCamera_new (scripted (failing 3)) (Some 9%positive)
      (storage f_nan f_nan) 0%nat.

(** * Properties *)

(** ** Facts on [float] *)

Lemma digits2_pos_size (m : positive) : digits2_pos m = Pos.size m.
Proof. induction m; cbn; congruence. Qed.

(** A valid binary32 mantissa has at most 24 bits, and the exponent is at
    least that of the subnormal numbers. *)
Lemma bounded_mantissa (m : positive) (e : Z) :
  bounded prec32 emax32 m e = true -> Z.pos m < 2 ^ 24 /\ -149 <= e <= 104.
Proof.
  unfold bounded, canonical_mantissa, fexp, emin, prec32, emax32.
  rewrite andb_true_iff, Z.eqb_eq, Z.leb_le, digits2_pos_size.
  intros [Hc He].
  assert (Hd : Z.pos (Pos.size m) <= 24) by lia.
  split; [| lia].
  pose proof (Pos.size_gt m) as Hs.
  apply Pos2Z.pos_lt_pos in Hs. rewrite Pos2Z.inj_pow in Hs.
  eapply Z.lt_le_trans; [exact Hs |].
  apply Z.pow_le_mono_r; lia.
Qed.

(** [a <= b] excludes [b < a]. *)
Lemma SFleb_not_SFltb (a b : spec_float) :
  SFleb a b = true -> SFltb b a = false.
Proof.
  unfold SFleb, SFltb, SFcompare.
  destruct a as [[]|[]| |[] m1 e1], b as [[]|[]| |[] m2 e2];
    try reflexivity; try discriminate.
  all: change (Pos.compare_cont Eq m1 m2) with (Pos.compare m1 m2);
    change (Pos.compare_cont Eq m2 m1) with (Pos.compare m2 m1);
    rewrite (Z.compare_antisym e1 e2), (Pos.compare_antisym m1 m2);
    destruct (e1 ?= e2); cbn; try discriminate; try reflexivity;
    destruct (Pos.compare m1 m2); cbn; try discriminate; reflexivity.
Qed.

Lemma fle_not_flt (a b : float) : fle a b = true -> flt b a = false.
Proof. apply SFleb_not_SFltb. Qed.

Lemma fle_not_fgt (a b : float) : fle a b = true -> fgt a b = false.
Proof. apply SFleb_not_SFltb. Qed.

(** A comparison that holds has no NaN operand. *)
Lemma flt_not_fle (a b : float) : flt a b = true -> fle b a = false.
Proof.
  unfold flt, fle. intros H.
  destruct (SFleb (fval b) (fval a)) eqn:E; [| reflexivity].
  apply SFleb_not_SFltb in E. congruence.
Qed.

(** [static_cast_int] agrees with truncation toward zero of the value. *)
Lemma shift_mantissa_nonneg (m : positive) (e : Z) : 0 <= shift_mantissa m e.
Proof.
  unfold shift_mantissa. destruct (Z.leb_spec 0 e).
  - apply Z.shiftl_nonneg. lia.
  - apply Z.shiftr_nonneg. lia.
Qed.

Lemma Qtruncate_inject (z : Z) : Qtruncate (inject_Z z) = z.
Proof.
  unfold Qtruncate. destruct (Qle_bool _ _);
    [apply Qfloor_Z | apply Qceiling_Z].
Qed.

Lemma Qtruncate_pos_fraction (n : positive) (d : positive) :
  Qtruncate (Qmake (Z.pos n) d) = Z.pos n / Z.pos d.
Proof. reflexivity. Qed.

Lemma Qtruncate_neg_fraction (n : positive) (d : positive) :
  Qtruncate (Qmake (Z.neg n) d) = - (Z.pos n / Z.pos d).
Proof. reflexivity. Qed.

Lemma truncation_of_finite (s : bool) (m : positive) (e : Z) :
  let q := if 0 <=? e
           then inject_Z (cond_Zopp s (Z.pos m * 2 ^ e))
           else Qmake (cond_Zopp s (Z.pos m)) (Z.to_pos (2 ^ (- e))) in
  cond_Zopp s (shift_mantissa m e) = Qtruncate q.
Proof.
  unfold shift_mantissa. destruct (Z.leb_spec 0 e) as [He | He]; cbv zeta.
  - rewrite Qtruncate_inject, Z.shiftl_mul_pow2 by assumption.
    destruct s; cbn [cond_Zopp]; lia.
  - rewrite Z.shiftr_div_pow2 by lia.
    assert (Hp : 0 < 2 ^ (- e)) by (apply Z.pow_pos_nonneg; lia).
    destruct s; cbn [cond_Zopp].
    + change (- Z.pos m) with (Z.neg m).
      rewrite Qtruncate_neg_fraction, Z2Pos.id by assumption. reflexivity.
    + rewrite Qtruncate_pos_fraction, Z2Pos.id by assumption. reflexivity.
Qed.

Lemma static_cast_int_truncates (f : float) (k : Z) :
  static_cast_int f = Some k ->
  exists q, float_value f = Some q /\ k = Qtruncate q.
Proof.
  unfold static_cast_int, float_value.
  destruct (fval f) as [s | s | | s m e]; try discriminate.
  - intros [= <-]. exists (inject_Z 0). split; reflexivity.
  - destruct (_ && _); [| discriminate]. intros [= <-].
    eexists. split; [reflexivity |]. apply truncation_of_finite.
Qed.

(** Within [0.0, 3.0] the conversion is defined and yields 0, 1, 2 or 3. *)
Lemma static_cast_int_zoom_range (zoom : float) :
  fle f0_0 zoom = true -> fle zoom f3_0 = true ->
  exists k, static_cast_int zoom = Some k /\ 0 <= k <= 3.
Proof.
  unfold fle, static_cast_int. destruct zoom as [v Hv]. cbn [fval f0_0 f3_0].
  destruct v as [s | s | | s m e].
  - intros _ _. exists 0. split; [reflexivity | lia].
  - destruct s; discriminate.
  - discriminate.
  - intros H0 H3.
    destruct s; [discriminate |]. clear H0.
    cbn [valid_binary] in Hv.
    apply bounded_mantissa in Hv. destruct Hv as [Hm He].
    unfold SFleb, SFcompare in H3.
    pose proof (Pos.compare_spec m 12582912) as Hc. unfold Pos.compare in Hc.
    assert (Hk : 0 <= shift_mantissa m e <= 3).
    { split; [apply shift_mantissa_nonneg |].
      unfold shift_mantissa.
      destruct (Z.compare_spec e (-22)) as [-> | Hlt | Hgt];
        [| | discriminate].
      - destruct Hc as [-> | Hm' | Hm']; [reflexivity | | discriminate].
        apply Pos2Z.pos_lt_pos in Hm'. clear H3.
        cbn [Z.leb Z.compare Z.opp].
        rewrite Z.shiftr_div_pow2 by discriminate.
        apply Z.lt_succ_r, Z.div_lt_upper_bound; [reflexivity |].
        change (2 ^ 22) with 4194304. lia.
      - clear Hc H3. destruct (Z.leb_spec 0 e); [lia |].
        rewrite Z.shiftr_div_pow2 by lia.
        assert (2 ^ 23 <= 2 ^ (- e)) by (apply Z.pow_le_mono_r; lia).
        apply Z.lt_succ_r, Z.div_lt_upper_bound; [lia |].
        change (2 ^ 24) with (2 * 2 ^ 23) in Hm. lia. }
    clear Hc H3.
    cbn [cond_Zopp].
    exists (shift_mantissa m e). split; [| exact Hk].
    destruct (Z.leb_spec INT_MIN (shift_mantissa m e));
      destruct (Z.leb_spec (shift_mantissa m e) INT_MAX);
      unfold INT_MIN, INT_MAX in *; cbn [andb]; try reflexivity; lia.
Qed.

Section Properties.

Context {W : Type}.
Variable lib : forall R : Type, Call R -> W -> R * W.

(** *** Running a computation symbolically

    [answer] names what the library hands back for the next call of the
    goal; [branch] splits on the test the run is stuck on; [run] alternates
    the two until the computation is a tuple. *)
Ltac answer :=
  match goal with
  | |- context [lib ?R ?f ?w] =>
      let r := fresh "r" in
      let w' := fresh "w" in
      let E := fresh "E" in
      destruct (lib R f w) as [r w'] eqn:E;
      try match type of r with
          | unit => destruct r
          | prod _ _ => destruct r
          end;
      cbn [fst snd]
  end.

Ltac norm_goal :=
  cbn [fst snd app is_null negb
       gst_ pixels_ width_ height_ max_zoom_level_ min_zoom_level_
       on_notify_captured_ stream_handler_
       pipeline source jpegdec video_convert video_sink output bus buffer
       set_gst set_pipeline set_source set_jpegdec set_video_convert
       set_video_sink set_output set_bus set_buffer set_size set_pixels
       set_zoom_levels set_on_notify_captured].

Ltac norm :=
  cbn [fst snd app is_null negb
       gst_ pixels_ width_ height_ max_zoom_level_ min_zoom_level_
       on_notify_captured_ stream_handler_
       pipeline source jpegdec video_convert video_sink output bus buffer
       set_gst set_pipeline set_source set_jpegdec set_video_convert
       set_video_sink set_output set_bus set_buffer set_size set_pixels
       set_zoom_levels set_on_notify_captured] in *.

Ltac unfold_m :=
  unfold when_set in *;
  unfold store, when in *;
  unfold value, camera, world, events, bind, call, access, get, modify, ret in *;
  norm.

Ltac branch :=
  match goal with
  | |- context [if is_null ?p then _ else _] =>
      is_var p; destruct p; cbn [is_null negb]
  | |- context [negb (is_null ?p)] => is_var p; destruct p; cbn [is_null negb]
  | |- context [is_failure ?r] =>
      is_var r; destruct r; cbn [is_failure is_async]
  | |- context [if negb ?b then _ else _] => is_var b; destruct b; cbn [negb]
  | |- context [if ?b then _ else _] => destruct b eqn:?
  | |- context [match ?x with Some _ => _ | None => _ end] => destruct x eqn:?
  end.

Ltac run := unfold_m; repeat (first [answer | branch]; norm_goal).

(** ** Play, Pause, Stop *)

Lemma Play_value (c : GstCamera) (w : W) :
  value (Play lib c w)
  = negb (is_failure (fst (set_state_answer lib c w GST_STATE_PLAYING))).
Proof.
  unfold Play, set_state_answer. unfold_m.
  answer. destruct r; cbn; repeat answer;
    repeat match goal with |- context [is_failure ?x] => destruct x; cbn end;
    repeat answer; reflexivity.
Qed.

Lemma Pause_value (c : GstCamera) (w : W) :
  value (Pause lib c w)
  = negb (is_failure (fst (set_state_answer lib c w GST_STATE_PAUSED))).
Proof.
  unfold Pause, set_state_answer. unfold_m.
  answer. destruct r; cbn; repeat answer; reflexivity.
Qed.

Lemma Stop_value (c : GstCamera) (w : W) :
  value (Stop lib c w)
  = negb (is_failure (fst (set_state_answer lib c w GST_STATE_READY))).
Proof.
  unfold Stop, set_state_answer. unfold_m.
  answer. destruct r; cbn; repeat answer; reflexivity.
Qed.

Lemma negb_is_failure_false (r : GstStateChangeReturn) :
  negb (is_failure r) = false <-> r = GST_STATE_CHANGE_FAILURE.
Proof. destruct r; cbn; split; congruence. Qed.

Lemma negb_is_failure_true (r : GstStateChangeReturn) :
  negb (is_failure r) = true <-> r <> GST_STATE_CHANGE_FAILURE.
Proof. destruct r; cbn; split; congruence. Qed.

(** The run of [Play] when the state change is asynchronous and the wait
    for it fails: the failure is written to [std::cerr] and nothing else
    happens. *)
Lemma Play_async_wait_failed (c : GstCamera) (w : W) :
  let '(r, w1) := set_state_answer lib c w GST_STATE_PLAYING in
  let '(r', w2) := lib _ (gst_element_get_state (pipeline (gst_ c))) w1 in
  r = GST_STATE_CHANGE_ASYNC ->
  r' = GST_STATE_CHANGE_FAILURE ->
  Play lib c w
  = (true, c, snd (lib _ (std_cerr [Text "Failed to get the current state"]) w2),
     [Ev (gst_element_set_state (pipeline (gst_ c)) GST_STATE_PLAYING)
         GST_STATE_CHANGE_ASYNC;
      Ev (gst_element_get_state (pipeline (gst_ c))) GST_STATE_CHANGE_FAILURE;
      Ev (std_cerr [Text "Failed to get the current state"]) tt]).
Proof.
  unfold set_state_answer, Play. unfold_m.
  destruct (lib _ (gst_element_set_state _ _) w) as [r w1].
  destruct (lib _ (gst_element_get_state _) w1) as [r' w2] eqn:E.
  intros -> ->. cbn. rewrite E. cbn.
  destruct (lib _ (std_cerr _) w2) as [[] w3]. reflexivity.
Qed.

(** What [Pause] and [Stop] do: one request to the pipeline, whose answer
    decides the result and whether a line is logged. *)
Lemma Pause_run (c : GstCamera) (w : W) :
  let '(r, w1) := set_state_answer lib c w GST_STATE_PAUSED in
  Pause lib c w
  = (negb (is_failure r), c,
     after_request lib r "Failed to change the state to PAUSED" w1,
     state_request (pipeline (gst_ c)) GST_STATE_PAUSED r
       "Failed to change the state to PAUSED").
Proof.
  unfold Pause, set_state_answer, after_request, state_request. unfold_m.
  answer. destruct r; cbn [is_failure negb]; try reflexivity.
  answer. reflexivity.
Qed.

Lemma Stop_run (c : GstCamera) (w : W) :
  let '(r, w1) := set_state_answer lib c w GST_STATE_READY in
  Stop lib c w
  = (negb (is_failure r), c,
     after_request lib r "Failed to change the state to READY" w1,
     state_request (pipeline (gst_ c)) GST_STATE_READY r
       "Failed to change the state to READY").
Proof.
  unfold Stop, set_state_answer, after_request, state_request. unfold_m.
  answer. destruct r; cbn [is_failure negb]; try reflexivity.
  answer. reflexivity.
Qed.

Lemma Play_run (c : GstCamera) (w : W) :
  let '(r, w1) := set_state_answer lib c w GST_STATE_PLAYING in
  let r' := fst (lib _ (gst_element_get_state (pipeline (gst_ c))) w1) in
  camera (Play lib c w) = c
  /\ events (Play lib c w)
     = state_request (pipeline (gst_ c)) GST_STATE_PLAYING r
         "Failed to change the state to PLAYING"
       ++ wait_for_state (pipeline (gst_ c)) r r'.
Proof.
  unfold Play, set_state_answer, state_request, wait_for_state. unfold_m.
  answer. destruct r; cbn [is_failure is_async]; norm_goal.
  - answer. split; reflexivity.
  - split; reflexivity.
  - answer. destruct r; cbn [is_failure]; norm_goal;
      try (split; reflexivity).
    answer. split; reflexivity.
  - split; reflexivity.
Qed.

(** C5. Each of [Play], [Pause] and [Stop] asks the pipeline for its
    state with one [gst_element_set_state] call, and returns false exactly
    when that call answers [GST_STATE_CHANGE_FAILURE], true otherwise;
    [Play] returns true also when the state change is asynchronous and
    the wait for it fails.  The request, the logged line and, for [Play],
    the wait are all a call does. *)
Theorem state_change_status_as_bool (c : GstCamera) (w : W) :
  (value (Play lib c w) = false
   <-> fst (set_state_answer lib c w GST_STATE_PLAYING) = GST_STATE_CHANGE_FAILURE)
  /\ (value (Play lib c w) = true
      <-> fst (set_state_answer lib c w GST_STATE_PLAYING) <> GST_STATE_CHANGE_FAILURE)
  /\ (value (Pause lib c w) = false
      <-> fst (set_state_answer lib c w GST_STATE_PAUSED) = GST_STATE_CHANGE_FAILURE)
  /\ (value (Pause lib c w) = true
      <-> fst (set_state_answer lib c w GST_STATE_PAUSED) <> GST_STATE_CHANGE_FAILURE)
  /\ (value (Stop lib c w) = false
      <-> fst (set_state_answer lib c w GST_STATE_READY) = GST_STATE_CHANGE_FAILURE)
  /\ (value (Stop lib c w) = true
      <-> fst (set_state_answer lib c w GST_STATE_READY) <> GST_STATE_CHANGE_FAILURE)
  /\ (fst (set_state_answer lib c w GST_STATE_PLAYING) = GST_STATE_CHANGE_ASYNC ->
      fst (lib _ (gst_element_get_state (pipeline (gst_ c)))
             (snd (set_state_answer lib c w GST_STATE_PLAYING)))
      = GST_STATE_CHANGE_FAILURE ->
      value (Play lib c w) = true
      /\ camera (Play lib c w) = c
      /\ events (Play lib c w)
         = [Ev (gst_element_set_state (pipeline (gst_ c)) GST_STATE_PLAYING)
              GST_STATE_CHANGE_ASYNC;
            Ev (gst_element_get_state (pipeline (gst_ c)))
              GST_STATE_CHANGE_FAILURE;
            Ev (std_cerr [Text "Failed to get the current state"]) tt])
  /\ (let '(r, w1) := set_state_answer lib c w GST_STATE_PAUSED in
      Pause lib c w
      = (negb (is_failure r), c,
         after_request lib r "Failed to change the state to PAUSED" w1,
         state_request (pipeline (gst_ c)) GST_STATE_PAUSED r
           "Failed to change the state to PAUSED"))
  /\ (let '(r, w1) := set_state_answer lib c w GST_STATE_READY in
      Stop lib c w
      = (negb (is_failure r), c,
         after_request lib r "Failed to change the state to READY" w1,
         state_request (pipeline (gst_ c)) GST_STATE_READY r
           "Failed to change the state to READY"))
  /\ (let '(r, w1) := set_state_answer lib c w GST_STATE_PLAYING in
      let r' := fst (lib _ (gst_element_get_state (pipeline (gst_ c))) w1) in
      camera (Play lib c w) = c
      /\ events (Play lib c w)
         = state_request (pipeline (gst_ c)) GST_STATE_PLAYING r
             "Failed to change the state to PLAYING"
           ++ wait_for_state (pipeline (gst_ c)) r r').
Proof.
  split; [| split; [| split; [| split; [| split; [| split; [| split]]]]]].
  1-6: rewrite ?Play_value, ?Pause_value, ?Stop_value;
    first [apply negb_is_failure_false | apply negb_is_failure_true].
  - intros H H0. pose proof (Play_async_wait_failed c w) as P.
    destruct (set_state_answer lib c w GST_STATE_PLAYING) as [r w1].
    cbn [fst snd] in *.
    destruct (lib _ (gst_element_get_state _) w1) as [r' w2].
    cbn [fst snd] in *. rewrite (P H H0). repeat split; reflexivity.
  - split; [exact (Pause_run c w) |]. split; [exact (Stop_run c w) |].
    exact (Play_run c w).
Qed.

(** ** What the methods leave alone *)

Lemma SetZoomLevel_camera (zoom : float) (c : GstCamera) (w : W) :
  camera (SetZoomLevel lib zoom c w) = c.
Proof. unfold SetZoomLevel. run; reflexivity. Qed.

Lemma HandoffHandler_zoom_fields (fakesink buf new_pad : Ptr) c w :
  zoom_fields (camera (HandoffHandler lib fakesink buf new_pad c w))
  = zoom_fields c.
Proof. unfold HandoffHandler. run; reflexivity. Qed.

Lemma HandleGstMessage_camera (m : GstMessage) (c : GstCamera) (w : W) :
  camera (HandleGstMessage lib m c w) = c.
Proof. unfold HandleGstMessage. run; reflexivity. Qed.

Lemma GetPreviewFrameBuffer_camera (c : GstCamera) (w : W) :
  camera (GetPreviewFrameBuffer lib c w) = c.
Proof. unfold GetPreviewFrameBuffer. run; reflexivity. Qed.

Lemma Play_camera (c : GstCamera) (w : W) : camera (Play lib c w) = c.
Proof. unfold Play. run; reflexivity. Qed.

Lemma Pause_camera (c : GstCamera) (w : W) : camera (Pause lib c w) = c.
Proof. unfold Pause. run; reflexivity. Qed.

Lemma Stop_camera (c : GstCamera) (w : W) : camera (Stop lib c w) = c.
Proof. unfold Stop. run; reflexivity. Qed.

Lemma perform_zoom_fields (o : Op) (c : GstCamera) (w : W) :
  zoom_fields (camera (perform lib o c w)) = zoom_fields c.
Proof.
  destruct o; unfold perform.
  - pose proof (Play_camera c w) as H. revert H. unfold_m.
    destruct (Play lib c w) as [[[b c'] w'] t]. cbn. congruence.
  - pose proof (Pause_camera c w) as H. revert H. unfold_m.
    destruct (Pause lib c w) as [[[b c'] w'] t]. cbn. congruence.
  - pose proof (Stop_camera c w) as H. revert H. unfold_m.
    destruct (Stop lib c w) as [[[b c'] w'] t]. cbn. congruence.
  - unfold TakePicture. run. reflexivity.
  - pose proof (SetZoomLevel_camera zoom c w) as H. revert H. unfold_m.
    destruct (SetZoomLevel lib zoom c w) as [[[b c'] w'] t]. cbn. congruence.
  - pose proof (GetPreviewFrameBuffer_camera c w) as H. revert H. unfold_m.
    destruct (GetPreviewFrameBuffer lib c w) as [[[b c'] w'] t]. cbn. congruence.
  - reflexivity.
  - pose proof (HandoffHandler_zoom_fields fakesink buf new_pad c w) as H.
    revert H. unfold_m.
    destruct (HandoffHandler lib fakesink buf new_pad c w) as [[[b c'] w'] t].
    cbn. congruence.
  - pose proof (HandleGstMessage_camera message c w) as H. revert H. unfold_m.
    destruct (HandleGstMessage lib message c w) as [[[b c'] w'] t].
    cbn. congruence.
Qed.

(** ** The constructor *)

Lemma CreatePipeline_bounds (c : GstCamera) (w : W) :
  bounds (camera (CreatePipeline lib c w)) = bounds c.
Proof. unfold CreatePipeline. run; reflexivity. Qed.

Lemma CreatePipeline_source (c : GstCamera) (w : W) :
  value (CreatePipeline lib c w) = true ->
  source (gst_ (camera (CreatePipeline lib c w))) <> None.
Proof. unfold CreatePipeline. run; cbn; congruence. Qed.

Lemma Preroll_camera (c : GstCamera) (w : W) : camera (Preroll lib c w) = c.
Proof. unfold Preroll. run; reflexivity. Qed.

Lemma DestroyPipeline_source (c : GstCamera) (w : W) :
  source (gst_ (camera (DestroyPipeline lib c w))) = None.
Proof.
  destruct c as [[p src dec conv sink out b buf] px wd ht mx mn cb h].
  unfold DestroyPipeline. cbn [gst_ pipeline source jpegdec video_convert
    video_sink bus buffer].
  run; reflexivity.
Qed.

Lemma DestroyPipeline_bounds (c : GstCamera) (w : W) :
  bounds (camera (DestroyPipeline lib c w)) = bounds c.
Proof.
  destruct c as [[p src dec conv sink out b buf] px wd ht mx mn cb h].
  unfold DestroyPipeline. cbn [gst_ pipeline source jpegdec video_convert
    video_sink bus buffer].
  run; reflexivity.
Qed.

(** The constructor stores the bounds 3.0 and 0.0 exactly when
    [CreatePipeline] succeeded; otherwise it returns early, the bounds are
    what the storage held, and the source is null. *)
Lemma GstCamera_new_fields (handler : Ptr) (c0 : GstCamera) (w : W) :
  let created := value (CreatePipeline lib (cleared handler c0) w) in
  let c := camera (GstCamera_new lib handler c0 w) in
  bounds c = (if created then (f3_0, f0_0) else bounds c0)
  /\ (created = false -> source (gst_ c) = None).
Proof.
  cbv zeta.
  pose proof (CreatePipeline_bounds (cleared handler c0) w) as HB.
  unfold GstCamera_new. unfold_m.
  match goal with
  | |- context [CreatePipeline lib ?x w] => change x with (cleared handler c0)
  end.
  destruct (CreatePipeline lib (cleared handler c0) w)
    as [[[created c1] w1] t1]; norm.
  destruct created; norm.
  - pose proof (Preroll_camera c1 w1) as HP. unfold_m.
    destruct (Preroll lib c1 w1) as [[[[] c2] w2] t2]; norm.
    split; [reflexivity | discriminate].
  - answer.
    pose proof (DestroyPipeline_bounds c1 w0) as HD.
    pose proof (DestroyPipeline_source c1 w0) as HS. unfold_m.
    destruct (DestroyPipeline lib c1 w0) as [[[[] c2] w2] t2]; norm.
    split; [rewrite HD, HB; reflexivity | intros _; exact HS].
Qed.

(** In every state of the object's lifetime in which the source exists the
    stored bounds are those the constructor wrote. *)
Lemma reachable_bounds (c : GstCamera) (w : W) (t : list Event) :
  reachable lib c w t ->
  source (gst_ c) <> None -> bounds c = (f3_0, f0_0).
Proof.
  induction 1 as [c0 handler w0 | c w t o R IH Hdef].
  - destruct (GstCamera_new_fields handler c0 w0) as [HB HS]. cbv zeta in *.
    rewrite HB.
    destruct (value (CreatePipeline lib (cleared handler c0) w0)).
    + reflexivity.
    + intros Hsrc. exfalso. apply Hsrc, HS. reflexivity.
  - pose proof (perform_zoom_fields o c w) as HF. unfold zoom_fields in HF.
    injection HF as Hs Hmx Hmn. unfold bounds in *.
    rewrite Hs, Hmx, Hmn. exact IH.
Qed.

(** ** SetZoomLevel *)

Lemma SetZoomLevel_rejects (zoom : float) (c : GstCamera) (w : W) :
  source (gst_ c) = None
  \/ flt zoom (min_zoom_level_ c) = true
  \/ fgt zoom (max_zoom_level_ c) = true ->
  value (SetZoomLevel lib zoom c w) = Some false
  /\ camera (SetZoomLevel lib zoom c w) = c
  /\ existsb is_g_object_set (events (SetZoomLevel lib zoom c w)) = false.
Proof.
  intros H. unfold SetZoomLevel. unfold_m.
  destruct (source (gst_ c)) as [src |] eqn:Es; norm.
  - destruct (flt zoom (min_zoom_level_ c)) eqn:Emin.
    + answer. repeat split.
    + destruct (fgt zoom (max_zoom_level_ c)) eqn:Emax.
      * answer. repeat split.
      * destruct H as [H | [H | H]]; discriminate.
  - answer. repeat split.
Qed.

(** What a call does once the three checks have passed. *)
Lemma SetZoomLevel_passes (zoom : float) (c : GstCamera) (w : W) :
  source (gst_ c) <> None ->
  flt zoom (min_zoom_level_ c) = false ->
  fgt zoom (max_zoom_level_ c) = false ->
  match static_cast_int zoom with
  | Some zoom_int =>
      value (SetZoomLevel lib zoom c w) = Some true
      /\ events (SetZoomLevel lib zoom c w)
         = zoom_applied (source (gst_ c)) zoom_int
  | None => value (SetZoomLevel lib zoom c w) = None
  end.
Proof.
  intros Hs Hmin Hmax. unfold SetZoomLevel. unfold_m.
  destruct (source (gst_ c)) as [src |]; [| congruence]. norm.
  rewrite Hmin, Hmax.
  destruct (static_cast_int zoom) as [k |]; [| reflexivity].
  repeat answer. split; reflexivity.
Qed.

(** During the object's lifetime a zoom within the stored bounds converts
    to an [int] and is applied. *)
Lemma SetZoomLevel_accepts (zoom : float) (c : GstCamera) (w : W)
    (t : list Event) :
  reachable lib c w t ->
  source (gst_ c) <> None ->
  fle (min_zoom_level_ c) zoom = true ->
  fle zoom (max_zoom_level_ c) = true ->
  exists zoom_int,
    static_cast_int zoom = Some zoom_int
    /\ value (SetZoomLevel lib zoom c w) = Some true
    /\ camera (SetZoomLevel lib zoom c w) = c
    /\ events (SetZoomLevel lib zoom c w)
       = zoom_applied (source (gst_ c)) zoom_int.
Proof.
  intros R Hs Hmin Hmax.
  pose proof (reachable_bounds c w t R Hs) as HB. injection HB as Hmx Hmn.
  pose proof (SetZoomLevel_passes zoom c w Hs
                (fle_not_flt _ _ Hmin) (fle_not_fgt _ _ Hmax)) as HP.
  rewrite Hmx in Hmax. rewrite Hmn in Hmin.
  destruct (static_cast_int_zoom_range zoom Hmin Hmax) as [k [Hk _]].
  rewrite Hk in HP. destruct HP as [Hv He].
  exists k. repeat split; try assumption. apply SetZoomLevel_camera.
Qed.

(** C3. [SetZoomLevel] returns false and sets no property when the source
    is null, or the zoom is below the stored minimum, or above the stored
    maximum; during the object's lifetime every zoom within the stored
    bounds, with a source, is applied and the call returns true. *)
Theorem SetZoomLevel_range_check :
  (forall (zoom : float) (c : GstCamera) (w : W),
      source (gst_ c) = None
      \/ flt zoom (min_zoom_level_ c) = true
      \/ fgt zoom (max_zoom_level_ c) = true ->
      value (SetZoomLevel lib zoom c w) = Some false
      /\ camera (SetZoomLevel lib zoom c w) = c
      /\ existsb is_g_object_set (events (SetZoomLevel lib zoom c w)) = false)
  /\ (forall (zoom : float) (c : GstCamera) (w : W) (t : list Event),
         reachable lib c w t ->
         source (gst_ c) <> None ->
         fle (min_zoom_level_ c) zoom = true ->
         fle zoom (max_zoom_level_ c) = true ->
         exists zoom_int,
           static_cast_int zoom = Some zoom_int
           /\ value (SetZoomLevel lib zoom c w) = Some true
           /\ camera (SetZoomLevel lib zoom c w) = c
           /\ events (SetZoomLevel lib zoom c w)
              = zoom_applied (source (gst_ c)) zoom_int).
Proof.
  split; [exact SetZoomLevel_rejects | exact SetZoomLevel_accepts].
Qed.

(** C8. The control value applied for a zoom within the bounds is the zoom
    truncated toward zero; 2.0 and 2.9 are both applied as 2. *)
Theorem SetZoomLevel_truncates :
  (forall (zoom : float) (c : GstCamera) (w : W) (t : list Event),
      reachable lib c w t ->
      source (gst_ c) <> None ->
      fle (min_zoom_level_ c) zoom = true ->
      fle zoom (max_zoom_level_ c) = true ->
      exists q,
        float_value zoom = Some q
        /\ events (SetZoomLevel lib zoom c w)
           = zoom_applied (source (gst_ c)) (Qtruncate q))
  /\ (forall (zoom : float) (c : GstCamera) (w : W),
         value (SetZoomLevel lib zoom c w) = Some true ->
         exists q,
           float_value zoom = Some q
           /\ events (SetZoomLevel lib zoom c w)
              = zoom_applied (source (gst_ c)) (Qtruncate q))
  /\ static_cast_int f2_0 = Some 2
  /\ static_cast_int f2_9 = Some 2.
Proof.
  split; [| split; [| split; reflexivity]].
  - intros zoom c w t R Hs Hmin Hmax.
    destruct (SetZoomLevel_accepts zoom c w t R Hs Hmin Hmax)
      as [k [Hk [_ [_ He]]]].
    destruct (static_cast_int_truncates zoom k Hk) as [q [Hq ->]].
    exists q. split; assumption.
  - intros zoom c w Hv.
    destruct (source (gst_ c)) as [src |] eqn:Es.
    + destruct (flt zoom (min_zoom_level_ c)) eqn:Emin.
      { destruct (SetZoomLevel_rejects zoom c w) as [H _]; [auto | congruence]. }
      destruct (fgt zoom (max_zoom_level_ c)) eqn:Emax.
      { destruct (SetZoomLevel_rejects zoom c w) as [H _]; [auto | congruence]. }
      assert (Hs : source (gst_ c) <> None) by congruence.
      pose proof (SetZoomLevel_passes zoom c w Hs Emin Emax) as HP.
      destruct (static_cast_int zoom) as [k |] eqn:Hk; [| congruence].
      destruct (static_cast_int_truncates zoom k Hk) as [q [Hq ->]].
      exists q. rewrite <- Es. split; [assumption | apply HP].
    + destruct (SetZoomLevel_rejects zoom c w) as [H _]; [auto | congruence].
Qed.

(** ** The zoom bounds *)

(** C4. [GetZoomMaxMinSize] always yields max 3.0 and min 0.0 and touches
    nothing; these are the values the constructor stores as
    [max_zoom_level_] and [min_zoom_level_] (it stores them once
    [CreatePipeline] has succeeded and stores no others), no call changes
    the stored bounds afterwards, and whenever the object has a source
    the stored bounds are the pair [GetZoomMaxMinSize] yields. *)
Theorem zoom_bounds_fixed :
  (forall (c : GstCamera) (w : W),
      GetZoomMaxMinSize c w = ((f3_0, f0_0), c, w, []))
  /\ (exists q, float_value f3_0 = Some q /\ Qeq q (inject_Z 3))
  /\ float_value f0_0 = Some (inject_Z 0)
  /\ (forall (handler : Ptr) (c0 : GstCamera) (w : W),
         bounds (camera (GstCamera_new lib handler c0 w))
         = if value (CreatePipeline lib (cleared handler c0) w)
           then (f3_0, f0_0) else bounds c0)
  /\ (forall (o : Op) (c : GstCamera) (w : W),
         bounds (camera (perform lib o c w)) = bounds c)
  /\ (forall (c : GstCamera) (w : W) (t : list Event),
         reachable lib c w t ->
         source (gst_ c) <> None ->
         bounds c = value (GetZoomMaxMinSize c w)).
Proof.
  repeat match goal with |- _ /\ _ => split end.
  - reflexivity.
  - eexists. split; reflexivity.
  - reflexivity.
  - intros handler c0 w. apply GstCamera_new_fields.
  - intros o c w. pose proof (perform_zoom_fields o c w) as H.
    unfold zoom_fields in H. injection H as _ Hmx Hmn.
    unfold bounds. congruence.
  - intros c w t R Hs. exact (reachable_bounds c w t R Hs).
Qed.

(** ** GetPreviewFrameBuffer *)

Lemma sint32_mod (z : Z) : sint32 z mod 2 ^ 32 = z mod 2 ^ 32.
Proof.
  unfold sint32. rewrite Zminus_mod_idemp_l. f_equal. lia.
Qed.

(** The size handed to [gst_buffer_extract] is [width_ * height_ * 4] as a
    [uint32_t]. *)
Lemma pixel_bytes_mod (wd ht : Z) :
  uint32 (imul (imul wd ht) 4) = (wd * ht * 4) mod 2 ^ 32.
Proof.
  unfold uint32, imul.
  rewrite sint32_mod, <- Z.mul_mod_idemp_l, sint32_mod, Z.mul_mod_idemp_l;
    [reflexivity | discriminate | discriminate].
Qed.

(** C6. [GetPreviewFrameBuffer] returns null when no buffer is held;
    otherwise it extracts [width_ * height_ * 4] bytes (as a [uint32_t])
    from the held buffer, from offset 0, into the pixel buffer and returns
    the pixel buffer.  No field of the object changes. *)
Theorem GetPreviewFrameBuffer_extracts (c : GstCamera) (w : W) :
  camera (GetPreviewFrameBuffer lib c w) = c
  /\ value (GetPreviewFrameBuffer lib c w)
     = (if is_null (buffer (gst_ c)) then None else pixels_ c)
  /\ events (GetPreviewFrameBuffer lib c w)
     = (if is_null (buffer (gst_ c)) then no_frame
        else frame_read (buffer (gst_ c)) (pixels_ c)
               ((width_ c * height_ c * 4) mod 2 ^ 32))
  /\ (0 <= width_ c * height_ c * 4 < 2 ^ 32 ->
      (width_ c * height_ c * 4) mod 2 ^ 32 = width_ c * height_ c * 4).
Proof.
  assert (Hsmall : 0 <= width_ c * height_ c * 4 < 2 ^ 32 ->
                   (width_ c * height_ c * 4) mod 2 ^ 32
                   = width_ c * height_ c * 4) by apply Z.mod_small.
  rewrite <- pixel_bytes_mod in *.
  unfold GetPreviewFrameBuffer, no_frame, frame_read.
  run; repeat split; try reflexivity; exact Hsmall.
Qed.

(** ** HandleGstMessage *)

Lemma HandleGstMessage_run (m : GstMessage) (c : GstCamera) (w : W) :
  value (HandleGstMessage lib m c w) = GST_BUS_DROP
  /\ camera (HandleGstMessage lib m c w) = c
  /\ events (HandleGstMessage lib m c w)
     = handling lib (on_notify_captured_ c) m w ++ [Ev (gst_message_unref m) tt].
Proof.
  unfold HandleGstMessage, handling, capture_notification, report.
  run;
    repeat match goal with
           | H : (_, _) = (_, _) |- _ => injection H as ? ?; subst
           end;
    cbn [fst snd app]; repeat split; reflexivity.
Qed.

(** C10. Whatever its type, a message is handled: an ELEMENT message may
    invoke the capture callback, a WARNING or ERROR message is parsed,
    logged and the parsed values are freed, any other type does nothing;
    then the message is unreferenced, as the last event, and the handler
    answers [GST_BUS_DROP]. *)
Theorem HandleGstMessage_total (m : GstMessage) (c : GstCamera) (w : W) :
  value (HandleGstMessage lib m c w) = GST_BUS_DROP
  /\ camera (HandleGstMessage lib m c w) = c
  /\ events (HandleGstMessage lib m c w)
     = handling lib (on_notify_captured_ c) m w ++ [Ev (gst_message_unref m) tt]
  /\ (msg_type m <> GST_MESSAGE_ELEMENT ->
      msg_type m <> GST_MESSAGE_WARNING ->
      msg_type m <> GST_MESSAGE_ERROR ->
      events (HandleGstMessage lib m c w) = [Ev (gst_message_unref m) tt]).
Proof.
  destruct (HandleGstMessage_run m c w) as [Hv [Hc He]].
  repeat split; try assumption.
  intros H1 H2 H3. rewrite He. unfold handling.
  apply Z.eqb_neq in H1, H2, H3. rewrite H1, H2, H3. reflexivity.
Qed.

(** ** TakePicture and the capture notification *)

Lemma TakePicture_run (cb : option Callback) (c : GstCamera) (w : W) :
  value (TakePicture lib cb c w) = tt
  /\ camera (TakePicture lib cb c w) = set_on_notify_captured cb c
  /\ events (TakePicture lib cb c w)
     = [Ev (std_cerr
              [Text "TakePicture is not supported with v4l2src pipeline"]) tt].
Proof. unfold TakePicture. run. repeat split. Qed.

Lemma notifications_app (t1 t2 : list Event) :
  notifications (t1 ++ t2) = notifications t1 ++ notifications t2.
Proof. apply filter_app. Qed.

Lemma handling_notifications (cb : Callback) (m : GstMessage) (w : W) :
  notifications (handling lib (Some cb) m w) = notified cb (OpMessage m).
Proof.
  unfold handling, notified, capture_notification, report.
  destruct (msg_type m =? GST_MESSAGE_ELEMENT).
  - destruct (msg_structure m) as [st |]; [| reflexivity].
    destruct (gst_structure_has_name st "image-done"); reflexivity.
  - destruct (msg_type m =? GST_MESSAGE_WARNING); [reflexivity |].
    destruct (msg_type m =? GST_MESSAGE_ERROR); reflexivity.
Qed.

(** Any call but [TakePicture] keeps the stored callback, and its
    notifications are those of [notified]. *)
Lemma perform_notifies (cb : Callback) (o : Op) (c : GstCamera) (w : W) :
  is_TakePicture o = false ->
  on_notify_captured_ c = Some cb ->
  on_notify_captured_ (camera (perform lib o c w)) = Some cb
  /\ notifications (events (perform lib o c w)) = notified cb o.
Proof.
  intros Ho Hcb. destruct o; try discriminate; unfold perform.
  - unfold Play. run; split; (assumption || reflexivity).
  - unfold Pause. run; split; (assumption || reflexivity).
  - unfold Stop. run; split; (assumption || reflexivity).
  - unfold SetZoomLevel. run; split; (assumption || reflexivity).
  - unfold GetPreviewFrameBuffer. run; split; (assumption || reflexivity).
  - split; [assumption | reflexivity].
  - unfold HandoffHandler. run; split; (assumption || reflexivity).
  - destruct (HandleGstMessage_run message c w) as [_ [Hc He]].
    revert Hc He. unfold_m.
    destruct (HandleGstMessage lib message c w) as [[[r c'] w'] t]. norm.
    intros -> ->. split; [assumption |].
    rewrite app_nil_r, notifications_app, Hcb, handling_notifications.
    unfold notified. cbn [notifications filter is_notification].
    apply app_nil_r.
Qed.

Lemma perform_all_notifies (cb : Callback) (os : list Op) :
  forallb (fun o => negb (is_TakePicture o)) os = true ->
  forall (c : GstCamera) (w : W),
    on_notify_captured_ c = Some cb ->
    notifications (events (perform_all lib os c w))
    = flat_map (notified cb) os.
Proof.
  induction os as [| o os IH]; intros Hos c w Hcb; [reflexivity |].
  cbn [forallb] in Hos. apply andb_true_iff in Hos. destruct Hos as [Ho Hos].
  apply negb_true_iff in Ho.
  destruct (perform_notifies cb o c w Ho Hcb) as [Hcb' Hn].
  specialize (IH Hos (camera (perform lib o c w)) (world (perform lib o c w)) Hcb').
  revert Hn IH. cbn [perform_all flat_map]. unfold_m.
  destruct (perform lib o c w) as [[[r c'] w'] t]. norm.
  destruct (perform_all lib os c' w') as [[[r' c''] w''] t']. norm.
  intros <- <-. apply notifications_app.
Qed.

(** C2. [TakePicture] only writes a line to [std::cerr] and stores the
    callback: nothing is asked of the library.  From then on, until
    [TakePicture] is called again, the callback is invoked once for each
    ELEMENT message whose structure is named "image-done", with the
    message's "filename" string, and for nothing else. *)
Theorem TakePicture_stores_callback :
  (forall (cb : option Callback) (c : GstCamera) (w : W),
      camera (TakePicture lib cb c w) = set_on_notify_captured cb c
      /\ events (TakePicture lib cb c w)
         = [Ev (std_cerr
                  [Text "TakePicture is not supported with v4l2src pipeline"])
              tt])
  /\ (forall (cb : Callback) (c : GstCamera) (w : W) (m : GstMessage)
             (st : GstStructure),
         let after := TakePicture lib (Some cb) c w in
         msg_type m = GST_MESSAGE_ELEMENT ->
         msg_structure m = Some st ->
         gst_structure_has_name st "image-done" = true ->
         events (HandleGstMessage lib m (camera after) (world after))
         = [Ev (invoke_on_notify_captured cb
                  (gst_structure_get_string st "filename")) tt;
            Ev (gst_message_unref m) tt])
  /\ (forall (cb : Callback) (c : GstCamera) (w : W) (os : list Op),
         let after := TakePicture lib (Some cb) c w in
         forallb (fun o => negb (is_TakePicture o)) os = true ->
         notifications (events (perform_all lib os (camera after) (world after)))
         = flat_map (notified cb) os).
Proof.
  split; [| split].
  - intros cb c w. destruct (TakePicture_run cb c w) as [_ [Hc He]].
    split; assumption.
  - intros cb c w m st after Ht Hst Hname.
    destruct (TakePicture_run (Some cb) c w) as [_ [Hc _]].
    destruct (HandleGstMessage_run m (camera after) (world after))
      as [_ [_ He]].
    rewrite He. unfold after at 1. rewrite Hc.
    unfold handling, capture_notification.
    rewrite Ht, Z.eqb_refl, Hst. cbn [on_notify_captured_ set_on_notify_captured].
    rewrite Hname. reflexivity.
  - intros cb c w os after Hos.
    apply perform_all_notifies; [assumption |].
    unfold after. destruct (TakePicture_run (Some cb) c w) as [_ [Hc _]].
    rewrite Hc. reflexivity.
Qed.

(** ** HandoffHandler *)

Lemma HandoffHandler_run (fakesink buf new_pad : Ptr) (c : GstCamera) (w : W) :
  let r := HandoffHandler lib fakesink buf new_pad c w in
  let '(width, height) := frame_size lib new_pad w in
  (if (width =? width_ c) && (height =? height_ c)
   then value r = Returns
        /\ pixels_ (camera r) = pixels_ c
        /\ width_ (camera r) = width_ c
        /\ height_ (camera r) = height_ c
        /\ filter is_allocation (events r) = []
   else width_ (camera r) = width
        /\ height_ (camera r) = height
        /\ match value r with
           | Returns =>
               0 <= imul width height
               /\ pixels_ (camera r) <> None
               /\ filter is_allocation (events r)
                  = [Ev (operator_new_array (imul width height))
                       (pixels_ (camera r))]
           | Throws bad_array_new_length =>
               imul width height < 0
               /\ pixels_ (camera r) = pixels_ c
               /\ filter is_allocation (events r) = []
           | Throws bad_alloc =>
               0 <= imul width height
               /\ pixels_ (camera r) = pixels_ c
               /\ filter is_allocation (events r)
                  = [Ev (operator_new_array (imul width height)) None]
           end)
  /\ match value r with
     | Returns =>
         filter is_buffer_event (events r)
         = buffer_swap (buffer (gst_ c)) buf (buffer (gst_ (camera r)))
         /\ filter is_frame_notification (events r)
            = [Ev (OnNotifyFrameDecoded (stream_handler_ c)) tt]
     | Throws _ =>
         buffer (gst_ (camera r)) = buffer (gst_ c)
         /\ filter is_buffer_event (events r) = []
         /\ filter is_frame_notification (events r) = []
     end.
Proof.
  destruct c as [[p src dec conv sink out b old] px wd ht mx mn cb h].
  cbv zeta. unfold frame_size, HandoffHandler, buffer_swap. unfold_m.
  do 5 answer. norm_goal.
  destruct (r1 =? wd), (r2 =? ht); cbn [negb orb andb]; run;
    repeat split; try reflexivity; try discriminate;
    first [apply Z.ltb_lt; assumption | apply Z.ltb_ge; assumption].
Qed.

(** *** At most one buffer reference *)

Lemma refs_within_app (h : Z) (t1 t2 : list Event) :
  refs_within h (t1 ++ t2)
  = match refs_within h t1 with
    | Some h' => refs_within h' t2
    | None => None
    end.
Proof.
  revert h. induction t1 as [| e t1 IH]; intros h; cbn [app refs_within].
  - reflexivity.
  - destruct (_ && _); [apply IH | reflexivity].
Qed.


Lemma refs_within_total (t : list Event) :
  forall (h0 h : Z), refs_within h0 t = Some h -> h = h0 + ref_balance t.
Proof.
  induction t as [| e t IH]; intros h0 h Hrun; cbn [refs_within] in Hrun.
  - injection Hrun as <-. cbn. lia.
  - destruct (_ && _); [| discriminate].
    apply IH in Hrun.
    change (ref_balance (e :: t)) with (buffer_delta e + ref_balance t). lia.
Qed.

Lemma perform_refs (o : Op) (c : GstCamera) (w : W) :
  refs_within (held c) (events (perform lib o c w))
  = Some (held (camera (perform lib o c w))).
Proof.
  destruct c as [[p src dec conv sink out b old] px wd ht mx mn cb h].
  destruct old as [old |]; destruct o; unfold perform.
  all: try (unfold Play; run; reflexivity).
  all: try (unfold Pause; run; reflexivity).
  all: try (unfold Stop; run; reflexivity).
  all: try (unfold TakePicture; run; reflexivity).
  all: try (unfold SetZoomLevel; run; reflexivity).
  all: try (unfold GetPreviewFrameBuffer; run; reflexivity).
  all: try reflexivity.
  all: try (unfold HandleGstMessage; run; reflexivity).
  all: unfold HandoffHandler; run; try reflexivity;
    match goal with
    | |- context [Ev (gst_buffer_ref _) ?r] => destruct r
    end; reflexivity.
Qed.

Lemma neutral_app (t1 t2 : list Event) :
  neutral (t1 ++ t2) = neutral t1 && neutral t2.
Proof. apply forallb_app. Qed.

Lemma neutral_cons (e : Event) (t : list Event) :
  neutral (e :: t) = (buffer_delta e =? 0) && neutral t.
Proof. reflexivity. Qed.

Lemma refs_within_neutral (t : list Event) :
  neutral t = true ->
  forall h, 0 <= h <= 1 -> refs_within h t = Some h.
Proof.
  induction t as [| e t IH]; intros Hn h Hh; [reflexivity |].
  cbn [neutral forallb] in Hn. apply andb_true_iff in Hn.
  destruct Hn as [He Ht]. apply Z.eqb_eq in He.
  cbn [refs_within]. rewrite He, Z.add_0_r.
  destruct (Z.leb_spec 0 h); [| lia].
  destruct (Z.leb_spec h 1); [| lia].
  cbn [andb]. apply IH; assumption.
Qed.

Lemma CreatePipeline_buffer (c : GstCamera) (w : W) :
  neutral (events (CreatePipeline lib c w)) = true
  /\ buffer (gst_ (camera (CreatePipeline lib c w))) = buffer (gst_ c).
Proof.
  destruct c as [[p src dec conv sink out b old] px wd ht mx mn cb h].
  unfold CreatePipeline. run; split; reflexivity.
Qed.

Lemma Preroll_neutral (c : GstCamera) (w : W) :
  neutral (events (Preroll lib c w)) = true.
Proof. unfold Preroll. run; reflexivity. Qed.

Lemma DestroyPipeline_no_buffer (c : GstCamera) (w : W) :
  buffer (gst_ c) = None ->
  neutral (events (DestroyPipeline lib c w)) = true
  /\ buffer (gst_ (camera (DestroyPipeline lib c w))) = None.
Proof.
  destruct c as [[p src dec conv sink out b old] px wd ht mx mn cb h].
  cbn [gst_ buffer]. intros ->.
  unfold DestroyPipeline. run; split; reflexivity.
Qed.

Lemma GstCamera_new_buffer (handler : Ptr) (c0 : GstCamera) (w : W) :
  neutral (events (GstCamera_new lib handler c0 w)) = true
  /\ buffer (gst_ (camera (GstCamera_new lib handler c0 w))) = None.
Proof.
  destruct (CreatePipeline_buffer (cleared handler c0) w) as [Hn1 Hb1].
  unfold GstCamera_new. unfold_m.
  match goal with
  | |- context [CreatePipeline lib ?x w] => change x with (cleared handler c0)
  end.
  destruct (CreatePipeline lib (cleared handler c0) w)
    as [[[created c1] w1] t1]; norm.
  change (buffer (gst_ (cleared handler c0))) with (@None positive) in Hb1.
  destruct created; norm.
  - pose proof (Preroll_camera c1 w1) as HP.
    pose proof (Preroll_neutral c1 w1) as Hn2. unfold_m.
    destruct (Preroll lib c1 w1) as [[[[] c2] w2] t2]; norm. subst c2.
    split; [| exact Hb1].
    repeat (rewrite neutral_cons || rewrite neutral_app).
    rewrite Hn1, Hn2. reflexivity.
  - answer.
    destruct (DestroyPipeline_no_buffer c1 w0 Hb1) as [Hn2 Hb2]. unfold_m.
    destruct (DestroyPipeline lib c1 w0) as [[[[] c2] w2] t2]; norm.
    split; [| exact Hb2].
    repeat (rewrite neutral_cons || rewrite neutral_app).
    rewrite Hn1, Hn2. reflexivity.
Qed.

Lemma GstCamera_new_refs (handler : Ptr) (c0 : GstCamera) (w : W) :
  refs_within 0 (events (GstCamera_new lib handler c0 w))
  = Some (held (camera (GstCamera_new lib handler c0 w))).
Proof.
  destruct (GstCamera_new_buffer handler c0 w) as [Hn Hb].
  unfold held. rewrite Hb. cbn [is_null].
  apply refs_within_neutral; [exact Hn | lia].
Qed.

Lemma reachable_refs (c : GstCamera) (w : W) (t : list Event) :
  reachable lib c w t -> refs_within 0 t = Some (held c).
Proof.
  induction 1 as [c0 handler w0 | c w t o R IH Hdef].
  - apply GstCamera_new_refs.
  - rewrite refs_within_app, IH. apply perform_refs.
Qed.



(** ** CreatePipeline *)

Lemma stops_at_failure_split (t : list Event) :
  stops_at_failure t = true ->
  forall before e after,
    t = before ++ e :: after ->
    step_failed e = true ->
    existsb (fun e' => is_creation e' || is_link e') after = false.
Proof.
  induction t as [| e0 t IH]; intros Hstop before e after Hsplit Hfail.
  - destruct before; discriminate.
  - cbn [stops_at_failure] in Hstop. destruct before as [| e1 before].
    + injection Hsplit as -> ->. rewrite Hfail in Hstop.
      apply negb_true_iff in Hstop. exact Hstop.
    + injection Hsplit as -> ->.
      destruct (step_failed e1).
      * apply negb_true_iff in Hstop.
        rewrite existsb_app in Hstop. apply orb_false_iff in Hstop.
        destruct Hstop as [_ Hstop]. cbn [existsb] in Hstop.
        apply orb_false_iff in Hstop. apply Hstop.
      * exact (IH Hstop before e after eq_refl Hfail).
Qed.

Lemma CreatePipeline_run (c : GstCamera) (w : W) :
  let r := CreatePipeline lib c w in
  let g := gst_ (camera r) in
  let mjpeg_caps := caps_of mjpeg_caps_string (events r) in
  let rgba_caps := caps_of rgba_caps_string (events r) in
  value r = negb (existsb step_failed (events r))
  /\ stops_at_failure (events r) = true
  /\ factories (events r)
     = firstn (List.length (factories (events r))) pipeline_factories
  /\ links (events r)
     = firstn (List.length (links (events r)))
         (pipeline_links g mjpeg_caps rgba_caps)
  /\ (if value r then events r = pipeline_built g mjpeg_caps rgba_caps
      else True).
Proof.
  destruct c as [[p src dec conv sink out b old] px wd ht mx mn cb h].
  cbv zeta. unfold CreatePipeline. run; repeat split; reflexivity.
Qed.

(** C1. [CreatePipeline] creates the elements in the order v4l2src,
    jpegdec, videoconvert, fakesink and requests the links in the order
    capture to JPEG decoder (under the caps image/jpeg, 1920x1080, 30/1),
    decoder to converter, converter to sink (under the RGBA caps); a run
    in which no step fails makes exactly the calls of [pipeline_built] and
    returns true; as soon as a creation hands back null or a link answers
    false the run returns false and creates and links nothing more. *)
Theorem CreatePipeline_builds_in_order (c : GstCamera) (w : W) :
  let r := CreatePipeline lib c w in
  let g := gst_ (camera r) in
  let mjpeg_caps := caps_of mjpeg_caps_string (events r) in
  let rgba_caps := caps_of rgba_caps_string (events r) in
  (value r = true <-> forall e, In e (events r) -> step_failed e = false)
  /\ (value r = true ->
      events r = pipeline_built g mjpeg_caps rgba_caps
      /\ links (events r) = pipeline_links g mjpeg_caps rgba_caps)
  /\ (exists n, factories (events r) = firstn n pipeline_factories)
  /\ (exists n, links (events r)
                = firstn n (pipeline_links g mjpeg_caps rgba_caps))
  /\ (forall before e after,
         events r = before ++ e :: after ->
         step_failed e = true ->
         value r = false
         /\ forall e', In e' after -> is_creation e' = false /\ is_link e' = false).
Proof.
  cbv zeta.
  destruct (CreatePipeline_run c w) as [Hv [Hstop [Hmade [Hlinks Hbuilt]]]].
  cbv zeta in *.
  assert (Hiff : value (CreatePipeline lib c w) = true
                 <-> forall e, In e (events (CreatePipeline lib c w)) ->
                               step_failed e = false).
  { rewrite Hv, negb_true_iff. split.
    - intros Hnone e He.
      destruct (step_failed e) eqn:Hf; [| reflexivity].
      rewrite <- Hnone. symmetry. apply existsb_exists. exists e. auto.
    - intros Hall. destruct (existsb _ _) eqn:Hex; [| reflexivity].
      apply existsb_exists in Hex. destruct Hex as [e [He Hf]].
      rewrite (Hall e He) in Hf. discriminate. }
  split; [exact Hiff |]. split; [| split; [| split]].
  - intros Htrue. rewrite Htrue in Hbuilt. split; [exact Hbuilt |].
    rewrite Hbuilt at 1. reflexivity.
  - eexists. exact Hmade.
  - eexists. exact Hlinks.
  - intros before e after Hsplit Hfail. split.
    + destruct (value (CreatePipeline lib c w)) eqn:Hval; [| reflexivity].
      rewrite (proj1 Hiff eq_refl e) in Hfail; [discriminate |].
      rewrite Hsplit. apply in_or_app. right. left. reflexivity.
    + intros e' He'.
      pose proof (stops_at_failure_split _ Hstop before e after Hsplit Hfail)
        as Hnone.
      destruct (is_creation e' || is_link e') eqn:Hstep.
      * exfalso.
        assert (Hsome : existsb (fun e0 => is_creation e0 || is_link e0) after
                        = true)
          by (apply existsb_exists; exists e'; auto).
        congruence.
      * apply orb_false_iff in Hstep. exact Hstep.
Qed.

(** ** The buffer handle and the mutex *)

Lemma guarded_app (t1 t2 : list Event) :
  forall m, guarded m t1 = true -> guarded NotHeld t2 = true ->
            guarded m (t1 ++ t2) = true.
Proof.
  induction t1 as [| e t1 IH]; intros m H1 H2; cbn [app guarded] in *.
  - destruct m; [exact H2 | discriminate | discriminate].
  - destruct (guard_step m e) as [m' |]; [| discriminate]. auto.
Qed.

Lemma guard_step_after (m m' : Held) (e : Event) :
  guard_step m e = Some m' -> after_event m e = m'.
Proof.
  destruct e as [R c r | a].
  - destruct c; cbn; destruct m; cbn; congruence.
  - destruct a; cbn; destruct m; cbn; congruence.
Qed.

(** The callback holds the mutex exclusively around its accesses to the
    handle, the frame read holds it shared and only loads.  A handoff that
    throws has neither locked nor accessed the handle. *)
Lemma HandoffHandler_guarded (fakesink buf new_pad : Ptr) c w :
  let r := HandoffHandler lib fakesink buf new_pad c w in
  guarded NotHeld (events r) = true
  /\ existsb is_lock_shared (events r) = false
  /\ match value r with
     | Returns =>
         exists accesses,
           filter is_lock_or_access (events r)
           = Ev mutex_lock tt :: map Acc accesses ++ [Ev mutex_unlock tt]
     | Throws _ => filter is_lock_or_access (events r) = []
     end.
Proof.
  destruct c as [[p src dec conv sink out b old] px wd ht mx mn cb h].
  cbv zeta. unfold HandoffHandler. run.
  all: split; [reflexivity |]; split; [reflexivity |].
  all: try reflexivity.
  all: match goal with
       | |- context [Ev (gst_buffer_ref _) ?r] =>
           first [ exists [LoadBuffer; LoadBuffer; StoreBuffer None;
                           StoreBuffer r]; reflexivity
                 | exists [LoadBuffer; StoreBuffer r]; reflexivity ]
       end.
Qed.

Lemma GetPreviewFrameBuffer_guarded (c : GstCamera) (w : W) :
  let t := events (GetPreviewFrameBuffer lib c w) in
  guarded NotHeld t = true
  /\ existsb is_store t = false
  /\ exists loads,
       filter is_lock_or_access t
       = Ev mutex_lock_shared tt
         :: map (fun _ : unit => Acc LoadBuffer) loads
            ++ [Ev mutex_unlock_shared tt].
Proof.
  destruct c as [[p src dec conv sink out b old] px wd ht mx mn cb h].
  cbv zeta. unfold GetPreviewFrameBuffer. run.
  - repeat split. exists [tt; tt]. reflexivity.
  - repeat split. exists [tt]. reflexivity.
Qed.

Lemma callback_trace_disciplined (t : list Event) :
  callback_trace lib t ->
  guarded NotHeld t = true /\ existsb is_lock_shared t = false.
Proof.
  induction 1 as [| fakesink buf new_pad c w t _ [IHg IHs]].
  - split; reflexivity.
  - destruct (HandoffHandler_guarded fakesink buf new_pad c w) as [Hg [Hs _]].
    cbv zeta in *. split; [apply guarded_app; assumption |].
    rewrite existsb_app, IHs, Hs. reflexivity.
Qed.

Lemma consumer_trace_disciplined (t : list Event) :
  consumer_trace lib t ->
  guarded NotHeld t = true /\ existsb is_lock_exclusive t = false.
Proof.
  induction 1 as [| c w t _ [IHg IHs]].
  - split; reflexivity.
  - destruct (GetPreviewFrameBuffer_guarded c w) as [Hg [_ [a Ha]]].
    cbv zeta in *. split; [apply guarded_app; assumption |].
    rewrite existsb_app, IHs, orb_false_r.
    apply not_true_is_false. intros Hex.
    apply existsb_exists in Hex. destruct Hex as [e [He Hs]].
    assert (Hin : In e (filter is_lock_or_access
                          (events (GetPreviewFrameBuffer lib c w)))).
    { apply filter_In. split; [exact He |].
      destruct e as [R [] r | ]; try discriminate; reflexivity. }
    rewrite Ha in Hin. destruct Hin as [<- | Hin]; [discriminate |].
    apply in_app_or in Hin. destruct Hin as [Hin | [<- | []]];
      [| discriminate].
    apply in_map_iff in Hin. destruct Hin as [x [<- _]]. discriminate.
Qed.

Lemma step_disciplined (s s' : Machine) :
  disciplined s -> machine_step s s' -> disciplined s'.
Proof.
  intros [Hg1 [Hg2 [Hs1 [Hs2 [Hm1 [Hm2 Hex]]]]]] Hstep.
  destruct Hstep as [e t1 t2 m1 m2 Hgo | e t1 t2 m1 m2 Hgo];
    cbn [callback_thread callback_held consumer_thread consumer_held] in *;
    unfold disciplined;
    cbn [callback_thread callback_held consumer_thread consumer_held].
  - cbn [guarded] in Hg1.
    destruct (guard_step m1 e) as [m1' |] eqn:Hstep; [| discriminate].
    rewrite (guard_step_after _ _ _ Hstep).
    cbn [existsb] in Hs1. apply orb_false_iff in Hs1. destruct Hs1 as [He Hs1].
    repeat split; try assumption.
    + intros ->. destruct e as [R [] r | []]; destruct m1; cbn in *; congruence.
    + intros ->. destruct e as [R [] r | []]; destruct m1, m2;
        cbn in *; try congruence; auto.
  - cbn [guarded] in Hg2.
    destruct (guard_step m2 e) as [m2' |] eqn:Hstep; [| discriminate].
    rewrite (guard_step_after _ _ _ Hstep).
    cbn [existsb] in Hs2. apply orb_false_iff in Hs2. destruct Hs2 as [He Hs2].
    repeat split; try assumption.
    + intros ->. destruct e as [R [] r | []]; destruct m2; cbn in *; congruence.
    + intros ->. rewrite (Hex eq_refl) in *.
      destruct e as [R [] r | []]; cbn in *; congruence.
Qed.

Lemma steps_disciplined (s s' : Machine) :
  disciplined s -> machine_steps s s' -> disciplined s'.
Proof.
  intros Hs Hsteps. induction Hsteps as [s | s1 s2 s3 _ IH Hstep].
  - exact Hs.
  - exact (step_disciplined s2 s3 (IH Hs) Hstep).
Qed.

Lemma disciplined_exclusive (s : Machine) :
  disciplined s -> ~ race s /\ ~ both_inside s.
Proof.
  intros [Hg1 [Hg2 [_ [_ [Hm1 [Hm2 Hex]]]]]]. split.
  - intros [e1 [t1 [e2 [t2 [H1 [H2 [Ha1 [Ha2 Hst]]]]]]]].
    rewrite H1 in Hg1. rewrite H2 in Hg2. cbn [guarded] in Hg1, Hg2.
    destruct e1 as [| a1]; [discriminate |].
    destruct e2 as [| a2]; [discriminate |].
    destruct (callback_held s), (consumer_held s), a1, a2;
      cbn in *; try congruence; try (destruct Hst; discriminate);
      specialize (Hex eq_refl); discriminate.
  - intros [Hin1 Hin2].
    destruct (callback_held s), (consumer_held s); try congruence.
    specialize (Hex eq_refl). discriminate.
Qed.

(** C7. The callback makes all its accesses to the handle [gst_.buffer],
    the writes included, between locking [mutex_buffer_] exclusively and
    unlocking it, and a callback that throws has neither locked nor
    accessed the handle; a frame read only loads the handle, between a
    shared lock and its release.  Hence, however the streaming thread's handoffs
    and the host thread's frame reads are scheduled, the two threads are
    never inside their locked regions together, and never both about to
    access the handle when one of them writes. *)
Theorem buffer_handle_never_shared_with_writer :
  (forall (fakesink buf new_pad : Ptr) (c : GstCamera) (w : W),
      let r := HandoffHandler lib fakesink buf new_pad c w in
      guarded NotHeld (events r) = true
      /\ match value r with
         | Returns =>
             exists accesses,
               filter is_lock_or_access (events r)
               = Ev mutex_lock tt :: map Acc accesses ++ [Ev mutex_unlock tt]
         | Throws _ => filter is_lock_or_access (events r) = []
         end)
  /\ (forall (c : GstCamera) (w : W),
         let t := events (GetPreviewFrameBuffer lib c w) in
         guarded NotHeld t = true
         /\ existsb is_store t = false
         /\ exists loads,
              filter is_lock_or_access t
              = Ev mutex_lock_shared tt
                :: map (fun _ : unit => Acc LoadBuffer) loads
                   ++ [Ev mutex_unlock_shared tt])
  /\ (forall (t1 t2 : list Event) (s : Machine),
         callback_trace lib t1 ->
         consumer_trace lib t2 ->
         machine_steps (mkMachine t1 NotHeld t2 NotHeld) s ->
         ~ race s /\ ~ both_inside s).
Proof.
  split.
  { intros fakesink buf new_pad c w.
    destruct (HandoffHandler_guarded fakesink buf new_pad c w)
      as [Hg [_ Ha]].
    cbv zeta. split; assumption. }
  split; [exact GetPreviewFrameBuffer_guarded |].
  intros t1 t2 s H1 H2 Hsteps.
  apply disciplined_exclusive.
  apply (steps_disciplined (mkMachine t1 NotHeld t2 NotHeld)); [| exact Hsteps].
  destruct (callback_trace_disciplined t1 H1) as [Hg1 Hs1].
  destruct (consumer_trace_disciplined t2 H2) as [Hg2 Hs2].
  unfold disciplined.
  cbn [callback_thread callback_held consumer_thread consumer_held].
  repeat split; try assumption; discriminate.
Qed.

(** ** Teardown *)

Lemma DestroyPipeline_run (c : GstCamera) (w : W) :
  camera (DestroyPipeline lib c w) = destroyed c
  /\ exists r, events (DestroyPipeline lib c w) = teardown (gst_ c) r.
Proof.
  destruct c as [[p src dec conv sink out b old] px wd ht mx mn cb h].
  unfold DestroyPipeline, destroyed, teardown. run.
  all: split; [reflexivity |].
  all: first [ match goal with
               | |- context [Ev (gst_element_set_state _ GST_STATE_NULL) ?r] =>
                   exists r; reflexivity
               end
             | exists GST_STATE_CHANGE_SUCCESS; reflexivity ].
Qed.

Lemma teardown_releases (g : GstElements) (r : GstStateChangeReturn) :
  filter is_release (teardown g r)
  = (if is_null (buffer g) then [] else [Ev (gst_buffer_unref (buffer g)) tt])
    ++ (if is_null (bus g) then [] else [Ev (gst_object_unref (bus g)) tt])
    ++ (if is_null (pipeline g) then []
        else [Ev (gst_object_unref (pipeline g)) tt]).
Proof.
  unfold teardown.
  destruct (video_sink g), (pipeline g), (buffer g), (bus g); reflexivity.
Qed.

Lemma teardown_requests (g : GstElements) (r : GstStateChangeReturn) :
  state_requests (teardown g r)
  = (if is_null (pipeline g) then [] else [(pipeline g, GST_STATE_NULL)]).
Proof.
  unfold teardown.
  destruct (video_sink g), (pipeline g), (buffer g), (bus g); reflexivity.
Qed.

(** X1. [DestroyPipeline] leaves every handle it tests null and nothing
    else changed.  It first switches the handoff signal off and asks the
    pipeline for [GST_STATE_NULL], then gives back the buffer reference,
    the bus and the pipeline, each only if it exists; the elements
    themselves are never unreferenced. *)
Theorem DestroyPipeline_clears_all_handles (c : GstCamera) (w : W) :
  camera (DestroyPipeline lib c w) = destroyed c
  /\ (exists r, events (DestroyPipeline lib c w) = teardown (gst_ c) r)
  /\ filter is_release (events (DestroyPipeline lib c w))
     = (if is_null (buffer (gst_ c)) then []
        else [Ev (gst_buffer_unref (buffer (gst_ c))) tt])
       ++ (if is_null (bus (gst_ c)) then []
           else [Ev (gst_object_unref (bus (gst_ c))) tt])
       ++ (if is_null (pipeline (gst_ c)) then []
           else [Ev (gst_object_unref (pipeline (gst_ c))) tt]).
Proof.
  destruct (DestroyPipeline_run c w) as [Hc [r He]].
  split; [exact Hc |]. split; [exists r; exact He |].
  rewrite He. apply teardown_releases.
Qed.

(** X2. A second [DestroyPipeline] asks nothing of the library: it finds
    every handle null, reads the buffer handle once and changes nothing. *)
Theorem DestroyPipeline_twice (c : GstCamera) (w w' : W) :
  DestroyPipeline lib (camera (DestroyPipeline lib c w)) w'
  = (tt, camera (DestroyPipeline lib c w), w', [Acc LoadBuffer]).
Proof.
  destruct (DestroyPipeline_run c w) as [-> _].
  destruct c as [[p src dec conv sink out b old] px wd ht mx mn cb h].
  reflexivity.
Qed.

(** ** Preroll *)

Lemma Preroll_requests (c : GstCamera) (w : W) :
  state_requests (events (Preroll lib c w))
  = (if is_null (source (gst_ c)) then []
     else [(pipeline (gst_ c), GST_STATE_PAUSED)]).
Proof.
  destruct c as [[p src dec conv sink out b old] px wd ht mx mn cb h].
  unfold Preroll. run; reflexivity.
Qed.

(** X3. [Preroll] asks nothing of the library when there is no source.
    Otherwise it asks the pipeline for [GST_STATE_PAUSED] once and waits
    for the state only when the answer is ASYNC; a failure of either call
    is logged and goes no further.  No field changes. *)
Theorem Preroll_only_logs_failures (c : GstCamera) (w : W) :
  camera (Preroll lib c w) = c
  /\ state_requests (events (Preroll lib c w))
     = (if is_null (source (gst_ c)) then []
        else [(pipeline (gst_ c), GST_STATE_PAUSED)])
  /\ (source (gst_ c) = None -> events (Preroll lib c w) = [])
  /\ (source (gst_ c) <> None ->
      let '(r, w1) := set_state_answer lib c w GST_STATE_PAUSED in
      let r' := fst (lib _ (gst_element_get_state (pipeline (gst_ c))) w1) in
      events (Preroll lib c w)
      = Ev (gst_element_set_state (pipeline (gst_ c)) GST_STATE_PAUSED) r
        :: (if is_failure r
            then [Ev (std_cerr [Text "Failed to change the state to PAUSED"])
                    tt]
            else if is_async r
                 then Ev (gst_element_get_state (pipeline (gst_ c))) r'
                      :: (if is_failure r'
                          then [Ev (std_cerr
                                      [Text "Failed to get the current state"])
                                  tt]
                          else [])
                 else [])).
Proof.
  destruct c as [[p src dec conv sink out b old] px wd ht mx mn cb h].
  unfold set_state_answer. norm_goal.
  repeat split.
  - unfold Preroll. run; reflexivity.
  - apply (Preroll_requests (mkCamera (mkElements p src dec conv sink out b old)
                               px wd ht mx mn cb h) w).
  - intros ->. reflexivity.
  - intros Hsrc. destruct src as [src |]; [| congruence].
    unfold Preroll. unfold_m.
    destruct (lib _ (gst_element_set_state p GST_STATE_PAUSED) w)
      as [r w1] eqn:E1.
    destruct r; cbn [is_failure is_async fst snd app].
    + destruct (lib _ (std_cerr _) w1) as [[] w2]. reflexivity.
    + reflexivity.
    + destruct (lib _ (gst_element_get_state p) w1) as [r' w2] eqn:E2.
      cbn [fst snd]. destruct r'; cbn [is_failure fst snd app];
        try reflexivity.
      destruct (lib _ (std_cerr _) w2) as [[] w3]. reflexivity.
    + reflexivity.
Qed.

(** ** The constructor *)

(** [CreatePipeline] assigns handles only; [output] and [buffer] are not
    among them. *)
Lemma CreatePipeline_frame (c : GstCamera) (w : W) :
  exists g,
    camera (CreatePipeline lib c w) = set_gst g c
    /\ output g = output (gst_ c) /\ buffer g = buffer (gst_ c).
Proof.
  destruct c as [[p src dec conv sink out b old] px wd ht mx mn cb h].
  unfold CreatePipeline. run; eexists; repeat split.
Qed.

Lemma CreatePipeline_handles (c : GstCamera) (w : W) :
  value (CreatePipeline lib c w) = true ->
  all_created (camera (CreatePipeline lib c w)) = true.
Proof.
  destruct c as [[p src dec conv sink out b old] px wd ht mx mn cb h].
  unfold CreatePipeline. run; intros H; try discriminate H; reflexivity.
Qed.

Lemma CreatePipeline_releases_nothing (c : GstCamera) (w : W) :
  filter is_release (events (CreatePipeline lib c w)) = []
  /\ state_requests (events (CreatePipeline lib c w)) = [].
Proof.
  destruct c as [[p src dec conv sink out b old] px wd ht mx mn cb h].
  unfold CreatePipeline. run; split; reflexivity.
Qed.

Lemma filter_is_release_app (t1 t2 : list Event) :
  filter is_release (t1 ++ t2) = filter is_release t1 ++ filter is_release t2.
Proof. apply filter_app. Qed.

Lemma state_requests_app (t1 t2 : list Event) :
  state_requests (t1 ++ t2) = state_requests t1 ++ state_requests t2.
Proof.
  induction t1 as [| e t1 IH]; [reflexivity |].
  destruct e as [R [] r | a]; cbn [app state_requests]; rewrite ?IH;
    reflexivity.
Qed.

(** The constructor in terms of its three parts. *)
Lemma GstCamera_new_parts (handler : Ptr) (c0 : GstCamera) (w : W) :
  GstCamera_new lib handler c0 w
  = let '(created, c1, w1, t1) := CreatePipeline lib (cleared handler c0) w in
    if created
    then let '(_, c2, w2, t2) := Preroll lib c1 w1 in
         (tt, set_zoom_levels f3_0 f0_0 c2, w2,
          Acc (StoreBuffer None) :: t1 ++ t2)
    else let '(_, w1') :=
           lib _ (std_cerr [Text "Failed to create a pipeline"]) w1 in
         let '(_, c2, w2, t2) := DestroyPipeline lib c1 w1' in
         (tt, c2, w2,
          Acc (StoreBuffer None) :: t1
          ++ Ev (std_cerr [Text "Failed to create a pipeline"]) tt :: t2).
Proof.
  unfold GstCamera_new. unfold_m.
  match goal with
  | |- context [CreatePipeline lib ?x w] => change x with (cleared handler c0)
  end.
  destruct (CreatePipeline lib (cleared handler c0) w)
    as [[[created c1] w1] t1]; norm.
  destruct created; norm.
  - destruct (Preroll lib c1 w1) as [[[[] c2] w2] t2]; norm.
    rewrite app_nil_r. reflexivity.
  - destruct (lib _ (std_cerr _) w1) as [[] w1'].
    destruct (DestroyPipeline lib c1 w1') as [[[[] c2] w2] t2]; norm.
    reflexivity.
Qed.

Lemma Preroll_releases_nothing (c : GstCamera) (w : W) :
  filter is_release (events (Preroll lib c w)) = [].
Proof. unfold Preroll. run; reflexivity. Qed.

Lemma all_created_source (c : GstCamera) :
  all_created c = true -> is_null (source (gst_ c)) = false.
Proof.
  unfold all_created.
  destruct (pipeline (gst_ c)), (source (gst_ c)); cbn; congruence.
Qed.

Lemma GstCamera_new_run (handler : Ptr) (c0 : GstCamera) (w : W) :
  let r := CreatePipeline lib (cleared handler c0) w in
  let c := camera (GstCamera_new lib handler c0 w) in
  let t := events (GstCamera_new lib handler c0 w) in
  if value r
  then c = set_zoom_levels f3_0 f0_0 (camera r)
       /\ all_created c = true
       /\ filter is_release t = []
       /\ state_requests t = [(pipeline (gst_ c), GST_STATE_PAUSED)]
  else c = cleared handler c0
       /\ filter is_release t
          = (if is_null (bus (gst_ (camera r))) then []
             else [Ev (gst_object_unref (bus (gst_ (camera r)))) tt])
            ++ (if is_null (pipeline (gst_ (camera r))) then []
                else [Ev (gst_object_unref (pipeline (gst_ (camera r)))) tt])
       /\ state_requests t
          = (if is_null (pipeline (gst_ (camera r))) then []
             else [(pipeline (gst_ (camera r)), GST_STATE_NULL)]).
Proof.
  cbv zeta. rewrite GstCamera_new_parts.
  destruct (CreatePipeline_frame (cleared handler c0) w) as [g [Hc [Ho Hb]]].
  pose proof (CreatePipeline_handles (cleared handler c0) w) as Hall.
  destruct (CreatePipeline_releases_nothing (cleared handler c0) w)
    as [Hrel Hreq].
  unfold value, camera, events in *.
  destruct (CreatePipeline lib (cleared handler c0) w)
    as [[[created c1] w1] t1]; cbn [fst snd] in *.
  destruct created.
  - specialize (Hall eq_refl).
    pose proof (Preroll_camera c1 w1) as HP.
    pose proof (Preroll_requests c1 w1) as HQ.
    pose proof (Preroll_releases_nothing c1 w1) as HR.
    unfold camera, events in HP, HQ, HR.
    destruct (Preroll lib c1 w1) as [[[[] c2] w2] t2]; cbn [fst snd] in *.
    subst c2. rewrite (all_created_source _ Hall) in HQ.
    repeat split.
    + exact Hall.
    + change (filter is_release (Acc (StoreBuffer None) :: t1 ++ t2))
        with (filter is_release (t1 ++ t2)).
      rewrite filter_is_release_app, Hrel, HR. reflexivity.
    + change (state_requests (Acc (StoreBuffer None) :: t1 ++ t2))
        with (state_requests (t1 ++ t2)).
      rewrite state_requests_app, Hreq, HQ. reflexivity.
  - destruct (lib _ (std_cerr _) w1) as [[] w1'].
    destruct (DestroyPipeline_run c1 w1') as [HD [r He]].
    unfold camera, events in HD, He.
    destruct (DestroyPipeline lib c1 w1') as [[[[] c2] w2] t2];
      cbn [fst snd] in *.
    subst c2 t2.
    assert (Hbuf : buffer (gst_ c1) = None) by (rewrite Hc; exact Hb).
    repeat split.
    + rewrite Hc. unfold destroyed, set_gst, cleared in *.
      cbn [gst_ output pixels_ width_ height_ max_zoom_level_ min_zoom_level_
           on_notify_captured_ stream_handler_] in *.
      rewrite Ho. reflexivity.
    + change (filter is_release
                (Acc (StoreBuffer None) :: t1
                 ++ Ev (std_cerr [Text "Failed to create a pipeline"]) tt
                    :: teardown (gst_ c1) r))
        with (filter is_release
                (t1 ++ [Ev (std_cerr [Text "Failed to create a pipeline"]) tt]
                 ++ teardown (gst_ c1) r)).
      rewrite !filter_is_release_app, Hrel, teardown_releases, Hbuf.
      reflexivity.
    + change (state_requests
                (Acc (StoreBuffer None) :: t1
                 ++ Ev (std_cerr [Text "Failed to create a pipeline"]) tt
                    :: teardown (gst_ c1) r))
        with (state_requests
                (t1 ++ [Ev (std_cerr [Text "Failed to create a pipeline"]) tt]
                 ++ teardown (gst_ c1) r)).
      rewrite !state_requests_app, Hreq, teardown_requests. reflexivity.
Qed.

(** X4. The constructor builds all or nothing.  It keeps the handler and
    leaves [output] and [buffer] null.  If [CreatePipeline] succeeds, the
    six handles are those it created, the bounds are 3.0 and 0.0 whatever
    the preroll answered, nothing was released, and the pipeline was asked
    for [GST_STATE_PAUSED] once.  If it fails, every handle is null again,
    the bounds are not assigned, and of what was created only the bus and
    the pipeline were unreferenced. *)
Theorem GstCamera_new_all_or_nothing (handler : Ptr) (c0 : GstCamera) (w : W) :
  let r := CreatePipeline lib (cleared handler c0) w in
  let c := camera (GstCamera_new lib handler c0 w) in
  let t := events (GstCamera_new lib handler c0 w) in
  stream_handler_ c = handler
  /\ output (gst_ c) = None
  /\ buffer (gst_ c) = None
  /\ if value r
     then all_created c = true
          /\ handles c = handles (camera r)
          /\ bounds c = (f3_0, f0_0)
          /\ filter is_release t = []
          /\ state_requests t = [(pipeline (gst_ c), GST_STATE_PAUSED)]
     else none_created c = true
          /\ bounds c = bounds c0
          /\ filter is_release t
             = (if is_null (bus (gst_ (camera r))) then []
                else [Ev (gst_object_unref (bus (gst_ (camera r)))) tt])
               ++ (if is_null (pipeline (gst_ (camera r))) then []
                   else [Ev (gst_object_unref (pipeline (gst_ (camera r))))
                           tt])
          /\ state_requests t
             = (if is_null (pipeline (gst_ (camera r))) then []
                else [(pipeline (gst_ (camera r)), GST_STATE_NULL)]).
Proof.
  cbv zeta.
  pose proof (GstCamera_new_run handler c0 w) as H. cbv zeta in H.
  destruct (CreatePipeline_frame (cleared handler c0) w) as [g [Hc [Ho Hb]]].
  destruct (value (CreatePipeline lib (cleared handler c0) w)).
  - destruct H as [Hcam [Hall [Hrel Hreq]]].
    rewrite Hcam in *. rewrite Hc in *.
    repeat split; try assumption; reflexivity.
  - destruct H as [Hcam [Hrel Hreq]].
    rewrite Hcam. repeat split; try assumption; reflexivity.
Qed.

(** ** The handles over the object's lifetime *)

Lemma HandoffHandler_handles (fakesink buf new_pad : Ptr) c w :
  handles (camera (HandoffHandler lib fakesink buf new_pad c w)) = handles c
  /\ stream_handler_ (camera (HandoffHandler lib fakesink buf new_pad c w))
     = stream_handler_ c.
Proof. unfold HandoffHandler. run; split; reflexivity. Qed.

Lemma perform_handles (o : Op) (c : GstCamera) (w : W) :
  handles (camera (perform lib o c w)) = handles c
  /\ stream_handler_ (camera (perform lib o c w)) = stream_handler_ c.
Proof.
  destruct o; unfold perform.
  - pose proof (Play_camera c w) as H. revert H. unfold_m.
    destruct (Play lib c w) as [[[b c'] w'] t]. cbn. intros ->. now split.
  - pose proof (Pause_camera c w) as H. revert H. unfold_m.
    destruct (Pause lib c w) as [[[b c'] w'] t]. cbn. intros ->. now split.
  - pose proof (Stop_camera c w) as H. revert H. unfold_m.
    destruct (Stop lib c w) as [[[b c'] w'] t]. cbn. intros ->. now split.
  - unfold TakePicture. run. now split.
  - pose proof (SetZoomLevel_camera zoom c w) as H. revert H. unfold_m.
    destruct (SetZoomLevel lib zoom c w) as [[[b c'] w'] t]. cbn.
    intros ->. now split.
  - pose proof (GetPreviewFrameBuffer_camera c w) as H. revert H. unfold_m.
    destruct (GetPreviewFrameBuffer lib c w) as [[[b c'] w'] t]. cbn.
    intros ->. now split.
  - now split.
  - pose proof (HandoffHandler_handles fakesink buf new_pad c w) as H.
    revert H. unfold_m.
    destruct (HandoffHandler lib fakesink buf new_pad c w) as [[[b c'] w'] t].
    cbn. tauto.
  - pose proof (HandleGstMessage_camera message c w) as H. revert H. unfold_m.
    destruct (HandleGstMessage lib message c w) as [[[b c'] w'] t].
    cbn. intros ->. now split.
Qed.

Lemma handles_all_created (c c' : GstCamera) :
  handles c' = handles c ->
  all_created c' = all_created c /\ none_created c' = none_created c
  /\ output (gst_ c') = output (gst_ c).
Proof.
  unfold handles, all_created, none_created. intros H.
  injection H as -> -> -> -> -> -> ->. repeat split.
Qed.

(** After the constructor and any calls the object has all six handles
    and the bounds 3.0 and 0.0, or none. *)
Lemma reachable_handles (c : GstCamera) (w : W) (t : list Event) :
  reachable lib c w t ->
  output (gst_ c) = None
  /\ (all_created c = true /\ bounds c = (f3_0, f0_0)
      \/ none_created c = true).
Proof.
  induction 1 as [c0 handler w0 | c w t o R IH Hdef].
  - pose proof (GstCamera_new_run handler c0 w0) as H. cbv zeta in H.
    destruct (CreatePipeline_frame (cleared handler c0) w0)
      as [g [Hc [Ho Hb]]].
    destruct (value (CreatePipeline lib (cleared handler c0) w0)).
    + destruct H as [Hcam [Hall _]]. rewrite Hcam in *. split.
      * rewrite Hc. exact Ho.
      * left. split; [exact Hall | reflexivity].
    + destruct H as [Hcam _]. rewrite Hcam. split; [reflexivity |].
      right. reflexivity.
  - destruct (perform_handles o c w) as [HH _].
    destruct (handles_all_created _ _ HH) as [Ha [Hn Hout]].
    pose proof (perform_zoom_fields o c w) as HF. unfold zoom_fields in HF.
    injection HF as _ Hmx Hmn.
    rewrite Ha, Hn, Hout. unfold bounds in *. rewrite Hmx, Hmn. exact IH.
Qed.

(** X5. No method or handler assigns a handle or the stream handler, so
    what the constructor left lasts for the object's life: [output] is
    never set, and either all six handles exist and the bounds are 3.0 and
    0.0, or every handle is null. *)
Theorem handles_fixed_for_life :
  (forall (o : Op) (c : GstCamera) (w : W),
      handles (camera (perform lib o c w)) = handles c
      /\ stream_handler_ (camera (perform lib o c w)) = stream_handler_ c)
  /\ (forall (c : GstCamera) (w : W) (t : list Event),
         reachable lib c w t ->
         output (gst_ c) = None
         /\ (all_created c = true /\ bounds c = (f3_0, f0_0)
             \/ none_created c = true)).
Proof. split; [exact perform_handles | exact reachable_handles]. Qed.

(** ** The destructor *)

Lemma ref_balance_app (t1 t2 : list Event) :
  ref_balance (t1 ++ t2) = ref_balance t1 + ref_balance t2.
Proof.
  unfold ref_balance. induction t1 as [| e t1 IH]; cbn [app fold_right].
  - reflexivity.
  - rewrite IH. ring.
Qed.

Lemma teardown_balance (g : GstElements) (r : GstStateChangeReturn) :
  ref_balance (teardown g r) = (if is_null (buffer g) then 0 else -1).
Proof.
  unfold teardown.
  destruct (video_sink g), (pipeline g), (buffer g), (bus g); reflexivity.
Qed.

(** The destructor in terms of its two parts. *)
Lemma GstCamera_delete_parts (c : GstCamera) (w : W) :
  GstCamera_delete lib c w
  = let '(_, c1, w1, t1) := Stop lib c w in
    let '(_, c2, w2, t2) := DestroyPipeline lib c1 w1 in
    (tt, c2, w2, t1 ++ t2).
Proof.
  unfold GstCamera_delete. unfold_m.
  destruct (Stop lib c w) as [[[stopped c1] w1] t1].
  destruct (DestroyPipeline lib c1 w1) as [[[[] c2] w2] t2]. reflexivity.
Qed.

Lemma Stop_requests (c : GstCamera) (w : W) :
  state_requests (events (Stop lib c w)) = [(pipeline (gst_ c), GST_STATE_READY)]
  /\ filter is_release (events (Stop lib c w)) = []
  /\ ref_balance (events (Stop lib c w)) = 0.
Proof. unfold Stop. run; repeat split. Qed.

Lemma GstCamera_delete_run (c : GstCamera) (w : W) :
  let t := events (GstCamera_delete lib c w) in
  camera (GstCamera_delete lib c w) = destroyed c
  /\ state_requests t
     = (pipeline (gst_ c), GST_STATE_READY)
       :: (if is_null (pipeline (gst_ c)) then []
           else [(pipeline (gst_ c), GST_STATE_NULL)])
  /\ filter is_release t
     = (if is_null (buffer (gst_ c)) then []
        else [Ev (gst_buffer_unref (buffer (gst_ c))) tt])
       ++ (if is_null (bus (gst_ c)) then []
           else [Ev (gst_object_unref (bus (gst_ c))) tt])
       ++ (if is_null (pipeline (gst_ c)) then []
           else [Ev (gst_object_unref (pipeline (gst_ c))) tt])
  /\ ref_balance t = - held c.
Proof.
  cbv zeta. rewrite GstCamera_delete_parts.
  pose proof (Stop_camera c w) as HS.
  destruct (Stop_requests c w) as [Hq [Hr Hb]].
  unfold camera, events in HS, Hq, Hr, Hb |- *.
  destruct (Stop lib c w) as [[[stopped c1] w1] t1]; cbn [fst snd] in *.
  subst c1.
  destruct (DestroyPipeline_run c w1) as [HD [r He]].
  unfold camera, events in HD, He.
  destruct (DestroyPipeline lib c w1) as [[[[] c2] w2] t2]; cbn [fst snd] in *.
  subst c2 t2. repeat split.
  - rewrite state_requests_app, Hq, teardown_requests. reflexivity.
  - rewrite filter_is_release_app, Hr, teardown_releases. reflexivity.
  - rewrite ref_balance_app, Hb, teardown_balance. unfold held.
    destruct (is_null (buffer (gst_ c))); reflexivity.
Qed.

(** X6. The destructor asks the pipeline for [GST_STATE_READY] without
    testing the handle, then tears down: every handle ends null, and it
    gives back the buffer reference, the bus and the pipeline if they
    exist.  Over the object's whole life, from the constructor through any
    calls to the destructor, every buffer reference taken is given back. *)
Theorem GstCamera_delete_releases :
  (forall (c : GstCamera) (w : W),
      let t := events (GstCamera_delete lib c w) in
      camera (GstCamera_delete lib c w) = destroyed c
      /\ state_requests t
         = (pipeline (gst_ c), GST_STATE_READY)
           :: (if is_null (pipeline (gst_ c)) then []
               else [(pipeline (gst_ c), GST_STATE_NULL)])
      /\ filter is_release t
         = (if is_null (buffer (gst_ c)) then []
            else [Ev (gst_buffer_unref (buffer (gst_ c))) tt])
           ++ (if is_null (bus (gst_ c)) then []
               else [Ev (gst_object_unref (bus (gst_ c))) tt])
           ++ (if is_null (pipeline (gst_ c)) then []
               else [Ev (gst_object_unref (pipeline (gst_ c))) tt]))
  /\ (forall (c : GstCamera) (w w' : W) (t : list Event),
         reachable lib c w t ->
         ref_balance (t ++ events (GstCamera_delete lib c w')) = 0).
Proof.
  split.
  - intros c w. destruct (GstCamera_delete_run c w) as [H1 [H2 [H3 _]]].
    cbv zeta. repeat split; assumption.
  - intros c w w' t R.
    destruct (GstCamera_delete_run c w') as [_ [_ [_ H]]]. cbv zeta in H.
    rewrite ref_balance_app, H.
    pose proof (refs_within_total t 0 (held c) (reachable_refs c w t R)).
    lia.
Qed.

(** ** CreatePipeline: wiring and caps *)

(** X7. [CreatePipeline] wires nothing until the pipeline, the four
    elements and the bus all exist: only then does it install the bus's
    sync handler, connect the handoff signal and add the elements to the
    pipeline, once each and in this order.  If a creation hands back null,
    the elements created before it never enter the pipeline.  Success
    implies that all six exist. *)
Theorem CreatePipeline_wires_when_all_created (c : GstCamera) (w : W) :
  let r := CreatePipeline lib c w in
  filter is_wiring (events r)
  = (if all_created (camera r) then wiring (gst_ (camera r)) else [])
  /\ (if value r then all_created (camera r) = true else True).
Proof.
  destruct c as [[p src dec conv sink out b old] px wd ht mx mn cb h].
  cbv zeta.
  enough (H : forall expected : GstCamera -> list Event,
             expected
             = (fun c' => if all_created c' then wiring (gst_ c') else []) ->
             forall created : GstCamera -> Prop,
               created = (fun c' => all_created c' = true) ->
               let r := CreatePipeline lib
                          (mkCamera (mkElements p src dec conv sink out b old)
                             px wd ht mx mn cb h) w in
               filter is_wiring (events r) = expected (camera r)
               /\ (if value r then created (camera r) else True)).
  { exact (H _ eq_refl _ eq_refl). }
  intros expected He created Hc. cbv zeta. unfold CreatePipeline.
  run; subst expected created; split; (reflexivity || exact I).
Qed.

Lemma caps_obtained_app (t1 t2 : list Event) :
  caps_obtained (t1 ++ t2) = caps_obtained t1 ++ caps_obtained t2.
Proof.
  induction t1 as [| e t1 IH]; [reflexivity |].
  destruct e as [R [] r | a]; cbn [app caps_obtained]; rewrite ?IH;
    reflexivity.
Qed.

Lemma caps_released_app (t1 t2 : list Event) :
  caps_released (t1 ++ t2) = caps_released t1 ++ caps_released t2.
Proof.
  induction t1 as [| e t1 IH]; [reflexivity |].
  destruct e as [R [] r | a]; cbn [app caps_released]; rewrite ?IH;
    reflexivity.
Qed.

Lemma CreatePipeline_caps (c : GstCamera) (w : W) :
  caps_released (events (CreatePipeline lib c w))
  = caps_obtained (events (CreatePipeline lib c w)).
Proof. unfold CreatePipeline. run; reflexivity. Qed.

Lemma HandoffHandler_caps (fakesink buf new_pad : Ptr) c w :
  caps_released (events (HandoffHandler lib fakesink buf new_pad c w))
  = caps_obtained (events (HandoffHandler lib fakesink buf new_pad c w))
  /\ List.length
       (caps_obtained (events (HandoffHandler lib fakesink buf new_pad c w)))
     = 1%nat.
Proof. unfold HandoffHandler. run; split; reflexivity. Qed.

Lemma Preroll_caps (c : GstCamera) (w : W) :
  caps_released (events (Preroll lib c w)) = []
  /\ caps_obtained (events (Preroll lib c w)) = [].
Proof. unfold Preroll. run; split; reflexivity. Qed.

Lemma teardown_caps (g : GstElements) (r : GstStateChangeReturn) :
  caps_released (teardown g r) = [] /\ caps_obtained (teardown g r) = [].
Proof.
  unfold teardown.
  destruct (video_sink g), (pipeline g), (buffer g), (bus g); split;
    reflexivity.
Qed.

Lemma GstCamera_new_caps (handler : Ptr) (c0 : GstCamera) (w : W) :
  caps_released (events (GstCamera_new lib handler c0 w))
  = caps_obtained (events (GstCamera_new lib handler c0 w)).
Proof.
  rewrite GstCamera_new_parts.
  pose proof (CreatePipeline_caps (cleared handler c0) w) as HC.
  unfold events in *.
  destruct (CreatePipeline lib (cleared handler c0) w)
    as [[[created c1] w1] t1]; cbn [fst snd] in *.
  destruct created.
  - destruct (Preroll_caps c1 w1) as [HR HO]. unfold events in HR, HO.
    destruct (Preroll lib c1 w1) as [[[[] c2] w2] t2]; cbn [fst snd] in *.
    change (caps_released (t1 ++ t2) = caps_obtained (t1 ++ t2)).
    rewrite caps_released_app, caps_obtained_app, HC, HR, HO. reflexivity.
  - destruct (lib _ (std_cerr _) w1) as [[] w1'].
    destruct (DestroyPipeline_run c1 w1') as [_ [r He]]. unfold events in He.
    destruct (DestroyPipeline lib c1 w1') as [[[[] c2] w2] t2];
      cbn [fst snd] in *.
    subst t2. destruct (teardown_caps (gst_ c1) r) as [HR HO].
    change (caps_released
              (t1 ++ [Ev (std_cerr [Text "Failed to create a pipeline"]) tt]
               ++ teardown (gst_ c1) r)
            = caps_obtained
                (t1 ++ [Ev (std_cerr [Text "Failed to create a pipeline"]) tt]
                 ++ teardown (gst_ c1) r)).
    rewrite !caps_released_app, !caps_obtained_app, HC, HR, HO. reflexivity.
Qed.

Lemma perform_caps (o : Op) (c : GstCamera) (w : W) :
  caps_released (events (perform lib o c w))
  = caps_obtained (events (perform lib o c w)).
Proof.
  destruct o; unfold perform.
  - unfold Play. run; reflexivity.
  - unfold Pause. run; reflexivity.
  - unfold Stop. run; reflexivity.
  - unfold TakePicture. run; reflexivity.
  - unfold SetZoomLevel. run; reflexivity.
  - unfold GetPreviewFrameBuffer. run; reflexivity.
  - reflexivity.
  - unfold HandoffHandler. run; reflexivity.
  - unfold HandleGstMessage. run; reflexivity.
Qed.

Lemma reachable_caps (c : GstCamera) (w : W) (t : list Event) :
  reachable lib c w t -> caps_released t = caps_obtained t.
Proof.
  induction 1 as [c0 handler w0 | c w t o R IH Hdef].
  - apply GstCamera_new_caps.
  - rewrite caps_released_app, caps_obtained_app, IH, perform_caps.
    reflexivity.
Qed.

(** X8. Caps do not leak.  [CreatePipeline] unreferences each caps it
    obtains, whether the link it was obtained for succeeds or not, and a
    handoff unreferences the one caps it asks the pad for; so after the
    constructor and any calls the caps given back are those obtained, in
    the same order. *)
Theorem caps_given_back :
  (forall (c : GstCamera) (w : W),
      caps_released (events (CreatePipeline lib c w))
      = caps_obtained (events (CreatePipeline lib c w)))
  /\ (forall (fakesink buf new_pad : Ptr) (c : GstCamera) (w : W),
         caps_released (events (HandoffHandler lib fakesink buf new_pad c w))
         = caps_obtained
             (events (HandoffHandler lib fakesink buf new_pad c w))
         /\ List.length
              (caps_obtained
                 (events (HandoffHandler lib fakesink buf new_pad c w)))
            = 1%nat)
  /\ (forall (c : GstCamera) (w : W) (t : list Event),
         reachable lib c w t -> caps_released t = caps_obtained t).
Proof.
  split; [exact CreatePipeline_caps |].
  split; [exact HandoffHandler_caps | exact reachable_caps].
Qed.

(** ** Capture notifications over any sequence of calls *)

Lemma perform_callback (o : Op) (c : GstCamera) (w : W) :
  on_notify_captured_ (camera (perform lib o c w))
  = callback_after (on_notify_captured_ c) [o]
  /\ notifications (events (perform lib o c w))
     = notifications_of (on_notify_captured_ c) [o].
Proof.
  destruct o; unfold perform; cbn [callback_after notifications_of].
  - unfold Play. run; split; reflexivity.
  - unfold Pause. run; split; reflexivity.
  - unfold Stop. run; split; reflexivity.
  - unfold TakePicture. run; split; reflexivity.
  - unfold SetZoomLevel. run; split; reflexivity.
  - unfold GetPreviewFrameBuffer. run; split; reflexivity.
  - split; reflexivity.
  - unfold HandoffHandler. run; split; reflexivity.
  - destruct (HandleGstMessage_run message c w) as [_ [Hc He]].
    revert Hc He. unfold_m.
    destruct (HandleGstMessage lib message c w) as [[[r c'] w'] t]. norm.
    intros -> ->. split; [reflexivity |].
    rewrite !app_nil_r, notifications_app.
    cbn [notifications filter is_notification]. rewrite app_nil_r.
    unfold handling, capture_notification, report.
    destruct (msg_type message =? GST_MESSAGE_ELEMENT).
    + destruct (msg_structure message) as [st |]; [| reflexivity].
      destruct (on_notify_captured_ c); [| reflexivity].
      destruct (gst_structure_has_name st "image-done"); reflexivity.
    + destruct (msg_type message =? GST_MESSAGE_WARNING); [reflexivity |].
      destruct (msg_type message =? GST_MESSAGE_ERROR); reflexivity.
Qed.

Lemma notifications_of_cons (cb : option Callback) (o : Op) (os : list Op) :
  notifications_of cb (o :: os)
  = notifications_of cb [o] ++ notifications_of (callback_after cb [o]) os.
Proof.
  destruct o; cbn [notifications_of callback_after app]; try reflexivity.
  rewrite app_nil_r. reflexivity.
Qed.

Lemma callback_after_cons (cb : option Callback) (o : Op) (os : list Op) :
  callback_after cb (o :: os) = callback_after (callback_after cb [o]) os.
Proof. destruct o; reflexivity. Qed.

(** X9. Over any sequence of calls the capture callback that is invoked is
    the one the latest [TakePicture] stored: each [TakePicture] replaces
    it, an empty one switches the notifications off, and no other call
    touches it or invokes it, except an ELEMENT message named
    "image-done". *)
Theorem notifications_follow_latest_TakePicture (os : list Op) :
  forall (c : GstCamera) (w : W),
    notifications (events (perform_all lib os c w))
    = notifications_of (on_notify_captured_ c) os
    /\ on_notify_captured_ (camera (perform_all lib os c w))
       = callback_after (on_notify_captured_ c) os.
Proof.
  induction os as [| o os IH]; intros c w; [split; reflexivity |].
  destruct (perform_callback o c w) as [Hcb Hn].
  specialize (IH (camera (perform lib o c w)) (world (perform lib o c w))).
  rewrite Hcb in IH. destruct IH as [IHn IHc].
  rewrite notifications_of_cons, (callback_after_cons _ o os).
  revert Hn IHn IHc. cbn [perform_all]. unfold_m.
  destruct (perform lib o c w) as [[[r c'] w'] t]. norm.
  destruct (perform_all lib os c' w') as [[[r' c''] w''] t']. norm.
  intros <- <- <-. split; [apply notifications_app | reflexivity].
Qed.

(** ** A frame read after a handoff *)

Lemma GetPreviewFrameBuffer_events (c : GstCamera) (w : W) :
  events (GetPreviewFrameBuffer lib c w)
  = (if is_null (buffer (gst_ c)) then no_frame
     else frame_read (buffer (gst_ c)) (pixels_ c)
            ((width_ c * height_ c * 4) mod 2 ^ 32)).
Proof.
  rewrite <- pixel_bytes_mod.
  unfold GetPreviewFrameBuffer, no_frame, frame_read. run; reflexivity.
Qed.

Lemma HandoffHandler_size (fakesink buf new_pad : Ptr) (c : GstCamera) (w : W) :
  (width_ (camera (HandoffHandler lib fakesink buf new_pad c w)),
   height_ (camera (HandoffHandler lib fakesink buf new_pad c w)))
  = frame_size lib new_pad w.
Proof.
  pose proof (HandoffHandler_run fakesink buf new_pad c w) as H.
  cbv zeta in H.
  destruct (frame_size lib new_pad w) as [width height].
  destruct H as [H _].
  destruct (Z.eqb_spec width (width_ c)) as [Hw | Hw];
    destruct (Z.eqb_spec height (height_ c)) as [Hh | Hh];
    cbn [andb] in H.
  1: destruct H as [_ [_ [H2 [H3 _]]]].
  2, 3, 4: destruct H as [H2 [H3 _]].
  all: congruence.
Qed.

(** X10. After a handoff that returns, the stored size is the size the pad
    reported, whether or not it changed, and the buffer held is the
    reference the handoff took; so the next frame read extracts that
    frame's [width * height * 4] bytes from it.  When the size changed and
    [width * height * 4] fits [uint32_t], the bytes extracted are exactly
    those of the array the handoff allocated: four per [uint32_t]
    element. *)
Theorem frame_read_after_handoff (fakesink buf new_pad : Ptr)
    (c : GstCamera) (w w' : W) :
  value (HandoffHandler lib fakesink buf new_pad c w) = Returns ->
  let r := HandoffHandler lib fakesink buf new_pad c w in
  let '(width, height) := frame_size lib new_pad w in
  width_ (camera r) = width
  /\ height_ (camera r) = height
  /\ In (Ev (gst_buffer_ref buf) (buffer (gst_ (camera r)))) (events r)
  /\ events (GetPreviewFrameBuffer lib (camera r) w')
     = (if is_null (buffer (gst_ (camera r))) then no_frame
        else frame_read (buffer (gst_ (camera r))) (pixels_ (camera r))
               ((width * height * 4) mod 2 ^ 32))
  /\ ((width =? width_ c) && (height =? height_ c) = false ->
      0 <= width * height * 4 < 2 ^ 32 ->
      exists count,
        filter is_allocation (events r)
        = [Ev (operator_new_array count) (pixels_ (camera r))]
        /\ pixels_ (camera r) <> None
        /\ (width * height * 4) mod 2 ^ 32 = 4 * count).
Proof.
  intros Hret. cbv zeta.
  pose proof (HandoffHandler_size fakesink buf new_pad c w) as Hsize.
  pose proof (HandoffHandler_run fakesink buf new_pad c w) as Hrun.
  cbv zeta in Hrun.
  destruct (frame_size lib new_pad w) as [width height].
  rewrite Hret in Hrun. destruct Hrun as [Hrun [Hswap _]].
  injection Hsize as Hw Hh.
  split; [exact Hw |]. split; [exact Hh |]. split; [| split].
  - assert (Hin : In (Ev (gst_buffer_ref buf)
                        (buffer (gst_ (camera
                           (HandoffHandler lib fakesink buf new_pad c w)))))
                     (filter is_buffer_event
                        (events (HandoffHandler lib fakesink buf new_pad
                                   c w)))).
    { rewrite Hswap. unfold buffer_swap. apply in_or_app. right.
      left. reflexivity. }
    apply filter_In in Hin. exact (proj1 Hin).
  - rewrite GetPreviewFrameBuffer_events, Hw, Hh. reflexivity.
  - intros Hchanged Hfits. rewrite Hchanged in Hrun.
    destruct Hrun as [_ [_ [_ [Hpx Halloc]]]].
    exists (imul width height). split; [exact Halloc |].
    split; [exact Hpx |].
    rewrite Z.mod_small by exact Hfits.
    unfold imul, sint32. rewrite Z.mod_small by lia. lia.
Qed.

(** ** SetZoomLevel and NaN *)

(** Without a NaN operand, [a < b] fails only if [b <= a]. *)
Lemma SFltb_false_SFleb (a b : spec_float) :
  a <> S754_nan -> b <> S754_nan -> SFltb a b = false -> SFleb b a = true.
Proof.
  unfold SFleb, SFltb, SFcompare.
  destruct a as [[]|[]| |[] m1 e1], b as [[]|[]| |[] m2 e2];
    try reflexivity; try discriminate; try congruence.
  all: intros _ _;
    change (Pos.compare_cont Eq m1 m2) with (Pos.compare m1 m2);
    change (Pos.compare_cont Eq m2 m1) with (Pos.compare m2 m1);
    rewrite (Z.compare_antisym e1 e2), (Pos.compare_antisym m1 m2);
    destruct (e1 ?= e2); cbn; try discriminate; try reflexivity;
    destruct (Pos.compare m1 m2); cbn; try discriminate; reflexivity.
Qed.

Lemma nan_compares_false (a b : float) :
  fval a = S754_nan ->
  flt a b = false /\ fgt a b = false /\ fle b a = false
  /\ static_cast_int a = None.
Proof.
  unfold flt, fgt, fle, static_cast_int, SFltb, SFleb, SFcompare.
  intros ->. destruct (fval b); repeat split.
Qed.

Lemma SetZoomLevel_no_source (zoom : float) (c : GstCamera) (w : W) :
  source (gst_ c) = None ->
  value (SetZoomLevel lib zoom c w) = Some false
  /\ events (SetZoomLevel lib zoom c w)
     = [Ev (std_cerr [Text "Source not initialized"]) tt].
Proof.
  intros Hs. unfold SetZoomLevel. unfold_m. rewrite Hs. norm.
  answer. split; reflexivity.
Qed.

(** X11. During the object's lifetime the outcome of [SetZoomLevel] is
    settled by the zoom alone once the source exists: the call applies a
    control value among 0, 1, 2, 3 and returns true exactly for the zooms
    in [0.0, 3.0], and its behaviour is undefined exactly for NaN, which
    passes both comparisons and reaches the conversion to [int].  Without
    a source every zoom, NaN included, is refused with one log line. *)
Theorem SetZoomLevel_undefined_only_for_nan (zoom : float)
    (c : GstCamera) (w : W) (t : list Event) :
  reachable lib c w t ->
  (source (gst_ c) = None ->
   value (SetZoomLevel lib zoom c w) = Some false
   /\ events (SetZoomLevel lib zoom c w)
      = [Ev (std_cerr [Text "Source not initialized"]) tt])
  /\ (source (gst_ c) <> None ->
      (value (SetZoomLevel lib zoom c w) = None <-> fval zoom = S754_nan)
      /\ (value (SetZoomLevel lib zoom c w) = Some true
          <-> fle f0_0 zoom = true /\ fle zoom f3_0 = true)
      /\ (value (SetZoomLevel lib zoom c w) = Some true ->
          exists k,
            0 <= k <= 3
            /\ events (SetZoomLevel lib zoom c w)
               = zoom_applied (source (gst_ c)) k)).
Proof.
  intros R. split; [apply SetZoomLevel_no_source |]. intros Hs.
  pose proof (reachable_bounds c w t R Hs) as HB. injection HB as Hmx Hmn.
  destruct (flt zoom (min_zoom_level_ c)) eqn:Emin.
  { destruct (SetZoomLevel_rejects zoom c w (or_intror (or_introl Emin)))
      as [Hv _].
    rewrite Hv, Hmn in *.
    pose proof (flt_not_fle _ _ Emin) as Hle.
    repeat split; try discriminate; try (intros [? ?]; congruence).
    intros Hnan. destruct (nan_compares_false zoom f0_0 Hnan) as [H _].
    congruence. }
  destruct (fgt zoom (max_zoom_level_ c)) eqn:Emax.
  { destruct (SetZoomLevel_rejects zoom c w (or_intror (or_intror Emax)))
      as [Hv _].
    rewrite Hv, Hmx in *.
    pose proof (flt_not_fle _ _ Emax) as Hle.
    repeat split; try discriminate; try (intros [? ?]; congruence).
    intros Hnan. destruct (nan_compares_false zoom f3_0 Hnan) as [_ [H _]].
    congruence. }
  pose proof (SetZoomLevel_passes zoom c w Hs Emin Emax) as HP.
  rewrite Hmn in Emin. rewrite Hmx in Emax.
  destruct (fval zoom) as [s | s | | s m e] eqn:Ez.
  4: assert (Hnn : fval zoom <> S754_nan) by congruence.
  1, 2: assert (Hnn : fval zoom <> S754_nan) by congruence.
  3: { destruct (nan_compares_false zoom f0_0 Ez) as [_ [_ [Hle Hcast]]].
       rewrite Hcast in HP. rewrite HP.
       repeat split; try discriminate; try reflexivity.
       intros [? ?]; congruence. }
  all: assert (H0 : fle f0_0 zoom = true)
         by (apply SFltb_false_SFleb; [exact Hnn | discriminate | exact Emin]).
  all: assert (H3 : fle zoom f3_0 = true)
         by (apply SFltb_false_SFleb; [discriminate | exact Hnn | exact Emax]).
  all: destruct (static_cast_int_zoom_range zoom H0 H3) as [k [Hk Hrange]].
  all: rewrite Hk in HP; destruct HP as [Hv He]; rewrite Hv.
  all: repeat split; try discriminate; try assumption; try reflexivity.
  all: try (intros; exists k; split; assumption).
  all: rewrite <- Ez; intros; congruence.
Qed.

(** ** Where the mutex is taken *)

Lemma perform_guarded (o : Op) (c : GstCamera) (w : W) :
  guarded NotHeld (events (perform lib o c w)) = true.
Proof.
  destruct o; unfold perform.
  - unfold Play. run; reflexivity.
  - unfold Pause. run; reflexivity.
  - unfold Stop. run; reflexivity.
  - unfold TakePicture. run; reflexivity.
  - unfold SetZoomLevel. run; reflexivity.
  - destruct (GetPreviewFrameBuffer_guarded c w) as [H _]. revert H.
    unfold_m. destruct (GetPreviewFrameBuffer lib c w) as [[[r c'] w'] t].
    norm. rewrite app_nil_r. exact (fun H => H).
  - reflexivity.
  - destruct (HandoffHandler_guarded fakesink buf new_pad c w) as [H _].
    revert H. unfold_m.
    destruct (HandoffHandler lib fakesink buf new_pad c w)
      as [[[r c'] w'] t].
    norm. rewrite app_nil_r. exact (fun H => H).
  - unfold HandleGstMessage. run; reflexivity.
Qed.

Lemma teardown_unlocked (g : GstElements) (r : GstStateChangeReturn) :
  existsb is_lock (teardown g r) = false
  /\ guarded NotHeld (teardown g r) = false.
Proof.
  unfold teardown.
  destruct (video_sink g), (pipeline g), (buffer g), (bus g); split;
    reflexivity.
Qed.

Lemma existsb_is_lock_app (t1 t2 : list Event) :
  existsb is_lock (t1 ++ t2) = existsb is_lock t1 || existsb is_lock t2.
Proof. apply existsb_app. Qed.

Lemma CreatePipeline_unlocked (c : GstCamera) (w : W) :
  existsb is_lock (events (CreatePipeline lib c w)) = false.
Proof. unfold CreatePipeline. run; reflexivity. Qed.

Lemma Preroll_unlocked (c : GstCamera) (w : W) :
  existsb is_lock (events (Preroll lib c w)) = false.
Proof. unfold Preroll. run; reflexivity. Qed.

Lemma GstCamera_new_unlocked (handler : Ptr) (c0 : GstCamera) (w : W) :
  existsb is_lock (events (GstCamera_new lib handler c0 w)) = false
  /\ guarded NotHeld (events (GstCamera_new lib handler c0 w)) = false.
Proof.
  rewrite GstCamera_new_parts.
  pose proof (CreatePipeline_unlocked (cleared handler c0) w) as HC.
  unfold events in *.
  destruct (CreatePipeline lib (cleared handler c0) w)
    as [[[created c1] w1] t1]; cbn [fst snd] in *.
  destruct created.
  - pose proof (Preroll_unlocked c1 w1) as HP. unfold events in HP.
    destruct (Preroll lib c1 w1) as [[[[] c2] w2] t2]; cbn [fst snd] in *.
    split; [| reflexivity].
    change (existsb is_lock (t1 ++ t2) = false).
    rewrite existsb_is_lock_app, HC, HP. reflexivity.
  - destruct (lib _ (std_cerr _) w1) as [[] w1'].
    destruct (DestroyPipeline_run c1 w1') as [_ [r He]]. unfold events in He.
    destruct (DestroyPipeline lib c1 w1') as [[[[] c2] w2] t2];
      cbn [fst snd] in *.
    subst t2. split; [| reflexivity].
    destruct (teardown_unlocked (gst_ c1) r) as [HT _].
    change (existsb is_lock
              (t1 ++ [Ev (std_cerr [Text "Failed to create a pipeline"]) tt]
               ++ teardown (gst_ c1) r) = false).
    rewrite !existsb_is_lock_app, HC, HT. reflexivity.
Qed.

(** X12. Every method and handler called during the object's lifetime
    reads the buffer handle only while holding the mutex, writes it only
    under the exclusive lock, and has released the mutex when it returns.
    The constructor and [DestroyPipeline] never take the mutex, although
    both access the handle. *)
Theorem mutex_taken_by_methods_only :
  (forall (o : Op) (c : GstCamera) (w : W),
      guarded NotHeld (events (perform lib o c w)) = true)
  /\ (forall (c : GstCamera) (w : W),
         existsb is_lock (events (DestroyPipeline lib c w)) = false
         /\ existsb is_access (events (DestroyPipeline lib c w)) = true)
  /\ (forall (handler : Ptr) (c0 : GstCamera) (w : W),
         existsb is_lock (events (GstCamera_new lib handler c0 w)) = false
         /\ existsb is_access (events (GstCamera_new lib handler c0 w))
            = true).
Proof.
  split; [exact perform_guarded |]. split.
  - intros c w. destruct (DestroyPipeline_run c w) as [_ [r ->]].
    destruct (teardown_unlocked (gst_ c) r) as [H _]. split; [exact H |].
    unfold teardown.
    destruct (video_sink (gst_ c)), (pipeline (gst_ c)), (buffer (gst_ c)),
      (bus (gst_ c)); reflexivity.
  - intros handler c0 w.
    destruct (GstCamera_new_unlocked handler c0 w) as [H _].
    split; [exact H |].
    rewrite GstCamera_new_parts.
    destruct (CreatePipeline lib (cleared handler c0) w)
      as [[[created c1] w1] t1].
    destruct created.
    + destruct (Preroll lib c1 w1) as [[[[] c2] w2] t2]. reflexivity.
    + destruct (lib _ (std_cerr _) w1) as [[] w1'].
      destruct (DestroyPipeline lib c1 w1') as [[[[] c2] w2] t2].
      reflexivity.
Qed.

(** ** The pixel array *)

(** X13. A handoff that returns has replaced the pixel array before it
    took the mutex: when the reported size differs from the stored one it
    allocates the new array, then frees the old one if there was one, and
    only then locks; under the lock no array is allocated or freed, and
    before it the buffer handle is not accessed.  When the size is
    unchanged no array is allocated or freed at all.  A handoff throws
    only when the size differs, for a negative element count before any
    allocation and otherwise when the allocation fails; it then keeps the
    old array, frees nothing, and neither locks nor accesses the handle. *)
Theorem pixel_array_replaced_before_lock (fakesink buf new_pad : Ptr)
    (c : GstCamera) (w : W) :
  let r := HandoffHandler lib fakesink buf new_pad c w in
  let '(width, height) := frame_size lib new_pad w in
  match value r with
  | Returns =>
      filter is_pixel_memory (until_lock (events r))
      = (if (width =? width_ c) && (height =? height_ c) then []
         else Ev (operator_new_array (imul width height))
                (pixels_ (camera r))
              :: (if is_null (pixels_ c) then []
                  else [Ev (operator_delete (pixels_ c)) tt]))
      /\ existsb is_access (until_lock (events r)) = false
      /\ filter is_pixel_memory (from_lock (events r)) = []
      /\ events r = until_lock (events r) ++ from_lock (events r)
      /\ existsb is_lock (from_lock (events r)) = true
  | Throws e =>
      (width =? width_ c) && (height =? height_ c) = false
      /\ match e with
         | bad_array_new_length =>
             imul width height < 0
             /\ filter is_pixel_memory (events r) = []
         | bad_alloc =>
             0 <= imul width height
             /\ filter is_pixel_memory (events r)
                = [Ev (operator_new_array (imul width height)) None]
         end
      /\ pixels_ (camera r) = pixels_ c
      /\ existsb is_lock (events r) = false
      /\ existsb is_access (events r) = false
  end.
Proof.
  destruct c as [[p src dec conv sink out b old] px wd ht mx mn cb h].
  cbv zeta. unfold frame_size, HandoffHandler. unfold_m.
  do 5 answer. norm_goal.
  destruct (r1 =? wd), (r2 =? ht); cbn [negb orb andb]; run;
    repeat split; try reflexivity;
    first [apply Z.ltb_lt; assumption | apply Z.ltb_ge; assumption].
Qed.

(** ** Play, Pause and Stop on any handle *)

(** X14. [Play], [Pause] and [Stop] ask for the state change without
    testing the pipeline handle: each makes exactly one request, to
    whatever [gst_.pipeline] holds, changes no field and releases nothing.
    After a failed construction that handle is null.  Only [Play] waits
    for the state, and only when the request answered ASYNC. *)
Theorem state_methods_ask_any_pipeline :
  (forall (c : GstCamera) (w : W),
      state_requests (events (Play lib c w))
      = [(pipeline (gst_ c), GST_STATE_PLAYING)]
      /\ state_requests (events (Pause lib c w))
         = [(pipeline (gst_ c), GST_STATE_PAUSED)]
      /\ state_requests (events (Stop lib c w))
         = [(pipeline (gst_ c), GST_STATE_READY)])
  /\ (forall (c : GstCamera) (w : W),
         List.length (filter is_state_wait (events (Play lib c w)))
         = (if is_async (fst (set_state_answer lib c w GST_STATE_PLAYING))
            then 1%nat else 0%nat)
         /\ filter is_state_wait (events (Pause lib c w)) = []
         /\ filter is_state_wait (events (Stop lib c w)) = [])
  /\ (forall (c : GstCamera) (w w' : W) (t : list Event),
         reachable lib c w t ->
         none_created c = true ->
         state_requests (events (Play lib c w'))
         = [(None, GST_STATE_PLAYING)]).
Proof.
  split; [| split].
  - intros c w. repeat split.
    + unfold Play. run; reflexivity.
    + unfold Pause. run; reflexivity.
    + unfold Stop. run; reflexivity.
  - intros c w. unfold set_state_answer. repeat split.
    + unfold Play. run; reflexivity.
    + unfold Pause. run; reflexivity.
    + unfold Stop. run; reflexivity.
  - intros c w w' t _ Hnone.
    assert (Hp : pipeline (gst_ c) = None).
    { unfold none_created in Hnone.
      destruct (pipeline (gst_ c)); [discriminate | reflexivity]. }
    rewrite <- Hp. unfold Play. run; reflexivity.
Qed.

(** ** The pipeline and the bus over the object's lifetime *)

Lemma CreatePipeline_owned (handler : Ptr) (c0 : GstCamera) (w : W) :
  let r := CreatePipeline lib (cleared handler c0) w in
  exists b,
    filter is_owned_creation (events r)
    = owned_objects (pipeline (gst_ (camera r))) b
    /\ bus (gst_ (camera r)) = bus_of b
    /\ filter is_object_unref (events r) = [].
Proof.
  destruct c0 as [[p src dec conv sink out b old] px wd ht mx mn cb h].
  cbv zeta. unfold cleared, CreatePipeline. norm_goal. run.
  all: first [ exists None; repeat split; reflexivity
             | eexists (Some _); repeat split; reflexivity ].
Qed.

Lemma Preroll_owned (c : GstCamera) (w : W) :
  filter is_owned_creation (events (Preroll lib c w)) = []
  /\ filter is_object_unref (events (Preroll lib c w)) = [].
Proof. unfold Preroll. run; split; reflexivity. Qed.

Lemma teardown_owned (g : GstElements) (r : GstStateChangeReturn) :
  filter is_owned_creation (teardown g r) = []
  /\ filter is_object_unref (teardown g r) = unreferenced (pipeline g) (bus g).
Proof.
  unfold teardown, unreferenced.
  destruct (video_sink g), (pipeline g), (buffer g), (bus g); split;
    reflexivity.
Qed.

Lemma perform_owned (o : Op) (c : GstCamera) (w : W) :
  filter is_owned_creation (events (perform lib o c w)) = []
  /\ filter is_object_unref (events (perform lib o c w)) = [].
Proof.
  destruct o; unfold perform.
  - unfold Play. run; split; reflexivity.
  - unfold Pause. run; split; reflexivity.
  - unfold Stop. run; split; reflexivity.
  - unfold TakePicture. run; split; reflexivity.
  - unfold SetZoomLevel. run; split; reflexivity.
  - unfold GetPreviewFrameBuffer. run; split; reflexivity.
  - split; reflexivity.
  - unfold HandoffHandler. run; split; reflexivity.
  - unfold HandleGstMessage. run; split; reflexivity.
Qed.

(** What the constructor obtained and has not given back yet is what the
    object's handles hold. *)
Lemma GstCamera_new_owned (handler : Ptr) (c0 : GstCamera) (w : W) :
  let c := camera (GstCamera_new lib handler c0 w) in
  let t := events (GstCamera_new lib handler c0 w) in
  exists p b,
    filter is_owned_creation t = owned_objects p b
    /\ filter is_object_unref t
       ++ unreferenced (pipeline (gst_ c)) (bus (gst_ c))
       = unreferenced p (bus_of b).
Proof.
  cbv zeta. rewrite GstCamera_new_parts.
  destruct (CreatePipeline_owned handler c0 w) as [b [Ho [Hb Hu]]].
  cbv zeta in Ho, Hb, Hu.
  destruct (CreatePipeline_frame (cleared handler c0) w) as [g [Hc [Hout Hbuf]]].
  unfold camera, events in *.
  destruct (CreatePipeline lib (cleared handler c0) w)
    as [[[created c1] w1] t1]; cbn [fst snd] in *.
  exists (pipeline (gst_ c1)), b. destruct created.
  - pose proof (Preroll_camera c1 w1) as HP.
    destruct (Preroll_owned c1 w1) as [HPo HPu].
    unfold camera, events in HP, HPo, HPu.
    destruct (Preroll lib c1 w1) as [[[[] c2] w2] t2]; cbn [fst snd] in *.
    subst c2. split.
    + change (filter is_owned_creation (t1 ++ t2)
              = owned_objects (pipeline (gst_ c1)) b).
      rewrite filter_app, Ho, HPo. apply app_nil_r.
    + change (filter is_object_unref (t1 ++ t2)
              ++ unreferenced (pipeline (gst_ c1)) (bus (gst_ c1))
              = unreferenced (pipeline (gst_ c1)) (bus_of b)).
      rewrite filter_app, Hu, HPu, Hb. reflexivity.
  - destruct (lib _ (std_cerr _) w1) as [[] w1'].
    destruct (DestroyPipeline_run c1 w1') as [HD [r He]].
    unfold camera, events in HD, He.
    destruct (DestroyPipeline lib c1 w1') as [[[[] c2] w2] t2];
      cbn [fst snd] in *.
    subst c2 t2. destruct (teardown_owned (gst_ c1) r) as [HTo HTu]. split.
    + change (filter is_owned_creation
                (t1 ++ [Ev (std_cerr [Text "Failed to create a pipeline"]) tt]
                 ++ teardown (gst_ c1) r)
              = owned_objects (pipeline (gst_ c1)) b).
      rewrite !filter_app, Ho, HTo. apply app_nil_r.
    + change (filter is_object_unref
                (t1 ++ [Ev (std_cerr [Text "Failed to create a pipeline"]) tt]
                 ++ teardown (gst_ c1) r)
              ++ unreferenced (pipeline (gst_ (destroyed c1)))
                   (bus (gst_ (destroyed c1)))
              = unreferenced (pipeline (gst_ c1)) (bus_of b)).
      rewrite !filter_app, Hu, HTu, Hb. cbn [app filter is_object_unref].
      apply app_nil_r.
Qed.

Lemma reachable_owned (c : GstCamera) (w : W) (t : list Event) :
  reachable lib c w t ->
  exists p b,
    filter is_owned_creation t = owned_objects p b
    /\ filter is_object_unref t
       ++ unreferenced (pipeline (gst_ c)) (bus (gst_ c))
       = unreferenced p (bus_of b).
Proof.
  induction 1 as [c0 handler w0 | c w t o R IH Hdef].
  - apply GstCamera_new_owned.
  - destruct IH as [p [b [Ho Hu]]]. exists p, b.
    destruct (perform_owned o c w) as [Hpo Hpu].
    destruct (perform_handles o c w) as [HH _].
    unfold handles in HH. injection HH as Hp _ _ _ _ _ Hb.
    rewrite !filter_app, Hpo, Hpu, !app_nil_r, Hp, Hb. split; assumption.
Qed.

Lemma GstCamera_delete_owned (c : GstCamera) (w : W) :
  filter is_owned_creation (events (GstCamera_delete lib c w)) = []
  /\ filter is_object_unref (events (GstCamera_delete lib c w))
     = unreferenced (pipeline (gst_ c)) (bus (gst_ c)).
Proof.
  rewrite GstCamera_delete_parts.
  pose proof (Stop_camera c w) as HS.
  assert (HSo : filter is_owned_creation (events (Stop lib c w)) = []
                /\ filter is_object_unref (events (Stop lib c w)) = []).
  { unfold Stop. run; split; reflexivity. }
  destruct HSo as [HSo HSu]. unfold camera, events in HS, HSo, HSu |- *.
  destruct (Stop lib c w) as [[[stopped c1] w1] t1]; cbn [fst snd] in *.
  subst c1.
  destruct (DestroyPipeline_run c w1) as [_ [r He]]. unfold events in He.
  destruct (DestroyPipeline lib c w1) as [[[[] c2] w2] t2]; cbn [fst snd] in *.
  subst t2. destruct (teardown_owned (gst_ c) r) as [HTo HTu].
  rewrite !filter_app, HSo, HSu, HTo, HTu. split; reflexivity.
Qed.

(** X15. Over the object's whole life, from the constructor through any
    calls to the destructor, the adapter obtains one pipeline and at most
    one bus, and unreferences each of the two that exists exactly once,
    the bus first: in the constructor if [CreatePipeline] failed, in the
    destructor otherwise.  Nothing else is unreferenced as an object; the
    four elements never are. *)
Theorem pipeline_and_bus_released_once (c : GstCamera) (w w' : W)
    (t : list Event) :
  reachable lib c w t ->
  exists p b,
    filter is_owned_creation (t ++ events (GstCamera_delete lib c w'))
    = owned_objects p b
    /\ filter is_object_unref (t ++ events (GstCamera_delete lib c w'))
       = unreferenced p (bus_of b).
Proof.
  intros R. destruct (reachable_owned c w t R) as [p [b [Ho Hu]]].
  destruct (GstCamera_delete_owned c w') as [Hdo Hdu].
  exists p, b. rewrite !filter_app, Hdo, Hdu, app_nil_r.
  split; assumption.
Qed.


(** ** What is logged *)

Lemma CreatePipeline_logs (c : GstCamera) (w : W) :
  let r := CreatePipeline lib c w in
  if value r then filter is_cerr (events r) = []
  else exists line, filter is_cerr (events r) = [Ev (std_cerr line) tt].
Proof.
  cbv zeta.
  enough (H : forall outcome : bool -> list Event -> Prop,
             outcome
             = (fun created t =>
                  if created then filter is_cerr t = []
                  else exists line, filter is_cerr t = [Ev (std_cerr line) tt]) ->
             outcome (value (CreatePipeline lib c w))
               (events (CreatePipeline lib c w))).
  { exact (H _ eq_refl). }
  intros outcome Ho. unfold CreatePipeline.
  run; subst outcome; first [reflexivity | eexists; reflexivity].
Qed.

Lemma Preroll_logs (c : GstCamera) (w : W) :
  (List.length (filter is_cerr (events (Preroll lib c w))) <= 1)%nat.
Proof. unfold Preroll. run; cbn; auto. Qed.

Lemma teardown_logs (g : GstElements) (r : GstStateChangeReturn) :
  filter is_cerr (teardown g r) = [].
Proof.
  unfold teardown.
  destruct (video_sink g), (pipeline g), (buffer g), (bus g); reflexivity.
Qed.

(** X16. A refusal is always logged.  [CreatePipeline] writes exactly one
    line to [std::cerr] when it returns false and none when it returns
    true, and the constructor then adds its own line.  [Pause] and [Stop]
    write their line exactly when they return false.  [Play] writes the
    PLAYING line exactly when it returns false; when it returns true the
    only line it can write is the one for a failed wait.  [SetZoomLevel]
    writes exactly one line when it returns false and none when it
    returns true. *)
Theorem refusals_are_logged :
  (forall (c : GstCamera) (w : W),
      let r := CreatePipeline lib c w in
      if value r then filter is_cerr (events r) = []
      else exists line, filter is_cerr (events r) = [Ev (std_cerr line) tt])
  /\ (forall (handler : Ptr) (c0 : GstCamera) (w : W),
         let t := events (GstCamera_new lib handler c0 w) in
         if value (CreatePipeline lib (cleared handler c0) w)
         then (List.length (filter is_cerr t) <= 1)%nat
         else exists line,
             filter is_cerr t
             = [Ev (std_cerr line) tt;
                Ev (std_cerr [Text "Failed to create a pipeline"]) tt])
  /\ (forall (c : GstCamera) (w : W),
         filter is_cerr (events (Pause lib c w))
         = (if value (Pause lib c w) then []
            else [Ev (std_cerr [Text "Failed to change the state to PAUSED"])
                    tt])
         /\ filter is_cerr (events (Stop lib c w))
            = (if value (Stop lib c w) then []
               else [Ev (std_cerr [Text "Failed to change the state to READY"])
                       tt])
         /\ (if value (Play lib c w)
             then filter is_cerr (events (Play lib c w)) = []
                  \/ filter is_cerr (events (Play lib c w))
                     = [Ev (std_cerr [Text "Failed to get the current state"])
                          tt]
             else filter is_cerr (events (Play lib c w))
                  = [Ev (std_cerr
                           [Text "Failed to change the state to PLAYING"]) tt]))
  /\ (forall (zoom : float) (c : GstCamera) (w : W),
         match value (SetZoomLevel lib zoom c w) with
         | Some false =>
             List.length (filter is_cerr (events (SetZoomLevel lib zoom c w)))
             = 1%nat
         | _ => filter is_cerr (events (SetZoomLevel lib zoom c w)) = []
         end).
Proof.
  split; [exact CreatePipeline_logs |]. split; [| split].
  - intros handler c0 w. cbv zeta. rewrite GstCamera_new_parts.
    pose proof (CreatePipeline_logs (cleared handler c0) w) as HC.
    cbv zeta in HC. unfold value, events in *.
    destruct (CreatePipeline lib (cleared handler c0) w)
      as [[[created c1] w1] t1]; cbn [fst snd] in *.
    destruct created.
    + pose proof (Preroll_logs c1 w1) as HP. unfold events in HP.
      destruct (Preroll lib c1 w1) as [[[[] c2] w2] t2]; cbn [fst snd] in *.
      change ((List.length (filter is_cerr (t1 ++ t2)) <= 1)%nat).
      rewrite filter_app, HC. exact HP.
    + destruct (lib _ (std_cerr _) w1) as [[] w1'].
      destruct (DestroyPipeline_run c1 w1') as [_ [r He]].
      unfold events in He.
      destruct (DestroyPipeline lib c1 w1') as [[[[] c2] w2] t2];
        cbn [fst snd] in *.
      subst t2. destruct HC as [line HC]. exists line.
      change (filter is_cerr
                (t1 ++ [Ev (std_cerr [Text "Failed to create a pipeline"]) tt]
                 ++ teardown (gst_ c1) r)
              = [Ev (std_cerr line) tt;
                 Ev (std_cerr [Text "Failed to create a pipeline"]) tt]).
      rewrite !filter_app, HC, teardown_logs. reflexivity.
  - intros c w. repeat split.
    + unfold Pause. unfold_m. answer.
      destruct r; cbn [is_failure]; norm_goal; try reflexivity.
      answer. reflexivity.
    + unfold Stop. unfold_m. answer.
      destruct r; cbn [is_failure]; norm_goal; try reflexivity.
      answer. reflexivity.
    + unfold Play. unfold_m. answer.
      destruct r; cbn [is_failure is_async]; norm_goal.
      * answer. reflexivity.
      * left. reflexivity.
      * answer. destruct r; cbn [is_failure]; norm_goal.
        -- answer. right. reflexivity.
        -- left. reflexivity.
        -- left. reflexivity.
        -- left. reflexivity.
      * left. reflexivity.
  - intros zoom c w. unfold SetZoomLevel. unfold_m.
    destruct (is_null (source (gst_ c))).
    + answer. reflexivity.
    + destruct (flt zoom (min_zoom_level_ c)); [answer; reflexivity |].
      destruct (fgt zoom (max_zoom_level_ c)); [answer; reflexivity |].
      destruct (static_cast_int zoom); [| reflexivity].
      do 2 answer. reflexivity.
Qed.

(** ** The locked region of a handoff *)

(** X17. From the moment a handoff takes the mutex its events are fixed:
    it reads the handle, gives back and clears the reference held so far
    if there is one, takes and stores the reference to the incoming
    buffer, notifies the stream handler while the mutex is still held
    exclusively, and unlocks last.  A handoff that throws never takes the
    mutex and notifies nobody. *)
Theorem frame_notified_under_lock (fakesink buf new_pad : Ptr)
    (c : GstCamera) (w : W) :
  let r := HandoffHandler lib fakesink buf new_pad c w in
  match value r with
  | Returns =>
      from_lock (events r)
      = locked_region (buffer (gst_ c)) buf (buffer (gst_ (camera r)))
          (stream_handler_ c)
      /\ fold_left after_event
           (removelast (removelast (from_lock (events r)))) NotHeld
         = HeldExclusive
  | Throws _ =>
      from_lock (events r) = []
      /\ filter is_frame_notification (events r) = []
  end.
Proof.
  destruct c as [[p src dec conv sink out b old] px wd ht mx mn cb h].
  cbv zeta.
  enough (H : forall outcome : Completion -> GstCamera -> list Event -> Prop,
             outcome
             = (fun v c' t =>
                  match v with
                  | Returns =>
                      from_lock t
                      = locked_region old buf (buffer (gst_ c')) h
                      /\ fold_left after_event
                           (removelast (removelast (from_lock t))) NotHeld
                         = HeldExclusive
                  | Throws _ =>
                      from_lock t = []
                      /\ filter is_frame_notification t = []
                  end) ->
             let r := HandoffHandler lib fakesink buf new_pad
                        (mkCamera (mkElements p src dec conv sink out b old)
                           px wd ht mx mn cb h) w in
             outcome (value r) (camera r) (events r)).
  { exact (H _ eq_refl). }
  intros outcome Ho. cbv zeta. unfold HandoffHandler. unfold_m.
  do 5 answer. norm_goal.
  destruct (r1 =? wd), (r2 =? ht); cbn [negb orb andb]; run;
    subst outcome; unfold locked_region; split; reflexivity.
Qed.

End Properties.

(** * Runs against the scripted library *)

(** Both objects are states of a lifetime. *)
Lemma constructed_reachable :
  reachable (scripted all_good) (camera constructed) (world constructed)
    (events constructed).
Proof.
  exact (reach_new (scripted all_good) (storage f_nan f_nan)
           (Some 9%positive) 0%nat).
Qed.

Lemma streaming_reachable :
  reachable (scripted all_good)
    (camera (perform (scripted all_good) first_frame
               (camera constructed) (world constructed)))
    (world (perform (scripted all_good) first_frame
              (camera constructed) (world constructed)))
    (events constructed
     ++ events (perform (scripted all_good) first_frame
                  (camera constructed) (world constructed))).
Proof. apply reach_op; [exact constructed_reachable | reflexivity]. Qed.

(** A pipeline built without a failure, and one whose second link fails. *)
Lemma CreatePipeline_builds_in_order_witness :
  links (events (CreatePipeline (scripted all_good)
                   (storage f_nan f_nan) 0%nat))
  = [(Some 2%positive, Some 3%positive, Some (Some 100%positive));
     (Some 3%positive, Some 4%positive, None);
     (Some 4%positive, Some 5%positive, Some (Some 100%positive))]
  /\ value (CreatePipeline (scripted (failing 7))
              (storage f_nan f_nan) 0%nat) = false.
Proof.
  split.
  - exact (proj2 (proj1 (proj2 (CreatePipeline_builds_in_order
                                  (scripted all_good)
                                  (storage f_nan f_nan) 0%nat)) eq_refl)).
  - pose (r := CreatePipeline (scripted (failing 7))
                 (storage f_nan f_nan) 0%nat).
    refine (proj1 (proj2 (proj2 (proj2 (proj2
                     (CreatePipeline_builds_in_order
                        (scripted (failing 7))
                        (storage f_nan f_nan) 0%nat))))
                     (firstn 15 (events r))
                     (Ev (gst_element_link (Some 3%positive) (Some 4%positive))
                         false)
                     (skipn 16 (events r)) _ _));
      reflexivity.
Defined.

(** After [TakePicture] with callback 7 an "image-done" message invokes
    it with the file name. *)
Lemma TakePicture_stores_callback_witness :
  let after := TakePicture (scripted all_good) (Some 7%positive)
                 (camera constructed) (world constructed) in
  events (HandleGstMessage (scripted all_good) image_done
            (camera after) (world after))
  = [Ev (invoke_on_notify_captured 7%positive (Some "/tmp/shot.jpg")) tt;
     Ev (gst_message_unref image_done) tt].
Proof.
  exact (proj1 (proj2 (TakePicture_stores_callback (scripted all_good)))
           7%positive (camera constructed) (world constructed) image_done
           (mkStructure "image-done" [("filename", GString "/tmp/shot.jpg")])
           eq_refl eq_refl eq_refl).
Defined.

(** Zoom 3.5 and zoom -1.0 are refused; zoom 2.9, within the bounds, is
    applied. *)
Lemma SetZoomLevel_range_check_witness :
  value (SetZoomLevel (scripted all_good) f3_5
           (camera constructed) (world constructed)) = Some false
  /\ value (SetZoomLevel (scripted all_good) f_minus_1
              (camera constructed) (world constructed)) = Some false
  /\ value (SetZoomLevel (scripted all_good) f2_9
              (camera constructed) (world constructed)) = Some true.
Proof.
  split; [| split].
  - refine (proj1 (proj1 (SetZoomLevel_range_check (scripted all_good))
                     f3_5 (camera constructed) (world constructed) _)).
    right. right. reflexivity.
  - refine (proj1 (proj1 (SetZoomLevel_range_check (scripted all_good))
                     f_minus_1 (camera constructed) (world constructed) _)).
    right. left. reflexivity.
  - destruct (proj2 (SetZoomLevel_range_check (scripted all_good))
                f2_9 (camera constructed) (world constructed)
                (events constructed) constructed_reachable)
      as [k [_ [Hv _]]];
      [discriminate | reflexivity | reflexivity | exact Hv].
Defined.

(** NaN is neither below the minimum nor above the maximum: the call gets
    as far as the conversion to [int], which is undefined for NaN. *)
Example SetZoomLevel_nan :
  flt f_nan f0_0 = false /\ fgt f_nan f3_0 = false
  /\ value (SetZoomLevel (scripted all_good) f_nan
              (camera constructed) (world constructed)) = None.
Proof. repeat split. Qed.

(** The stored bounds of the constructed object are those of
    [GetZoomMaxMinSize]. *)
Lemma zoom_bounds_fixed_witness :
  bounds (camera constructed) = (f3_0, f0_0).
Proof.
  refine (proj2 (proj2 (proj2 (proj2 (proj2
            (zoom_bounds_fixed (scripted all_good))))))
            (camera constructed) (world constructed) (events constructed)
            constructed_reachable _).
  discriminate.
Defined.

(** [Play] over a library whose state change is asynchronous and whose
    wait fails. *)
Lemma state_change_status_as_bool_witness :
  value (Play (scripted async_wait_fails) (camera constructed) 0%nat) = true.
Proof.
  refine (proj1 (proj1 (proj2 (proj2 (proj2 (proj2 (proj2 (proj2
            (state_change_status_as_bool (scripted async_wait_fails)
               (camera constructed) 0%nat))))))) _ _));
    reflexivity.
Defined.

(** A frame read after the first 1920x1080 frame asks for 8294400 bytes. *)
Lemma GetPreviewFrameBuffer_extracts_witness :
  let streaming := perform (scripted all_good) first_frame
                     (camera constructed) (world constructed) in
  (1920 * 1080 * 4) mod 2 ^ 32 = 8294400
  /\ events (GetPreviewFrameBuffer (scripted all_good)
               (camera streaming) (world streaming))
     = frame_read (Some 50%positive) (Some 210%positive) 8294400.
Proof.
  cbv zeta. split.
  - refine (proj2 (proj2 (proj2 (GetPreviewFrameBuffer_extracts
              (scripted all_good)
              (camera (perform (scripted all_good) first_frame
                         (camera constructed) (world constructed)))
              (world (perform (scripted all_good) first_frame
                        (camera constructed) (world constructed)))))) _).
    split; [discriminate | reflexivity].
  - exact (proj1 (proj2 (proj2 (GetPreviewFrameBuffer_extracts
             (scripted all_good)
             (camera (perform (scripted all_good) first_frame
                        (camera constructed) (world constructed)))
             (world (perform (scripted all_good) first_frame
                       (camera constructed) (world constructed))))))).
Defined.

(** The control value for zoom 2.9 is 2. *)
Lemma SetZoomLevel_truncates_witness :
  events (SetZoomLevel (scripted all_good) f2_9
            (camera constructed) (world constructed))
  = zoom_applied (Some 2%positive) 2.
Proof.
  destruct (proj1 (SetZoomLevel_truncates (scripted all_good))
              f2_9 (camera constructed) (world constructed)
              (events constructed) constructed_reachable)
    as [q [Hq He]];
    [discriminate | reflexivity | reflexivity |].
  injection Hq as <-. exact He.
Defined.



(** An end-of-stream message is unreferenced and dropped. *)
Lemma HandleGstMessage_total_witness :
  value (HandleGstMessage (scripted all_good) end_of_stream
           (camera constructed) (world constructed)) = GST_BUS_DROP
  /\ events (HandleGstMessage (scripted all_good) end_of_stream
               (camera constructed) (world constructed))
     = [Ev (gst_message_unref end_of_stream) tt].
Proof.
  split.
  - exact (proj1 (HandleGstMessage_total (scripted all_good) end_of_stream
                    (camera constructed) (world constructed))).
  - refine (proj2 (proj2 (proj2 (HandleGstMessage_total (scripted all_good)
              end_of_stream (camera constructed) (world constructed))))
              _ _ _); discriminate.
Defined.

(** *** A schedule of the two threads *)

Lemma steps_front (s1 s2 s3 : Machine) :
  machine_step s1 s2 -> machine_steps s2 s3 -> machine_steps s1 s3.
Proof.
  intros H12 H23. induction H23 as [s | s2 s3 s4 _ IH H34].
  - apply (steps_more s1 s1 s); [apply steps_none | exact H12].
  - eapply steps_more; [exact (IH H12) | exact H34].
Qed.

(** The callback thread runs [done] while the consumer has not started. *)
Lemma callback_runs_alone (done : list Event) :
  forall (m1 : Held) (t1 t2 : list Event),
    machine_steps (mkMachine (done ++ t1) m1 t2 NotHeld)
                  (mkMachine t1 (fold_left after_event done m1) t2 NotHeld).
Proof.
  induction done as [| e done IH]; intros m1 t1 t2; cbn [app fold_left].
  - apply steps_none.
  - eapply steps_front; [| apply IH].
    apply step_callback. destruct e as [R [] r | a]; reflexivity.
Qed.

(** While the handoff is inside its locked region the frame read is not,
    and there is no race. *)
Lemma buffer_handle_never_shared_with_writer_witness :
  ~ race inside_handoff /\ ~ both_inside inside_handoff.
Proof.
  refine (proj2 (proj2 (buffer_handle_never_shared_with_writer
                          (scripted all_good)))
            (handoff_events ++ []) (read_events ++ []) inside_handoff _ _ _).
  - exact (callback_handoff (scripted all_good) (Some 5%positive)
             (Some 50%positive) (Some 51%positive)
             (camera constructed) (world constructed) []
             (callback_idle (scripted all_good))).
  - exact (consumer_read (scripted all_good)
             (camera constructed) (world constructed) []
             (consumer_idle (scripted all_good))).
  - exact (callback_runs_alone (firstn 9 handoff_events) NotHeld
             (skipn 9 handoff_events) read_events).
Defined.

(** *** Runs of the constructor, the destructor and the calls between *)

Lemma failed_reachable :
  reachable (scripted (failing 3)) (camera failed_construction)
    (world failed_construction) (events failed_construction).
Proof.
  exact (reach_new (scripted (failing 3)) (storage f_nan f_nan)
           (Some 9%positive) 0%nat).
Qed.

(** The preroll of the constructed object over a library whose state
    change is asynchronous and whose wait fails. *)
Lemma Preroll_only_logs_failures_witness :
  events (Preroll (scripted async_wait_fails) (camera constructed) 0%nat)
  = [Ev (gst_element_set_state (Some 1%positive) GST_STATE_PAUSED)
        GST_STATE_CHANGE_ASYNC;
     Ev (gst_element_get_state (Some 1%positive)) GST_STATE_CHANGE_FAILURE;
     Ev (std_cerr [Text "Failed to get the current state"]) tt].
Proof.
  refine (proj2 (proj2 (proj2 (Preroll_only_logs_failures
            (scripted async_wait_fails) (camera constructed) 0%nat))) _).
  discriminate.
Defined.

(** After the failed construction every handle is null. *)
Lemma handles_fixed_for_life_witness :
  output (gst_ (camera failed_construction)) = None
  /\ (all_created (camera failed_construction) = true
      /\ bounds (camera failed_construction) = (f3_0, f0_0)
      \/ none_created (camera failed_construction) = true).
Proof.
  exact (proj2 (handles_fixed_for_life (scripted (failing 3)))
           _ _ _ failed_reachable).
Defined.

(** The destructor gives back the reference the first frame took. *)
Lemma GstCamera_delete_releases_witness :
  ref_balance
    ((events constructed
      ++ events (perform (scripted all_good) first_frame
                   (camera constructed) (world constructed)))
     ++ events (GstCamera_delete (scripted all_good)
                  (camera (perform (scripted all_good) first_frame
                             (camera constructed) (world constructed)))
                  0%nat))
  = 0.
Proof.
  exact (proj2 (GstCamera_delete_releases (scripted all_good))
           _ _ 0%nat _ streaming_reachable).
Defined.

(** The caps of the constructor and of the first frame are given back. *)
Lemma caps_given_back_witness :
  caps_released
    (events constructed
     ++ events (perform (scripted all_good) first_frame
                  (camera constructed) (world constructed)))
  = caps_obtained
      (events constructed
       ++ events (perform (scripted all_good) first_frame
                    (camera constructed) (world constructed))).
Proof.
  exact (proj2 (proj2 (caps_given_back (scripted all_good)))
           _ _ _ streaming_reachable).
Defined.

(** The first 1920x1080 frame allocates 2073600 elements, and a frame read
    extracts four bytes for each. *)
Lemma frame_read_after_handoff_witness :
  exists count,
    filter is_allocation handoff_events
    = [Ev (operator_new_array count) (Some 210%positive)]
    /\ Some 210%positive <> None
    /\ (1920 * 1080 * 4) mod 2 ^ 32 = 4 * count.
Proof.
  refine (proj2 (proj2 (proj2 (proj2
            (frame_read_after_handoff (scripted all_good)
               (Some 5%positive) (Some 50%positive) (Some 51%positive)
               (camera constructed) (world constructed) 0%nat _)))) _ _).
  - reflexivity.
  - reflexivity.
  - split; [discriminate | reflexivity].
Defined.

(** On the constructed object NaN reaches the conversion, and 2.9 is
    applied as a control value within 0..3. *)
Lemma SetZoomLevel_undefined_only_for_nan_witness :
  value (SetZoomLevel (scripted all_good) f_nan
           (camera constructed) (world constructed)) = None
  /\ exists k,
       0 <= k <= 3
       /\ events (SetZoomLevel (scripted all_good) f2_9
                    (camera constructed) (world constructed))
          = zoom_applied (source (gst_ (camera constructed))) k.
Proof.
  assert (Hsrc : source (gst_ (camera constructed)) <> None) by discriminate.
  split.
  - refine (proj2 (proj1 (proj2 (SetZoomLevel_undefined_only_for_nan
              (scripted all_good) f_nan _ _ _ constructed_reachable)
              Hsrc)) _).
    reflexivity.
  - refine (proj2 (proj2 (proj2 (SetZoomLevel_undefined_only_for_nan
              (scripted all_good) f2_9 _ _ _ constructed_reachable)
              Hsrc)) _).
    reflexivity.
Defined.

(** [Play] after the failed construction asks a null pipeline. *)
Lemma state_methods_ask_any_pipeline_witness :
  state_requests
    (events (Play (scripted (failing 3)) (camera failed_construction) 0%nat))
  = [(None, GST_STATE_PLAYING)].
Proof.
  refine (proj2 (proj2 (state_methods_ask_any_pipeline (scripted (failing 3))))
            _ _ 0%nat _ failed_reachable _).
  reflexivity.
Defined.

(** In the failed construction only the pipeline was obtained, and the
    constructor unreferenced it: the destructor has nothing left to give
    back. *)
Lemma pipeline_and_bus_released_once_witness :
  filter is_object_unref
    (events failed_construction
     ++ events (GstCamera_delete (scripted (failing 3))
                  (camera failed_construction) 0%nat))
  = [Ev (gst_object_unref (Some 1%positive)) tt].
Proof.
  destruct (pipeline_and_bus_released_once (scripted (failing 3))
              _ _ 0%nat _ failed_reachable) as [p [b [Ho Hu]]].
  rewrite Hu. destruct b as [b |]; [discriminate Ho |].
  apply (f_equal
           (fun l : list Event =>
              match l with
              | Ev c r :: _ =>
                  match c in Call R return R -> Ptr with
                  | gst_pipeline_new _ => fun created => created
                  | _ => fun _ => None
                  end r
              | _ => None
              end)) in Ho.
  change (Some 1%positive = p) in Ho. rewrite <- Ho. reflexivity.
Defined.
